(** * Sticker layout planning: the CP-SAT model of [solve_stickers_layout]

    A shallow embedding of [main.py].  The function builds a constraint
    model through the [CpModel] interface (variables are allocated one after
    the other, constraints are appended to the model), hands it to the
    solver, and turns the solver's assignment into a report.

    The solver engine is not part of the program: it is taken as a
    parameter, and what the program relies on (the assignment of a
    successful status satisfies the model, and is a minimum for [OPTIMAL])
    is stated as [solver_contract]. *)

From stdpp Require Import base option list gmap strings pretty numbers sorting.

Local Open Scope Z_scope.

(** ** The constraint model *)

(** A variable of the model is its index in the model's variable list. *)
Definition IntVar := nat.

Record IntegerVariable := {
  var_lb : Z;
  var_ub : Z;
  var_name : string
}.

(** [z] and [z.Not()]. *)
Inductive Literal :=
  | Lit (v : IntVar)
  | Not (v : IntVar).

Inductive Relation := LE | GE | EQ.

(** [sum(vars) <= c], [sum(vars) >= c], [sum(vars) == c]; the sum of no
    variable is Python's integer 0, and [Add] of the resulting boolean is
    the always-true or the always-false constraint, which is what the
    comparison of the empty sum means here. *)
Record BoundedLinearExpression := {
  ble_terms : list IntVar;
  ble_rel : Relation;
  ble_bound : Z
}.

Inductive ConstraintBody :=
  | Linear (e : BoundedLinearExpression)
  | IntProd (target a b : IntVar).

Record Constraint := {
  enforcement_literal : list Literal;
  body : ConstraintBody
}.

Record CpModel := {
  variables : list IntegerVariable;
  constraints : list Constraint;
  objective : option (list IntVar)
}.

Definition new_model : CpModel :=
  {| variables := []; constraints := []; objective := None |}.

(** ** Building a model

    The builder threads the model; [None] is a raised [IndexError] or
    [KeyError]. *)
Definition Build (A : Type) : Type := CpModel → option (A * CpModel).

#[global] Instance Build_ret : MRet Build := λ A x m, Some (x, m).
#[global] Instance Build_bind : MBind Build := λ A B f c m,
  match c m with
  | Some (x, m') => f x m'
  | None => None
  end.

Definition lift {A} (o : option A) : Build A := λ m,
  match o with Some x => Some (x, m) | None => None end.

Definition NewIntVar (lb ub : Z) (name : string) : Build IntVar := λ m,
  Some (length (variables m),
        {| variables := variables m ++ [{| var_lb := lb; var_ub := ub; var_name := name |}];
           constraints := constraints m;
           objective := objective m |}).

Definition NewBoolVar (name : string) : Build IntVar := NewIntVar 0 1 name.

(** Appends a constraint and returns its index, the handle that
    [OnlyEnforceIf] works on. *)
Definition add_constraint (b : ConstraintBody) : Build nat := λ m,
  Some (length (constraints m),
        {| variables := variables m;
           constraints := constraints m ++ [{| enforcement_literal := []; body := b |}];
           objective := objective m |}).

Definition AddMultiplicationEquality (target a b : IntVar) : Build nat :=
  add_constraint (IntProd target a b).

Definition Add (e : BoundedLinearExpression) : Build nat :=
  add_constraint (Linear e).

Definition OnlyEnforceIf (ct : nat) (l : Literal) : Build unit := λ m,
  Some (tt,
        {| variables := variables m;
           constraints :=
             alter (λ c, {| enforcement_literal := enforcement_literal c ++ [l];
                            body := body c |}) ct (constraints m);
           objective := objective m |}).

Definition Minimize (obj : list IntVar) : Build unit := λ m,
  Some (tt, {| variables := variables m;
               constraints := constraints m;
               objective := Some obj |}).

(** [for a in l: f a]; the comprehension [[f a for a in l]] is stdpp's
    [mapM f l]. *)
Fixpoint for_ `{MBind M, MRet M} {A} (l : list A) (f : A → M unit) : M unit :=
  match l with
  | [] => mret tt
  | a :: l => _ ← f a; for_ l f
  end.

(** [for a in l: s = f s a], for a loop that updates a local [s]. *)
Fixpoint for_acc `{MBind M, MRet M} {A S} (l : list A) (f : S → A → M S) (s : S) : M S :=
  match l with
  | [] => mret s
  | a :: l => s' ← f s a; for_acc l f s'
  end.

(** [[a for a in l if c a]]. *)
Fixpoint select `{MBind M, MRet M} {A} (l : list A) (c : A → M bool) : M (list A) :=
  match l with
  | [] => mret []
  | a :: l => b ← c a; r ← select l c; mret (if b : bool then a :: r else r)
  end.

(** [range(n)] for a Python integer [n]: empty when [n <= 0]. *)
Definition range (n : Z) : list nat := seq 0 (Z.to_nat n).

Definition len {A} (l : list A) : Z := Z.of_nat (length l).

(** The variable handles that the function keeps after the model is built:
    the lists [x] and [z] and the dictionaries [y] and [w]. *)
Record Handles := {
  vars_x : list IntVar;
  vars_z : list IntVar;
  vars_y : gmap (nat * nat) IntVar;
  vars_w : gmap (nat * nat) IntVar
}.

Definition x_name (k : nat) : string := "x[" +:+ pretty k +:+ "]".
Definition z_name (k : nat) : string := "z[" +:+ pretty k +:+ "]".
Definition y_name (k i : nat) : string := "y[" +:+ pretty k +:+ "," +:+ pretty i +:+ "]".
Definition w_name (k i : nat) : string := "w[" +:+ pretty k +:+ "," +:+ pretty i +:+ "]".

(** ** Assignments and what it means to satisfy a model *)

(** [solver.Value(v)] *)
Definition Assignment := IntVar → Z.

Definition sum_values (a : Assignment) (vs : list IntVar) : Z :=
  foldr (λ v acc, a v + acc) 0 vs.

Definition literal_holds (a : Assignment) (l : Literal) : Prop :=
  match l with
  | Lit v => a v = 1
  | Not v => a v = 0
  end.

Definition relation_holds (r : Relation) (n c : Z) : Prop :=
  match r with
  | LE => n ≤ c
  | GE => c ≤ n
  | EQ => n = c
  end.

Definition body_holds (a : Assignment) (b : ConstraintBody) : Prop :=
  match b with
  | Linear e => relation_holds (ble_rel e) (sum_values a (ble_terms e)) (ble_bound e)
  | IntProd t u v => a t = a u * a v
  end.

(** A constraint with enforcement literals binds only when all of them
    are true. *)
Definition constraint_holds (a : Assignment) (c : Constraint) : Prop :=
  Forall (literal_holds a) (enforcement_literal c) → body_holds a (body c).

(** Every variable of [vs], the first of which has index [i], takes a
    value of its domain. *)
Fixpoint in_domains (a : Assignment) (i : IntVar) (vs : list IntegerVariable) : Prop :=
  match vs with
  | [] => True
  | v :: vs => var_lb v ≤ a i ≤ var_ub v ∧ in_domains a (S i) vs
  end.

Definition satisfies (m : CpModel) (a : Assignment) : Prop :=
  in_domains a 0%nat (variables m) ∧
  Forall (constraint_holds a) (constraints m).

Definition objective_value (m : CpModel) (a : Assignment) : Z :=
  match objective m with
  | Some obj => sum_values a obj
  | None => 0
  end.

Definition optimal (m : CpModel) (a : Assignment) : Prop :=
  satisfies m a ∧ ∀ a', satisfies m a' → objective_value m a ≤ objective_value m a'.

#[global] Instance literal_holds_dec a l : Decision (literal_holds a l).
Proof. destruct l; simpl; apply _. Defined.
#[global] Instance relation_holds_dec r n c : Decision (relation_holds r n c).
Proof. destruct r; simpl; apply _. Defined.
#[global] Instance body_holds_dec a b : Decision (body_holds a b).
Proof. destruct b; simpl; apply _. Defined.
#[global] Instance constraint_holds_dec a c : Decision (constraint_holds a c).
Proof. unfold constraint_holds; apply _. Defined.
#[global] Instance in_domains_dec a i vs : Decision (in_domains a i vs).
Proof. revert i; induction vs; intros i; simpl; apply _. Defined.
#[global] Instance satisfies_dec m a : Decision (satisfies m a).
Proof. unfold satisfies; apply _. Defined.

(** ** The solver *)

Inductive CpSolverStatus := UNKNOWN | MODEL_INVALID | FEASIBLE | INFEASIBLE | OPTIMAL.

Definition StatusName (s : CpSolverStatus) : string :=
  match s with
  | UNKNOWN => "UNKNOWN"
  | MODEL_INVALID => "MODEL_INVALID"
  | FEASIBLE => "FEASIBLE"
  | INFEASIBLE => "INFEASIBLE"
  | OPTIMAL => "OPTIMAL"
  end.

(** [solver.Solve(model)] under [max_time_in_seconds]: a status and the
    values read back with [solver.Value]. *)
Definition CpSolver := CpModel → Z → CpSolverStatus * Assignment.

(** What the engine promises about its answer on model [m]. *)
Definition solver_contract (m : CpModel) (r : CpSolverStatus * Assignment) : Prop :=
  match r.1 with
  | OPTIMAL => optimal m r.2
  | FEASIBLE => satisfies m r.2
  | _ => True
  end.

Definition found (s : CpSolverStatus) : bool :=
  match s with
  | OPTIMAL | FEASIBLE => true
  | _ => false
  end.

(** ** The program *)

(** One entry of [demand_checks]. *)
Record DemandCheck := {
  printed : Z;
  required : Z;
  met : bool
}.

(** Python's [sum] of integers. *)
Definition sum (l : list Z) : Z := foldr Z.add 0 l.

Definition default_max_layouts : Z := 5.
Definition default_layout_capacity : Z := 48.
Definition default_max_x_bound : Z := 100000.
Definition default_time_limit_sec : Z := 300.

Section program.
Context {Name : Type} `{Countable Name}.

(** The values stored in the returned dictionary. *)
Inductive PyVal :=
  | PyStr (s : string)
  | PyInt (n : Z)
  | PyList (l : list nat)
  | PyPrints (d : gmap nat Z)
  | PyDistributions (d : gmap nat (gmap Name Z))
  | PyChecks (d : gmap Name DemandCheck).

(** Lines 30-81 of [main.py]: from the split of [stickers] to
    [model.Minimize]. *)
Definition build_model (stickers : list (Name * Z))
    (max_layouts layout_capacity max_x_bound : Z) : Build Handles :=
  let sticker_names := stickers.*1 in
  let sticker_demands := stickers.*2 in
  let N := len sticker_names in
  let layouts := range max_layouts in
  x ← mapM (λ k, NewIntVar 0 max_x_bound (x_name k)) layouts;
  z ← mapM (λ k, NewBoolVar (z_name k)) layouts;
  y ← for_acc layouts (λ y k,
         for_acc (range N) (λ y i,
           v ← NewIntVar 0 layout_capacity (y_name k i);
           mret (<[(k, i) := v]> y)) y) ∅;
  w ← for_acc layouts (λ w k,
         for_acc (range N) (λ w i,
           v ← NewIntVar 0 (max_x_bound * layout_capacity) (w_name k i);
           mret (<[(k, i) := v]> w)) w) ∅;
  (* 1) Link w[k, i] = x[k] * y[k, i] *)
  _ ← for_ layouts (λ k,
         for_ (range N) (λ i,
           wki ← lift (w !! (k, i));
           xk ← lift (x !! k);
           yki ← lift (y !! (k, i));
           _ ← AddMultiplicationEquality wki xk yki;
           mret tt));
  (* 2) Layout capacity: sum of y[k, i] <= layout_capacity if z[k] = 1, else 0 *)
  _ ← for_ layouts (λ k,
         ys ← mapM (λ i, lift (y !! (k, i))) (range N);
         ct ← Add {| ble_terms := ys; ble_rel := LE; ble_bound := layout_capacity |};
         zk ← lift (z !! k);
         _ ← OnlyEnforceIf ct (Lit zk);
         ys ← mapM (λ i, lift (y !! (k, i))) (range N);
         ct ← Add {| ble_terms := ys; ble_rel := EQ; ble_bound := 0 |};
         zk ← lift (z !! k);
         OnlyEnforceIf ct (Not zk));
  (* 3) Demand constraints: sum of w[k, i] >= sticker_demands[i] *)
  _ ← for_ (range N) (λ i,
         ws ← mapM (λ k, lift (w !! (k, i))) layouts;
         d ← lift (sticker_demands !! i);
         _ ← Add {| ble_terms := ws; ble_rel := GE; ble_bound := d |};
         mret tt);
  (* 4) At most max_layouts used *)
  zs ← mapM (λ k, lift (z !! k)) layouts;
  _ ← Add {| ble_terms := zs; ble_rel := LE; ble_bound := max_layouts |};
  (* 5) Each sticker must appear in at least one layout *)
  _ ← for_ (range N) (λ i,
         ys ← mapM (λ k, lift (y !! (k, i))) layouts;
         _ ← Add {| ble_terms := ys; ble_rel := GE; ble_bound := 1 |};
         mret tt);
  (* Objective: minimize the sum of x[k] *)
  xs ← mapM (λ k, lift (x !! k)) layouts;
  _ ← Minimize xs;
  mret {| vars_x := x; vars_z := z; vars_y := y; vars_w := w |}.

(** Lines 90-114: the parts of the report, read off the assignment. *)
Definition used_layouts (h : Handles) (a : Assignment) (layouts : list nat)
    : option (list nat) :=
  select layouts (λ k, zk ← vars_z h !! k; mret (bool_decide (a zk = 1))).

Definition total_pages (h : Handles) (a : Assignment) (used : list nat) : option Z :=
  sum <$> mapM (λ k, xk ← vars_x h !! k; mret (a xk)) used.

Definition single_layout (h : Handles) (a : Assignment) (sticker_names : list Name)
    (N : Z) (k : nat) : option (gmap Name Z) :=
  for_acc (range N) (λ single_layout i,
    yki ← vars_y h !! (k, i);
    let copies_per_page := a yki in
    if bool_decide (copies_per_page > 0) then
      st_name ← sticker_names !! i;
      mret (<[st_name := copies_per_page]> single_layout)
    else mret single_layout) ∅.

Definition layout_distributions (h : Handles) (a : Assignment)
    (sticker_names : list Name) (N : Z) (used : list nat)
    : option (gmap nat (gmap Name Z)) :=
  for_acc used (λ layout_distributions k,
    single ← single_layout h a sticker_names N k;
    mret (<[k := single]> layout_distributions)) ∅.

Definition demand_checks (h : Handles) (a : Assignment)
    (sticker_names : list Name) (sticker_demands : list Z) (N : Z)
    (layouts : list nat) : option (gmap Name DemandCheck) :=
  for_acc (range N) (λ demand_checks i,
    name_i ← sticker_names !! i;
    required ← sticker_demands !! i;
    ws ← mapM (λ k, wki ← vars_w h !! (k, i); mret (a wki)) layouts;
    let printed := sum ws in
    mret (<[name_i := {| printed := printed;
                         required := required;
                         met := bool_decide (printed >= required) |}]> demand_checks)) ∅.

Definition layout_prints (h : Handles) (a : Assignment) (used : list nat)
    : option (gmap nat Z) :=
  for_acc used (λ d k, xk ← vars_x h !! k; mret (<[k := a xk]> d)) ∅.

Definition no_solution_message : string :=
  "No feasible solution found or time limit reached.".

(** The function of [main.py]; [None] is an exception raised on the way. *)
Definition solve_stickers_layout (solver : CpSolver) (stickers : list (Name * Z))
    (max_layouts layout_capacity max_x_bound time_limit_sec : Z)
    : option (gmap string PyVal) :=
  let sticker_names := stickers.*1 in
  let sticker_demands := stickers.*2 in
  let N := len sticker_names in
  let layouts := range max_layouts in
  '(h, model) ← build_model stickers max_layouts layout_capacity max_x_bound new_model;
  let '(status, a) := solver model time_limit_sec in
  if found status then
    used ← used_layouts h a layouts;
    pages ← total_pages h a used;
    dists ← layout_distributions h a sticker_names N used;
    checks ← demand_checks h a sticker_names sticker_demands N layouts;
    prints ← layout_prints h a used;
    Some (<["status" := PyStr (StatusName status)]>
         (<["used_layouts" := PyList used]>
         (<["layout_prints" := PyPrints prints]>
         (<["total_pages" := PyInt pages]>
         (<["layout_distributions" := PyDistributions dists]>
         (<["demand_checks" := PyChecks checks]> ∅))))))
  else
    Some (<["status" := PyStr (StatusName status)]>
         (<["message" := PyStr no_solution_message]> ∅)).

End program.


(** ** The model in closed form

    With [n] layouts and [N] stickers the variables are allocated in the
    order [x], [z], [y] (layout by layout), [w] (layout by layout). *)
Definition x_var (k : nat) : IntVar := k.
Definition z_var (n k : nat) : IntVar := (n + k)%nat.
Definition y_var (n N k i : nat) : IntVar := (n + n + k * N + i)%nat.
Definition w_var (n N k i : nat) : IntVar := (n + n + n * N + k * N + i)%nat.

Definition mkvar (lb ub : Z) (name : string) : IntegerVariable :=
  {| var_lb := lb; var_ub := ub; var_name := name |}.

Definition plain (b : ConstraintBody) : Constraint :=
  {| enforcement_literal := []; body := b |}.

Definition enforced (l : Literal) (b : ConstraintBody) : Constraint :=
  {| enforcement_literal := [l]; body := b |}.

Definition linear (vs : list IntVar) (r : Relation) (c : Z) : ConstraintBody :=
  Linear {| ble_terms := vs; ble_rel := r; ble_bound := c |}.

Definition expected_variables (n N : nat) (cap mx : Z) : list IntegerVariable :=
  ((λ k, mkvar 0 mx (x_name k)) <$> seq 0 n) ++
  ((λ k, mkvar 0 1 (z_name k)) <$> seq 0 n) ++
  (seq 0 n ≫= λ k, (λ i, mkvar 0 cap (y_name k i)) <$> seq 0 N) ++
  (seq 0 n ≫= λ k, (λ i, mkvar 0 (mx * cap) (w_name k i)) <$> seq 0 N).

Definition link_constraint (n N k i : nat) : Constraint :=
  plain (IntProd (w_var n N k i) (x_var k) (y_var n N k i)).

Definition capacity_constraints (n N : nat) (cap : Z) (k : nat) : list Constraint :=
  [enforced (Lit (z_var n k)) (linear (y_var n N k <$> seq 0 N) LE cap);
   enforced (Not (z_var n k)) (linear (y_var n N k <$> seq 0 N) EQ 0)].

Definition demand_constraint (n N : nat) (i : nat) (d : Z) : Constraint :=
  plain (linear ((λ k, w_var n N k i) <$> seq 0 n) GE d).

Definition cardinality_constraint (n : nat) (ml : Z) : Constraint :=
  plain (linear (z_var n <$> seq 0 n) LE ml).

Definition presence_constraint (n N : nat) (i : nat) : Constraint :=
  plain (linear ((λ k, y_var n N k i) <$> seq 0 n) GE 1).

Definition expected_constraints (n N : nat) (demands : list Z) (ml cap : Z)
    : list Constraint :=
  (seq 0 n ≫= λ k, link_constraint n N k <$> seq 0 N) ++
  (seq 0 n ≫= capacity_constraints n N cap) ++
  (seq 0 N ≫= λ i, from_option (λ d, [demand_constraint n N i d]) [] (demands !! i)) ++
  [cardinality_constraint n ml] ++
  (presence_constraint n N <$> seq 0 N).

Definition expected_model (demands : list Z) (ml cap mx : Z) : CpModel :=
  let n := Z.to_nat ml in
  let N := length demands in
  {| variables := expected_variables n N cap mx;
     constraints := expected_constraints n N demands ml cap;
     objective := Some (x_var <$> seq 0 n) |}.

Definition add_variables (m : CpModel) (vs : list IntegerVariable) : CpModel :=
  {| variables := variables m ++ vs;
     constraints := constraints m;
     objective := objective m |}.

Definition add_constraints (m : CpModel) (cs : list Constraint) : CpModel :=
  {| variables := variables m;
     constraints := constraints m ++ cs;
     objective := objective m |}.

(** The assignments that satisfy the model of [n = max_layouts] layouts
    and [N] stickers, constraint by constraint. *)
Record feasible (demands : list Z) (ml cap mx : Z) (a : Assignment) : Prop := {
  x_domain : ∀ k, (k < Z.to_nat ml)%nat → 0 ≤ a (x_var k) ≤ mx;
  z_domain : ∀ k, (k < Z.to_nat ml)%nat → 0 ≤ a (z_var (Z.to_nat ml) k) ≤ 1;
  y_domain : ∀ k i, (k < Z.to_nat ml)%nat → (i < length demands)%nat →
    0 ≤ a (y_var (Z.to_nat ml) (length demands) k i) ≤ cap;
  w_domain : ∀ k i, (k < Z.to_nat ml)%nat → (i < length demands)%nat →
    0 ≤ a (w_var (Z.to_nat ml) (length demands) k i) ≤ mx * cap;
  w_link : ∀ k i, (k < Z.to_nat ml)%nat → (i < length demands)%nat →
    a (w_var (Z.to_nat ml) (length demands) k i) =
    a (x_var k) * a (y_var (Z.to_nat ml) (length demands) k i);
  capacity_used : ∀ k, (k < Z.to_nat ml)%nat → a (z_var (Z.to_nat ml) k) = 1 →
    sum_values a (y_var (Z.to_nat ml) (length demands) k <$> seq 0 (length demands)) ≤ cap;
  capacity_unused : ∀ k, (k < Z.to_nat ml)%nat → a (z_var (Z.to_nat ml) k) = 0 →
    sum_values a (y_var (Z.to_nat ml) (length demands) k <$> seq 0 (length demands)) = 0;
  demand_covered : ∀ i d, demands !! i = Some d →
    d ≤ sum_values a ((λ k, w_var (Z.to_nat ml) (length demands) k i) <$> seq 0 (Z.to_nat ml));
  cardinality : sum_values a (z_var (Z.to_nat ml) <$> seq 0 (Z.to_nat ml)) ≤ ml;
  presence : ∀ i, (i < length demands)%nat →
    1 ≤ sum_values a ((λ k, y_var (Z.to_nat ml) (length demands) k i) <$> seq 0 (Z.to_nat ml))
}.

(** What [build_model] keeps in [x], [z], [y] and [w]. *)
Definition handles_ok (n N : nat) (h : Handles) : Prop :=
  vars_x h = x_var <$> seq 0 n ∧
  vars_z h = z_var n <$> seq 0 n ∧
  (∀ k i, vars_y h !! (k, i) =
     if decide ((k < n)%nat ∧ (i < N)%nat) then Some (y_var n N k i) else None) ∧
  (∀ k i, vars_w h !! (k, i) =
     if decide ((k < n)%nat ∧ (i < N)%nat) then Some (w_var n N k i) else None).

(** ** The report in closed form *)

Definition used_of (n : nat) (a : Assignment) : list nat :=
  filter (λ k, a (z_var n k) = 1) (seq 0 n).

Definition pages_of (a : Assignment) (used : list nat) : Z :=
  sum ((λ k, a (x_var k)) <$> used).

Definition printed_of (n N : nat) (a : Assignment) (i : nat) : Z :=
  sum_values a ((λ k, w_var n N k i) <$> seq 0 n).

Definition check_of (n N : nat) (a : Assignment) (i : nat) (d : Z) : DemandCheck :=
  {| printed := printed_of n N a i;
     required := d;
     met := bool_decide (printed_of n N a i >= d) |}.

(** A dictionary filled by a loop over [range(N)] in which round [i]
    stores the entry [entry i], when there is one. *)
Definition write {K V} `{Countable K} (entry : nat → option (K * V))
    (d : gmap K V) (i : nat) : gmap K V :=
  match entry i with
  | Some (k, v) => <[k := v]> d
  | None => d
  end.

Definition written {K V} `{Countable K} (entry : nat → option (K * V)) (N : nat)
    : gmap K V :=
  foldl (write entry) ∅ (seq 0 N).

Section closed_report.
Context {Name : Type} `{Countable Name}.

(** What round [i] of the loop over the stickers stores in
    [single_layout], if anything. *)
Definition single_entry (n N : nat) (a : Assignment) (names : list Name) (k : nat)
    (i : nat) : option (Name * Z) :=
  nm ← names !! i;
  if bool_decide (a (y_var n N k i) > 0) then Some (nm, a (y_var n N k i)) else None.

Definition single_of (n N : nat) (a : Assignment) (names : list Name) (k : nat)
    : gmap Name Z :=
  written (single_entry n N a names k) N.

Definition distributions_of (n N : nat) (a : Assignment) (names : list Name)
    (used : list nat) : gmap nat (gmap Name Z) :=
  foldl (λ d k, <[k := single_of n N a names k]> d) ∅ used.

(** What round [i] stores in [demand_checks]. *)
Definition checks_entry (n N : nat) (a : Assignment) (stickers : list (Name * Z))
    (i : nat) : option (Name * DemandCheck) :=
  '(nm, dem) ← stickers !! i; Some (nm, check_of n N a i dem).

Definition checks_of (n N : nat) (a : Assignment) (stickers : list (Name * Z))
    : gmap Name DemandCheck :=
  written (checks_entry n N a stickers) N.

Definition prints_of (a : Assignment) (used : list nat) : gmap nat Z :=
  foldl (λ d k, <[k := a (x_var k)]> d) ∅ used.

Definition solution_report (status : CpSolverStatus) (n N : nat) (a : Assignment)
    (stickers : list (Name * Z)) : gmap string (PyVal (Name := Name)) :=
  <["status" := PyStr (StatusName status)]>
  (<["used_layouts" := PyList (used_of n a)]>
  (<["layout_prints" := PyPrints (prints_of a (used_of n a))]>
  (<["total_pages" := PyInt (pages_of a (used_of n a))]>
  (<["layout_distributions" :=
       PyDistributions (distributions_of n N a (stickers.*1) (used_of n a))]>
  (<["demand_checks" := PyChecks (checks_of n N a stickers)]> ∅))))).

Definition no_solution_report (status : CpSolverStatus)
    : gmap string (PyVal (Name := Name)) :=
  <["status" := PyStr (StatusName status)]>
  (<["message" := PyStr no_solution_message]> ∅).

(** The model that the function hands to the solver. *)
Definition built_model (stickers : list (Name * Z))
    (max_layouts layout_capacity max_x_bound : Z) : option CpModel :=
  snd <$> build_model stickers max_layouts layout_capacity max_x_bound new_model.

(** A returned dictionary that reports a solution. *)
Definition reports_solution (r : gmap string (PyVal (Name := Name))) : Prop :=
  r !! "status" = Some (PyStr "OPTIMAL") ∨ r !! "status" = Some (PyStr "FEASIBLE").
End closed_report.

(** The sum of the densities that a layout of [layout_distributions]
    reports. *)
Definition dict_sum `{Countable K} (d : gmap K Z) : Z :=
  map_fold (λ _ v acc, v + acc) 0 d.

(** The assignment [a] with the value of [v] replaced by [c]. *)
Definition update (a : Assignment) (v : IntVar) (c : Z) : Assignment :=
  λ u, if decide (u = v) then c else a u.

(** ** Concrete answers

    An assignment given by the list of its values, in the order in which
    the variables were allocated. *)
Definition assignment_of (values : list Z) : Assignment := λ v, nth v values 0.

Definition answers (status : CpSolverStatus) (values : list Z) : CpSolver :=
  λ _ _, (status, assignment_of values).

(** One sticker and two layouts: layout 0 carries the sticker and is
    printed once; layout 1 is unused ([z[1] = 0]) but has [x[1] = 7].
    The values are those of [x[0], x[1], z[0], z[1], y[0,0], y[1,0],
    w[0,0], w[1,0]]. *)
Definition one_sticker : list (string * Z) := [("a", 1)].
Definition idle_printed : list Z := [1; 7; 1; 0; 1; 0; 1; 0].



Definition nothing_printed : list Z := [0; 1; 1; 0].

(** No sticker and the default five layouts; the solver sets the flag of
    layout 0.  The values are those of [x[0..4]] and [z[0..4]]. *)
Definition no_stickers : list (string * Z) := [].
Definition flag_set : list Z := [0; 0; 0; 0; 0; 1; 0; 0; 0; 0].

(** Scenario A of the specification: demands 10 and 5, one layout of two
    slots, printed 10 times.  The values are those of [x[0], z[0], y[0,0],
    y[0,1], w[0,0], w[0,1]]. *)
Definition scenario_A_stickers : list (string * Z) := [("item1", 10); ("item2", 5)].
Definition scenario_A_answer : list Z := [10; 1; 1; 1; 10; 10].
Definition scenario_A_handles : Handles :=
  {| vars_x := [0%nat];
     vars_z := [1%nat];
     vars_y := <[(0%nat, 1%nat) := 3%nat]> {[(0%nat, 0%nat) := 2%nat]};
     vars_w := <[(0%nat, 1%nat) := 5%nat]> {[(0%nat, 0%nat) := 4%nat]} |}.
Definition scenario_A_model : CpModel := expected_model [10; 5] 1 2 100.

(** Two stickers of the same name, of demands 5 and 3, on one layout of
    two slots printed 5 times. *)
Definition twins : list (string * Z) := [("a", 5); ("a", 3)].
Definition twins_answer : list Z := [5; 1; 1; 1; 5; 5].
Definition twins_model : CpModel := expected_model [5; 3] 1 2 100.

(** The handles and the model of [one_sticker] on two layouts of one
    slot, and an answer that prints layout 0 once and leaves layout 1
    alone. *)
Definition one_sticker_handles : Handles :=
  {| vars_x := [0%nat; 1%nat];
     vars_z := [2%nat; 3%nat];
     vars_y := <[(1%nat, 0%nat) := 5%nat]> {[(0%nat, 0%nat) := 4%nat]};
     vars_w := <[(1%nat, 0%nat) := 7%nat]> {[(0%nat, 0%nat) := 6%nat]} |}.
Definition one_sticker_model : CpModel := expected_model [1] 2 1 10.
Definition idle_at_rest : list Z := [1; 0; 1; 0; 1; 0; 1; 0].

(** The handles and the model of [no_stickers] on the default five
    layouts, and the answer that sets nothing. *)
Definition no_stickers_handles : Handles :=
  {| vars_x := [0%nat; 1%nat; 2%nat; 3%nat; 4%nat];
     vars_z := [5%nat; 6%nat; 7%nat; 8%nat; 9%nat];
     vars_y := ∅;
     vars_w := ∅ |}.
Definition no_stickers_model : CpModel := expected_model [] 5 48 100000.
Definition all_zero : list Z := [0; 0; 0; 0; 0; 0; 0; 0; 0; 0].

(** The model of [negative_demand] on one layout of no slot. *)
Definition no_slot_handles : Handles :=
  {| vars_x := [0%nat];
     vars_z := [1%nat];
     vars_y := {[(0%nat, 0%nat) := 2%nat]};
     vars_w := {[(0%nat, 0%nat) := 3%nat]} |}.

(** The assignment [a] with every count [x[k]] and every output [w[k, i]]
    set to 0, for a model of [n] layouts and [N] stickers. *)
Definition clear_counts (n N : nat) (a : Assignment) : Assignment :=
  λ v, if decide (v < n ∨ n + n + n * N ≤ v)%nat then 0 else a v.

(** The assignment that puts one copy of every sticker on layout 0 and
    prints it [X] times, for a model of [n] layouts and [N] stickers:
    [x[0] = X], [z[0] = 1], [y[0, i] = 1], [w[0, i] = X] and 0 elsewhere. *)
Definition one_layout (n N : nat) (X : Z) : Assignment :=
  λ v, if decide (v = x_var 0) then X
       else if decide (v = z_var n 0) then 1
       else if decide (n + n ≤ v < n + n + N)%nat then 1
       else if decide (n + n + n * N ≤ v < n + n + n * N + N)%nat then X
       else 0.



(** One sticker that nobody asks for, and the stickers of [twins] under
    distinct names. *)
Definition free_sticker : list (string * Z) := [("a", 0)].
Definition renamed_twins : list (string * Z) := [("a", 5); ("b", 3)].


(** * Running the builder *)

Lemma bind_run {A B} (c : Build A) (f : A → Build B) m :
  (c ≫= f) m = match c m with Some (r, m') => f r m' | None => None end.
Proof. reflexivity. Qed.

Lemma ret_run {A} (r : A) (m : CpModel) : mret (M := Build) r m = Some (r, m).
Proof. reflexivity. Qed.

Lemma lift_run {A} (o : option A) r m : o = Some r → lift o m = Some (r, m).
Proof. by intros ->. Qed.

Lemma add_variables_nil m : add_variables m [] = m.
Proof. destruct m; unfold add_variables; simpl; by rewrite app_nil_r. Qed.

Lemma add_variables_app m vs1 vs2 :
  add_variables (add_variables m vs1) vs2 = add_variables m (vs1 ++ vs2).
Proof. unfold add_variables; simpl; by rewrite app_assoc. Qed.

Lemma add_constraints_nil m : add_constraints m [] = m.
Proof. destruct m; unfold add_constraints; simpl; by rewrite app_nil_r. Qed.

Lemma add_constraints_app m cs1 cs2 :
  add_constraints (add_constraints m cs1) cs2 = add_constraints m (cs1 ++ cs2).
Proof. unfold add_constraints; simpl; by rewrite app_assoc. Qed.

Lemma NewIntVar_run lb ub nm m :
  NewIntVar lb ub nm m = Some (length (variables m), add_variables m [mkvar lb ub nm]).
Proof. reflexivity. Qed.

Lemma length_add_variables m vs :
  length (variables (add_variables m vs)) = (length (variables m) + length vs)%nat.
Proof. simpl. by rewrite length_app. Qed.

(** The comprehension that allocates one variable per element of [ks]
    returns consecutive indices. *)
Lemma mapM_NewIntVar (lb ub : nat → Z) (nm : nat → string) ks m :
  mapM (λ k, NewIntVar (lb k) (ub k) (nm k)) ks m =
  Some (seq (length (variables m)) (length ks),
        add_variables m ((λ k, mkvar (lb k) (ub k) (nm k)) <$> ks)).
Proof.
  revert m. induction ks as [|k ks IH]; intros m.
  - simpl. by rewrite ret_run, add_variables_nil.
  - cbn [mapM]. rewrite bind_run, NewIntVar_run, bind_run, IH, ret_run.
    rewrite add_variables_app, length_add_variables. simpl.
    by rewrite Nat.add_1_r.
Qed.

(** The inner allocation loop, for the stickers [s, s + len) of layout [k]. *)
Lemma alloc_row (lb ub : Z) (nm : nat → nat → string) (k : nat) len :
  ∀ s (d : gmap (nat * nat) IntVar) m,
  ∃ d',
    for_acc (seq s len) (λ d i,
      v ← NewIntVar lb ub (nm k i); mret (<[(k, i) := v]> d)) d m =
    Some (d', add_variables m ((λ i, mkvar lb ub (nm k i)) <$> seq s len)) ∧
    ∀ k' i', d' !! (k', i') =
      if decide (k' = k ∧ (s ≤ i' < s + len)%nat)
      then Some (length (variables m) + (i' - s))%nat
      else d !! (k', i').
Proof.
  induction len as [|len IH]; intros s d m.
  - exists d. split.
    + simpl. by rewrite ret_run, add_variables_nil.
    + intros k' i'. case_decide; [lia | done].
  - cbn [seq for_acc]. rewrite bind_run, bind_run, NewIntVar_run, ret_run.
    destruct (IH (S s) (<[(k, s) := length (variables m)]> d)
                (add_variables m [mkvar lb ub (nm k s)])) as (d' & Hrun & Hd').
    exists d'. split.
    + rewrite add_variables_app in Hrun. exact Hrun.
    + intros k' i'. rewrite Hd', length_add_variables. simpl.
      destruct (decide (k' = k ∧ i' = s)) as [[-> ->]|Hne].
      * rewrite decide_False, decide_True by lia.
        rewrite lookup_insert_eq. f_equal. lia.
      * rewrite lookup_insert_ne by (intros [= <- <-]; tauto).
        repeat case_decide; try lia; try done. f_equal. lia.
Qed.

Lemma range_len {A} (l : list A) : range (len l) = seq 0 (length l).
Proof. unfold range, len. by rewrite Nat2Z.id. Qed.

(** The two nested allocation loops, for the layouts [s, s + len): the
    variable of [(k, i)] is the [(k - s) * N + i]-th one allocated. *)
Lemma alloc_grid (lb ub : Z) (nm : nat → nat → string) (N : nat) len :
  ∀ s (d : gmap (nat * nat) IntVar) m,
  ∃ d',
    for_acc (seq s len) (λ d k,
      for_acc (seq 0 N) (λ d i,
        v ← NewIntVar lb ub (nm k i); mret (<[(k, i) := v]> d)) d) d m =
    Some (d', add_variables m
                (seq s len ≫= λ k, (λ i, mkvar lb ub (nm k i)) <$> seq 0 N)) ∧
    ∀ k' i', d' !! (k', i') =
      if decide ((s ≤ k' < s + len)%nat ∧ (i' < N)%nat)
      then Some (length (variables m) + (k' - s) * N + i')%nat
      else d !! (k', i').
Proof.
  induction len as [|len IH]; intros s d m.
  - exists d. split.
    + simpl. by rewrite ret_run, add_variables_nil.
    + intros k' i'. case_decide; [lia | done].
  - cbn [seq for_acc]. rewrite bind_run.
    destruct (alloc_row lb ub nm s N 0 d m) as (d1 & Hrow & Hd1).
    rewrite Hrow.
    destruct (IH (S s) d1
                (add_variables m ((λ i, mkvar lb ub (nm s i)) <$> seq 0 N)))
      as (d' & Hrun & Hd').
    exists d'. split.
    + rewrite add_variables_app in Hrun. exact Hrun.
    + intros k' i'. rewrite Hd', Hd1, length_add_variables, length_fmap, length_seq.
      destruct (decide (k' = s)) as [->|Hne].
      * rewrite Nat.sub_diag. repeat case_decide; try lia; try done.
        f_equal. lia.
      * repeat case_decide; try lia; try done. f_equal.
        replace (k' - s)%nat with (S (k' - S s)) by lia. simpl. lia.
Qed.

(** A loop whose body appends the constraints [g a] appends them all. *)
Lemma for_appends {A} (l : list A) (f : A → Build unit) (g : A → list Constraint) :
  (∀ a m, a ∈ l → f a m = Some (tt, add_constraints m (g a))) →
  ∀ m, for_ l f m = Some (tt, add_constraints m (l ≫= g)).
Proof.
  induction l as [|a l IH]; intros Hf m.
  - simpl. by rewrite ret_run, add_constraints_nil.
  - cbn [for_]. rewrite bind_run, Hf by left.
    rewrite IH by (intros; apply Hf; by right).
    by rewrite add_constraints_app.
Qed.

(** A comprehension of lookups that all succeed leaves the model alone. *)
Lemma mapM_lift {A B} (g : A → option B) (h : A → B) (l : list A) m :
  (∀ a, a ∈ l → g a = Some (h a)) →
  mapM (λ a, lift (g a)) l m = Some (h <$> l, m).
Proof.
  induction l as [|a l IH]; intros Hg; [done|].
  cbn [mapM]. rewrite bind_run, (lift_run _ (h a)) by (apply Hg; left).
  rewrite bind_run, IH by (intros; apply Hg; by right). done.
Qed.

Lemma add_constraint_run b m :
  add_constraint b m = Some (length (constraints m), add_constraints m [plain b]).
Proof. reflexivity. Qed.

(** [model.Add(...).OnlyEnforceIf(l)]: the literal lands on the constraint
    that was just added. *)
Lemma OnlyEnforceIf_last l b m :
  OnlyEnforceIf (length (constraints m)) l (add_constraints m [plain b]) =
  Some (tt, add_constraints m [enforced l b]).
Proof.
  unfold OnlyEnforceIf, add_constraints. simpl. do 3 f_equal.
  rewrite <-(Nat.add_0_r (length (constraints m))). by rewrite alter_app_r.
Qed.

Lemma Minimize_run obj m :
  Minimize obj m =
  Some (tt, {| variables := variables m; constraints := constraints m;
               objective := Some obj |}).
Proof. reflexivity. Qed.

Lemma length_bind_const {A B} (f : A → list B) (c : nat) (l : list A) :
  (∀ a, length (f a) = c) → length (l ≫= f) = (length l * c)%nat.
Proof.
  intros Hf. induction l as [|a l IH]; [done|].
  rewrite bind_cons, length_app, Hf, IH. simpl. lia.
Qed.

Lemma bind_singletons {A B} (f : A → B) (l : list A) :
  l ≫= (λ a, [f a]) = f <$> l.
Proof. induction l as [|a l IH]; [done|]. rewrite bind_cons, IH. done. Qed.

Section build.
Context {Name : Type} `{Countable Name}.
Implicit Types stickers : list (Name * Z).

(** The builder never raises, and the model it leaves is the closed
    form. *)
Lemma build_model_run stickers max_layouts layout_capacity max_x_bound :
  ∃ h,
    build_model stickers max_layouts layout_capacity max_x_bound new_model =
      Some (h, expected_model (stickers.*2) max_layouts layout_capacity max_x_bound) ∧
    handles_ok (Z.to_nat max_layouts) (length stickers) h.
Proof.
  unfold build_model. rewrite range_len, length_fmap.
  unfold range. set (n := Z.to_nat max_layouts). set (N := length stickers).
  rewrite bind_run, (mapM_NewIntVar (λ _, 0) (λ _, max_x_bound) x_name).
  rewrite bind_run. unfold NewBoolVar.
  rewrite (mapM_NewIntVar (λ _, 0) (λ _, 1) z_name).
  rewrite length_add_variables, length_fmap, !length_seq. simpl length.
  set (m2 := add_variables (add_variables new_model _) _).
  destruct (alloc_grid 0 layout_capacity y_name N n 0 ∅ m2) as (y & Hy & Hylook).
  rewrite bind_run, Hy. clear Hy.
  set (m3 := add_variables m2 _).
  destruct (alloc_grid 0 (max_x_bound * layout_capacity) w_name N n 0 ∅ m3)
    as (w & Hw & Hwlook).
  rewrite bind_run, Hw. clear Hw.
  set (m4 := add_variables m3 _).
  assert (Hlen2 : length (variables m2) = (n + n)%nat).
  { subst m2. rewrite !length_add_variables, !length_fmap, !length_seq. done. }
  assert (Hlen3 : length (variables m3) = (n + n + n * N)%nat).
  { subst m3. rewrite length_add_variables, Hlen2.
    rewrite (length_bind_const _ N), length_seq; [done|].
    intros k. by rewrite length_fmap, length_seq. }
  assert (Hx : ∀ k, (k < n)%nat → seq 0 n !! k = Some (x_var k)).
  { intros k Hk. by rewrite lookup_seq_lt. }
  assert (Hz : ∀ k, (k < n)%nat → seq (0 + n) n !! k = Some (z_var n k)).
  { intros k Hk. by rewrite lookup_seq_lt. }
  assert (Hyl : ∀ k i, vars_y {| vars_x := seq 0 n; vars_z := seq (0 + n) n;
                                 vars_y := y; vars_w := w |} !! (k, i) =
            if decide ((k < n)%nat ∧ (i < N)%nat)
            then Some (y_var n N k i) else None).
  { intros k i. simpl. rewrite Hylook, Hlen2, Nat.sub_0_r.
    repeat case_decide; try lia; done. }
  assert (Hwl : ∀ k i, vars_w {| vars_x := seq 0 n; vars_z := seq (0 + n) n;
                                 vars_y := y; vars_w := w |} !! (k, i) =
            if decide ((k < n)%nat ∧ (i < N)%nat)
            then Some (w_var n N k i) else None).
  { intros k i. simpl. rewrite Hwlook, Hlen3, Nat.sub_0_r.
    repeat case_decide; try lia; done. }
  simpl in Hyl, Hwl. clear Hylook Hwlook.
  assert (Hy : ∀ k i, (k < n)%nat → (i < N)%nat → y !! (k, i) = Some (y_var n N k i)).
  { intros k i ??. rewrite Hyl. by rewrite decide_True. }
  assert (Hw : ∀ k i, (k < n)%nat → (i < N)%nat → w !! (k, i) = Some (w_var n N k i)).
  { intros k i ??. rewrite Hwl. by rewrite decide_True. }
  eexists. split; last first.
  all: swap 1 2.
  {
  (* 1) the links *)
  rewrite bind_run.
  rewrite (for_appends _ _ (λ k, link_constraint n N k <$> seq 0 N)); last first.
  { intros k m Hk%elem_of_seq.
    rewrite (for_appends _ _ (λ i, [link_constraint n N k i])).
    - by rewrite bind_singletons.
    - intros i m' Hi%elem_of_seq.
      rewrite bind_run, (lift_run _ _ _ (Hw k i ltac:(lia) ltac:(lia))).
      rewrite bind_run, (lift_run _ _ _ (Hx k ltac:(lia))).
      rewrite bind_run, (lift_run _ _ _ (Hy k i ltac:(lia) ltac:(lia))).
      done. }
  (* 2) the capacity of each layout *)
  rewrite bind_run.
  rewrite (for_appends _ _ (capacity_constraints n N layout_capacity)); last first.
  { intros k m Hk%elem_of_seq.
    rewrite bind_run, (mapM_lift _ (y_var n N k))
      by (intros i Hi%elem_of_seq; apply Hy; lia).
    unfold Add.
    rewrite bind_run, add_constraint_run.
    rewrite bind_run, (lift_run _ _ _ (Hz k ltac:(lia))).
    rewrite bind_run, OnlyEnforceIf_last.
    rewrite bind_run, (mapM_lift _ (y_var n N k))
      by (intros i Hi%elem_of_seq; apply Hy; lia).
    rewrite bind_run, add_constraint_run.
    rewrite bind_run, (lift_run _ _ _ (Hz k ltac:(lia))).
    rewrite OnlyEnforceIf_last, add_constraints_app. done. }
  (* 3) the demands *)
  rewrite bind_run.
  rewrite (for_appends _ _
    (λ i, from_option (λ d, [demand_constraint n N i d]) [] (stickers.*2 !! i)));
    last first.
  { intros i m Hi%elem_of_seq.
    rewrite bind_run, (mapM_lift _ (λ k, w_var n N k i))
      by (intros k Hk%elem_of_seq; apply Hw; lia).
    destruct (lookup_lt_is_Some_2 (stickers.*2) i) as [d Hd].
    { rewrite length_fmap. lia. }
    rewrite Hd. simpl. done. }
  (* 4) the cardinality *)
  rewrite bind_run, (mapM_lift _ (z_var n))
    by (intros k Hk%elem_of_seq; apply Hz; lia).
  unfold Add. rewrite bind_run, add_constraint_run.
  (* 5) the presence of each sticker *)
  rewrite bind_run.
  rewrite (for_appends _ _ (λ i, [presence_constraint n N i])); last first.
  { intros i m Hi%elem_of_seq.
    rewrite bind_run, (mapM_lift _ (λ k, y_var n N k i))
      by (intros k Hk%elem_of_seq; apply Hy; lia).
    done. }
  rewrite bind_singletons.
  (* the objective *)
  rewrite bind_run, (mapM_lift _ x_var)
    by (intros k Hk%elem_of_seq; apply Hx; lia).
  rewrite bind_run, Minimize_run, ret_run.
  rewrite !add_constraints_app.
  unfold expected_model, expected_variables, expected_constraints.
  rewrite length_fmap. fold n N. subst m4 m3 m2. simpl.
  by rewrite <-!app_assoc. }
  all: simpl.
  - split_and!; [| |exact Hyl|exact Hwl]; simpl.
    + unfold x_var. by rewrite list_fmap_id.
    + unfold z_var. by rewrite fmap_add_seq, Nat.add_0_r.
Qed.
End build.

(** * What satisfying the model means *)

Lemma in_domains_app a b vs1 vs2 :
  in_domains a b (vs1 ++ vs2) ↔
  in_domains a b vs1 ∧ in_domains a (b + length vs1)%nat vs2.
Proof.
  revert b. induction vs1 as [|v vs1 IH]; intros b; simpl.
  - rewrite Nat.add_0_r. tauto.
  - rewrite IH. replace (S b + length vs1)%nat with (b + S (length vs1))%nat by lia.
    tauto.
Qed.

Lemma in_domains_row a lb ub (nm : nat → string) len :
  ∀ b s,
  in_domains a b ((λ i, mkvar lb ub (nm i)) <$> seq s len) ↔
  ∀ j, (j < len)%nat → lb ≤ a (b + j)%nat ≤ ub.
Proof.
  induction len as [|len IH]; intros b s; simpl.
  - split; [lia | done].
  - rewrite IH. split.
    + intros [H0 Hj] [|j] ?.
      * by rewrite Nat.add_0_r.
      * replace (b + S j)%nat with (S b + j)%nat by lia. apply Hj. lia.
    + intros Hj. split.
      * specialize (Hj 0%nat). rewrite Nat.add_0_r in Hj. apply Hj. lia.
      * intros j ?. replace (S b + j)%nat with (b + S j)%nat by lia. apply Hj. lia.
Qed.

Lemma in_domains_grid a lb ub (nm : nat → nat → string) N n :
  ∀ b s,
  in_domains a b (seq s n ≫= λ k, (λ i, mkvar lb ub (nm k i)) <$> seq 0 N) ↔
  ∀ k i, (k < n)%nat → (i < N)%nat → lb ≤ a (b + k * N + i)%nat ≤ ub.
Proof.
  induction n as [|n IH]; intros b s.
  - simpl. split; [lia | done].
  - cbn [seq]. rewrite bind_cons, in_domains_app, in_domains_row, IH.
    rewrite length_fmap, length_seq. split.
    + intros [H0 Hk] [|k] i ? ?.
      * simpl. rewrite Nat.add_0_r. apply H0. lia.
      * replace (b + S k * N + i)%nat with (b + N + k * N + i)%nat by lia.
        apply Hk; lia.
    + intros Hk. split.
      * intros i ?. specialize (Hk 0%nat i). simpl in Hk.
        rewrite Nat.add_0_r in Hk. apply Hk; lia.
      * intros k i ? ?.
        replace (b + N + k * N + i)%nat with (b + S k * N + i)%nat by lia.
        apply Hk; lia.
Qed.

Lemma plain_holds a b : constraint_holds a (plain b) ↔ body_holds a b.
Proof.
  unfold constraint_holds, plain. simpl. split; [|done].
  intros Hb. apply Hb. constructor.
Qed.

Lemma enforced_holds a l b :
  constraint_holds a (enforced l b) ↔ (literal_holds a l → body_holds a b).
Proof.
  unfold constraint_holds, enforced. simpl. by rewrite Forall_singleton.
Qed.

Ltac plain_in H :=
  unfold compose, link_constraint, demand_constraint, cardinality_constraint,
    presence_constraint in H;
  rewrite plain_holds in H; simpl in H.

Lemma satisfies_expected demands ml cap mx a :
  satisfies (expected_model demands ml cap mx) a ↔ feasible demands ml cap mx a.
Proof.
  unfold satisfies, expected_model, expected_variables, expected_constraints.
  cbn [variables constraints].
  set (n := Z.to_nat ml). set (N := length demands).
  rewrite !in_domains_app, !in_domains_row, !in_domains_grid.
  rewrite !length_fmap, !length_seq.
  rewrite (length_bind_const _ N), length_seq
    by (intros; by rewrite length_fmap, length_seq).
  rewrite !Forall_app, !Forall_bind, !Forall_fmap, !Forall_seq, Forall_singleton.
  split.
  - intros ((Hx & Hz & Hy & Hw) & Hlink & Hcap & Hdem & Hcard & Hpres).
    unfold compose in *.
    split; fold n N.
    + intros k ?. apply (Hx k). lia.
    + intros k ?. apply (Hz k). lia.
    + intros k i ??. apply (Hy k i); lia.
    + intros k i ??. apply (Hw k i); lia.
    + intros k i ??. specialize (Hlink k ltac:(lia)).
      rewrite Forall_fmap, Forall_seq in Hlink.
      specialize (Hlink i ltac:(lia)). by plain_in Hlink.
    + intros k ? Hzk. specialize (Hcap k ltac:(lia)).
      pose proof (Forall_inv Hcap) as Hc.
      rewrite enforced_holds in Hc. by apply Hc.
    + intros k ? Hzk. specialize (Hcap k ltac:(lia)).
      pose proof (Forall_inv (Forall_inv_tail Hcap)) as Hc.
      rewrite enforced_holds in Hc. by apply Hc.
    + intros i d Hd. specialize (Hdem i). rewrite Hd in Hdem.
      simpl in Hdem. apply lookup_lt_Some in Hd.
      specialize (Hdem ltac:(lia)). apply Forall_inv in Hdem.
      by plain_in Hdem.
    + by plain_in Hcard.
    + intros i ?. specialize (Hpres i ltac:(lia)). by plain_in Hpres.
  - intros [Hx Hz Hy Hw Hlink Hcapu Hcapn Hdem Hcard Hpres].
    fold N in Hy, Hw, Hlink, Hcapu, Hcapn, Hdem, Hpres.
    fold n in Hx, Hz, Hy, Hw, Hlink, Hcapu, Hcapn, Hdem, Hcard, Hpres.
    unfold compose. split_and!.
    + intros j ?. by apply Hx.
    + intros j ?. by apply Hz.
    + intros k i ??. by apply Hy.
    + intros k i ??. by apply Hw.
    + intros k ?. simpl. rewrite Forall_fmap, Forall_seq. intros i ?.
      apply plain_holds. simpl. apply Hlink; lia.
    + intros k ?. simpl. repeat constructor.
      * apply enforced_holds. simpl. apply Hcapu. lia.
      * apply enforced_holds. simpl. apply Hcapn. lia.
    + intros i ?. simpl. destruct (demands !! i) as [d|] eqn:Hd; simpl; [|done].
      apply Forall_singleton, plain_holds. simpl. by apply Hdem.
    + by apply plain_holds.
    + intros i ?. apply plain_holds. simpl. apply Hpres. lia.
Qed.

(** * Reading the report off the assignment *)

Lemma for_acc_Some {A S} (l : list A) (f : S → A → option S) (step : S → A → S) :
  (∀ s a, a ∈ l → f s a = Some (step s a)) →
  ∀ s, for_acc l f s = Some (foldl step s l).
Proof.
  induction l as [|a l IH]; intros Hf s; [done|].
  cbn [for_acc foldl]. rewrite Hf by left. simpl.
  apply IH. intros; apply Hf; by right.
Qed.

Lemma select_Some {A} (l : list A) (c : A → option bool) (P : A → Prop)
    `{∀ a, Decision (P a)} :
  (∀ a, a ∈ l → c a = Some (bool_decide (P a))) →
  select l c = Some (filter P l).
Proof.
  induction l as [|a l IH]; intros Hc; [done|].
  cbn [select]. rewrite Hc by left. simpl.
  rewrite IH by (intros; apply Hc; by right). simpl.
  rewrite filter_cons. by destruct (decide (P a)); [rewrite bool_decide_true|rewrite bool_decide_false].
Qed.

Lemma mapM_Some_fmap {A B} (g : A → option B) (h : A → B) (l : list A) :
  (∀ a, a ∈ l → g a = Some (h a)) → mapM g l = Some (h <$> l).
Proof.
  intros Hg. apply mapM_Some. induction l as [|a l IH]; constructor.
  - apply Hg. left.
  - apply IH. intros; apply Hg; by right.
Qed.

Lemma sum_fmap_values (a : Assignment) (vs : list IntVar) :
  sum (a <$> vs) = sum_values a vs.
Proof. induction vs as [|v vs IH]; [done|]. simpl. by rewrite <-IH. Qed.

Lemma elem_of_used_of n a k :
  k ∈ used_of n a ↔ (k < n)%nat ∧ a (z_var n k) = 1.
Proof.
  unfold used_of. rewrite list_elem_of_filter, elem_of_seq. split; [|lia].
  intros [? ?]. split; [lia|done].
Qed.

Section report.
Context {Name : Type} `{Countable Name}.
Implicit Types stickers : list (Name * Z).
Variables (n N : nat) (h : Handles) (a : Assignment).
Hypothesis Hh : handles_ok n N h.

Lemma lookup_x k : (k < n)%nat → vars_x h !! k = Some (x_var k).
Proof.
  intros Hk. destruct Hh as (-> & _). rewrite list_lookup_fmap.
  by rewrite lookup_seq_lt.
Qed.

Lemma lookup_z k : (k < n)%nat → vars_z h !! k = Some (z_var n k).
Proof.
  intros Hk. destruct Hh as (_ & -> & _). rewrite list_lookup_fmap.
  by rewrite lookup_seq_lt.
Qed.

Lemma lookup_y k i : (k < n)%nat → (i < N)%nat → vars_y h !! (k, i) = Some (y_var n N k i).
Proof. intros ??. destruct Hh as (_ & _ & -> & _). by rewrite decide_True. Qed.

Lemma lookup_w k i : (k < n)%nat → (i < N)%nat → vars_w h !! (k, i) = Some (w_var n N k i).
Proof. intros ??. destruct Hh as (_ & _ & _ & ->). by rewrite decide_True. Qed.

Lemma used_layouts_run : used_layouts h a (seq 0 n) = Some (used_of n a).
Proof.
  unfold used_layouts, used_of. apply select_Some.
  intros k Hk%elem_of_seq. by rewrite lookup_z by lia.
Qed.

Lemma total_pages_run used :
  (∀ k, k ∈ used → (k < n)%nat) →
  total_pages h a used = Some (pages_of a used).
Proof.
  intros Hused. unfold total_pages, pages_of.
  rewrite (mapM_Some_fmap _ (λ k, a (x_var k))); [done|].
  intros k Hk. by rewrite lookup_x by auto.
Qed.

Lemma single_layout_run stickers k :
  (k < n)%nat → N = length stickers →
  single_layout h a (stickers.*1) (len (stickers.*1)) k =
  Some (single_of n N a (stickers.*1) k).
Proof.
  intros Hk HN. unfold single_layout, single_of.
  rewrite range_len, length_fmap, <-HN. apply for_acc_Some.
  intros d i Hi%elem_of_seq. rewrite lookup_y by lia. simpl.
  unfold write, single_entry.
  destruct (lookup_lt_is_Some_2 (stickers.*1) i) as [nm Hnm].
  { rewrite length_fmap. lia. }
  rewrite Hnm. simpl. by case_bool_decide.
Qed.

Lemma layout_distributions_run stickers used :
  (∀ k, k ∈ used → (k < n)%nat) → N = length stickers →
  layout_distributions h a (stickers.*1) (len (stickers.*1)) used =
  Some (distributions_of n N a (stickers.*1) used).
Proof.
  intros Hused HN. unfold layout_distributions, distributions_of.
  apply for_acc_Some. intros d k Hk.
  by rewrite single_layout_run by auto.
Qed.

Lemma demand_checks_run stickers :
  N = length stickers →
  demand_checks h a (stickers.*1) (stickers.*2) (len (stickers.*1)) (seq 0 n) =
  Some (checks_of n N a stickers).
Proof.
  intros HN. unfold demand_checks, checks_of.
  rewrite range_len, length_fmap, <-HN. apply for_acc_Some.
  intros d i Hi%elem_of_seq. unfold write, checks_entry.
  destruct (lookup_lt_is_Some_2 stickers i) as [[nm dem] Hs]; [lia|].
  rewrite !list_lookup_fmap, Hs. simpl.
  rewrite (mapM_Some_fmap _ (λ k, a (w_var n N k i))).
  - simpl. unfold check_of, printed_of.
    by rewrite <-sum_fmap_values, <-list_fmap_compose.
  - intros k Hk%elem_of_seq. by rewrite lookup_w by lia.
Qed.

Lemma layout_prints_run used :
  (∀ k, k ∈ used → (k < n)%nat) →
  layout_prints h a used = Some (prints_of a used).
Proof.
  intros Hused. unfold layout_prints, prints_of. apply for_acc_Some.
  intros d k Hk. by rewrite lookup_x by auto.
Qed.
End report.

(** * The function as a whole *)

Section run.
Context {Name : Type} `{Countable Name}.
Implicit Types stickers : list (Name * Z).

Lemma built_model_expected stickers max_layouts layout_capacity max_x_bound :
  built_model stickers max_layouts layout_capacity max_x_bound =
  Some (expected_model (stickers.*2) max_layouts layout_capacity max_x_bound).
Proof.
  unfold built_model.
  destruct (build_model_run stickers max_layouts layout_capacity max_x_bound)
    as (h & -> & _).
  done.
Qed.

(** The function never raises: it returns the report of the solver's
    answer on the built model. *)
Lemma solve_stickers_layout_run (solver : CpSolver) stickers
    max_layouts layout_capacity max_x_bound time_limit_sec :
  solve_stickers_layout solver stickers max_layouts layout_capacity max_x_bound
    time_limit_sec =
  Some (let r := solver (expected_model (stickers.*2) max_layouts layout_capacity
                           max_x_bound) time_limit_sec in
        if found r.1
        then solution_report r.1 (Z.to_nat max_layouts) (length stickers) r.2 stickers
        else no_solution_report r.1).
Proof.
  unfold solve_stickers_layout.
  destruct (build_model_run stickers max_layouts layout_capacity max_x_bound)
    as (h & -> & Hh).
  simpl. destruct (solver _ _) as [st a]. simpl.
  destruct (found st); [|done].
  unfold range.
  assert (Hused : ∀ k, k ∈ used_of (Z.to_nat max_layouts) a → (k < Z.to_nat max_layouts)%nat).
  { intros k Hk%elem_of_used_of. tauto. }
  rewrite (used_layouts_run _ _ _ _ Hh). simpl.
  rewrite (total_pages_run _ _ _ _ Hh) by done. simpl.
  rewrite (layout_distributions_run _ _ _ _ Hh) by done. simpl.
  rewrite (demand_checks_run _ _ _ _ Hh) by done. simpl.
  rewrite (layout_prints_run _ _ _ _ Hh) by done. simpl.
  done.
Qed.
End run.

(** * Sums of values *)

Lemma sum_values_nonneg a vs :
  (∀ v, v ∈ vs → 0 ≤ a v) → 0 ≤ sum_values a vs.
Proof.
  induction vs as [|v vs IH]; intros Hvs; simpl; [done|].
  specialize (Hvs v (list_elem_of_here _ _)) as Hv.
  specialize (IH (λ u Hu, Hvs u (list_elem_of_further _ _ _ Hu))). lia.
Qed.

Lemma sum_values_elem a vs v :
  (∀ u, u ∈ vs → 0 ≤ a u) → v ∈ vs → a v ≤ sum_values a vs.
Proof.
  induction vs as [|u vs IH]; intros Hvs Hv; simpl.
  - by apply elem_of_nil in Hv.
  - pose proof (Hvs u (list_elem_of_here _ _)) as Hu.
    assert (Htl : ∀ u', u' ∈ vs → 0 ≤ a u')
      by (intros u' Hu'; apply Hvs; by right).
    pose proof (sum_values_nonneg a vs Htl).
    apply elem_of_cons in Hv as [->|Hv]; [lia|].
    specialize (IH Htl Hv). lia.
Qed.

Lemma sum_values_zero a vs v :
  (∀ u, u ∈ vs → 0 ≤ a u) → sum_values a vs = 0 → v ∈ vs → a v = 0.
Proof.
  intros Hvs Hsum Hv. pose proof (sum_values_elem a vs v Hvs Hv).
  specialize (Hvs v Hv). lia.
Qed.

Lemma sum_values_positive a vs :
  1 ≤ sum_values a vs → ∃ v, v ∈ vs ∧ 1 ≤ a v.
Proof.
  induction vs as [|u vs IH]; simpl; [lia|]. intros Hsum.
  destruct (decide (1 ≤ a u)) as [Hu|Hu].
  - exists u. split; [left|done].
  - destruct IH as (v & Hv & Hav); [lia|]. exists v. split; [by right|done].
Qed.

Lemma sum_values_ext a a' vs :
  (∀ v, v ∈ vs → a v = a' v) → sum_values a vs = sum_values a' vs.
Proof.
  induction vs as [|u vs IH]; intros Hvs; simpl; [done|].
  rewrite (Hvs u) by left. rewrite IH; [done|]. intros; apply Hvs; by right.
Qed.

(** * The handles of a built model *)

Section handles.
Context {Name : Type} `{Countable Name}.
Implicit Types stickers : list (Name * Z).

Lemma build_model_inv stickers ml cap mx h m :
  build_model stickers ml cap mx new_model = Some (h, m) →
  m = expected_model (stickers.*2) ml cap mx ∧
  handles_ok (Z.to_nat ml) (length stickers) h.
Proof.
  destruct (build_model_run stickers ml cap mx) as (h' & Hrun & Hh).
  rewrite Hrun. by intros [= <- <-].
Qed.
End handles.

Lemma handles_x n N h k v :
  handles_ok n N h → vars_x h !! k = Some v ↔ (k < n)%nat ∧ v = x_var k.
Proof.
  intros (-> & _). rewrite list_lookup_fmap. unfold x_var. split.
  - intros (j & Hj & ->)%fmap_Some. apply lookup_seq in Hj. simpl in Hj. lia.
  - intros [? ->]. by rewrite lookup_seq_lt.
Qed.

Lemma handles_z n N h k v :
  handles_ok n N h → vars_z h !! k = Some v ↔ (k < n)%nat ∧ v = z_var n k.
Proof.
  intros (_ & -> & _). rewrite list_lookup_fmap. split.
  - intros (j & Hj & ->)%fmap_Some. apply lookup_seq in Hj. simpl in Hj.
    destruct Hj as [-> ?]. done.
  - intros [? ->]. by rewrite lookup_seq_lt.
Qed.

Lemma handles_y n N h k i v :
  handles_ok n N h →
  vars_y h !! (k, i) = Some v ↔ (k < n)%nat ∧ (i < N)%nat ∧ v = y_var n N k i.
Proof.
  intros (_ & _ & -> & _). case_decide as Hki.
  - split; [intros [= <-]; tauto | by intros (_ & _ & ->)].
  - split; [done | tauto].
Qed.

Lemma handles_w n N h k i v :
  handles_ok n N h →
  vars_w h !! (k, i) = Some v ↔ (k < n)%nat ∧ (i < N)%nat ∧ v = w_var n N k i.
Proof.
  intros (_ & _ & _ & ->). case_decide as Hki.
  - split; [intros [= <-]; tauto | by intros (_ & _ & ->)].
  - split; [done | tauto].
Qed.

Lemma handles_y_row n N h k :
  handles_ok n N h → (k < n)%nat →
  mapM (λ i, vars_y h !! (k, i)) (seq 0 N) = Some (y_var n N k <$> seq 0 N).
Proof.
  intros Hh Hk. apply mapM_Some_fmap. intros i Hi%elem_of_seq.
  apply (handles_y n N); [done|]. split_and!; [lia..|done].
Qed.

Lemma handles_y_column n N h i :
  handles_ok n N h → (i < N)%nat →
  mapM (λ k, vars_y h !! (k, i)) (seq 0 n) = Some ((λ k, y_var n N k i) <$> seq 0 n).
Proof.
  intros Hh Hi. apply mapM_Some_fmap. intros k Hk%elem_of_seq.
  apply (handles_y n N); [done|]. split_and!; [lia..|done].
Qed.

Lemma handles_w_column n N h i :
  handles_ok n N h → (i < N)%nat →
  mapM (λ k, vars_w h !! (k, i)) (seq 0 n) = Some ((λ k, w_var n N k i) <$> seq 0 n).
Proof.
  intros Hh Hi. apply mapM_Some_fmap. intros k Hk%elem_of_seq.
  apply (handles_w n N); [done|]. split_and!; [lia..|done].
Qed.

(** * Where the variables sit in the model *)

Lemma grid_lt (N n k i : nat) : (k < n)%nat → (i < N)%nat → (k * N + i < n * N)%nat.
Proof. intros. nia. Qed.

Lemma grid_inj (N k i k' i' : nat) :
  (i < N)%nat → (i' < N)%nat → (k * N + i = k' * N + i')%nat → k = k' ∧ i = i'.
Proof.
  intros Hi Hi' Heq. destruct (Nat.lt_trichotomy k k') as [Hlt|[->|Hgt]].
  - pose proof (Nat.mul_le_mono_r (S k) k' N Hlt). simpl in *. lia.
  - lia.
  - pose proof (Nat.mul_le_mono_r (S k') k N Hgt). simpl in *. lia.
Qed.

Lemma lookup_grid {A} (f : nat → nat → A) (N n : nat) :
  ∀ s k i, (k < n)%nat → (i < N)%nat →
  (seq s n ≫= λ k, f k <$> seq 0 N) !! (k * N + i)%nat = Some (f (s + k)%nat i).
Proof.
  induction n as [|n IH]; intros s k i Hk Hi; [lia|].
  cbn [seq]. rewrite bind_cons. destruct k as [|k].
  - rewrite lookup_app_l by (rewrite length_fmap, length_seq; lia).
    rewrite list_lookup_fmap, lookup_seq_lt by lia. simpl.
    by rewrite Nat.add_0_r.
  - rewrite lookup_app_r by (rewrite length_fmap, length_seq; lia).
    rewrite length_fmap, length_seq.
    replace (S k * N + i - N)%nat with (k * N + i)%nat by lia.
    rewrite IH by lia. do 2 f_equal. lia.
Qed.

Lemma expected_variables_w n N cap mx k i :
  (k < n)%nat → (i < N)%nat →
  expected_variables n N cap mx !! w_var n N k i =
  Some (mkvar 0 (mx * cap) (w_name k i)).
Proof.
  intros Hk Hi. unfold expected_variables, w_var.
  pose proof (grid_lt N n k i Hk Hi).
  rewrite lookup_app_r; rewrite !length_fmap, !length_seq; [|lia].
  rewrite lookup_app_r; rewrite !length_fmap, !length_seq; [|lia].
  rewrite lookup_app_r;
    rewrite (length_bind_const _ N), length_seq
      by (intros; by rewrite length_fmap, length_seq); [|lia].
  replace (n + n + n * N + k * N + i - n - n - n * N)%nat with (k * N + i)%nat by lia.
  by rewrite (lookup_grid (λ k i, mkvar 0 (mx * cap) (w_name k i))).
Qed.

Lemma expected_constraints_link n N demands ml cap k i :
  (k < n)%nat → (i < N)%nat →
  link_constraint n N k i ∈ expected_constraints n N demands ml cap.
Proof.
  intros Hk Hi. unfold expected_constraints.
  apply elem_of_app. left. apply list_elem_of_bind. exists k. split.
  - apply list_elem_of_fmap. exists i. split; [done|]. apply elem_of_seq. lia.
  - apply elem_of_seq. lia.
Qed.

Lemma elem_of_range k n : k ∈ range n ↔ (k < Z.to_nat n)%nat.
Proof. unfold range. rewrite elem_of_seq. lia. Qed.

Lemma elem_of_range_len {A} i (l : list A) : i ∈ range (len l) ↔ (i < length l)%nat.
Proof. rewrite range_len, elem_of_seq. lia. Qed.


(** * Dictionaries written by a loop: the last write wins *)

Section written.
Context {K V : Type} `{Countable K}.
Variable entry : nat → option (K * V).

Lemma written_S N : written entry (S N) = write entry (written entry N) N.
Proof. unfold written. by rewrite seq_S, foldl_snoc. Qed.

(** The value under [key] is the one of the last round that wrote
    [key]. *)
Lemma written_lookup_Some N key v :
  written entry N !! key = Some v ↔
  ∃ i, (i < N)%nat ∧ entry i = Some (key, v) ∧
       ∀ j v', (i < j < N)%nat → entry j ≠ Some (key, v').
Proof.
  induction N as [|N IH].
  - unfold written. simpl. rewrite lookup_empty. split; [done|].
    intros (i & ? & _). lia.
  - rewrite written_S. unfold write.
    destruct (entry N) as [[k' v0]|] eqn:HN.
    + destruct (decide (k' = key)) as [->|Hne].
      * rewrite lookup_insert_eq. split.
        -- intros [= ->]. exists N. split_and!; [lia|done|]. intros; lia.
        -- intros (i & Hi & Hentry & Hlast).
           destruct (decide (i = N)) as [->|]; [congruence|].
           destruct (Hlast N v0); [lia|done].
      * rewrite lookup_insert_ne by done. rewrite IH. split.
        -- intros (i & Hi & Hentry & Hlast). exists i. split_and!; [lia|done|].
           intros j v' Hj. destruct (decide (j = N)) as [->|]; [congruence|].
           apply Hlast. lia.
        -- intros (i & Hi & Hentry & Hlast).
           destruct (decide (i = N)) as [->|]; [congruence|].
           exists i. split_and!; [lia|done|]. intros j v' Hj. apply Hlast. lia.
    + rewrite IH. split.
      * intros (i & Hi & Hentry & Hlast). exists i. split_and!; [lia|done|].
        intros j v' Hj. destruct (decide (j = N)) as [->|]; [congruence|].
        apply Hlast. lia.
      * intros (i & Hi & Hentry & Hlast).
        destruct (decide (i = N)) as [->|]; [congruence|].
        exists i. split_and!; [lia|done|]. intros j v' Hj. apply Hlast. lia.
Qed.

(** A key that some round wrote is in the dictionary. *)
Lemma written_is_Some N i key v :
  (i < N)%nat → entry i = Some (key, v) → is_Some (written entry N !! key).
Proof.
  induction N as [|N IH]; intros Hi Hentry; [lia|].
  rewrite written_S. unfold write.
  destruct (decide (i = N)) as [->|Hne].
  - rewrite Hentry. rewrite lookup_insert_eq. by eexists.
  - destruct (entry N) as [[k' v0]|]; [|apply IH; [lia|done]].
    destruct (decide (k' = key)) as [->|].
    + rewrite lookup_insert_eq. by eexists.
    + rewrite lookup_insert_ne by done. apply IH; [lia|done].
Qed.



End written.

(** * The entries of the returned dictionary *)

Lemma foldl_insert_lookup {K V} `{Countable K} (f : K → V) (l : list K) :
  ∀ (d : gmap K V) k,
  foldl (λ d k, <[k := f k]> d) d l !! k =
  if decide (k ∈ l) then Some (f k) else d !! k.
Proof.
  induction l as [|k0 l IH]; intros d k; cbn [foldl].
  - case_decide as Hin; [by apply elem_of_nil in Hin|done].
  - rewrite IH. destruct (decide (k ∈ l)) as [Hin|Hnin].
    + rewrite decide_True; [done|]. by right.
    + destruct (decide (k = k0)) as [->|Hne].
      * rewrite lookup_insert_eq, decide_True; [done|]. left.
      * rewrite lookup_insert_ne by done. rewrite decide_False; [done|].
        intros [?|?]%elem_of_cons; done.
Qed.

Section entries.
Context {Name : Type} `{Countable Name}.
Implicit Types stickers : list (Name * Z).

Lemma solution_report_status st n N a stickers :
  solution_report st n N a stickers !! "status" = Some (PyStr (StatusName st)).
Proof. done. Qed.

Lemma solution_report_used st n N a stickers :
  solution_report st n N a stickers !! "used_layouts" = Some (PyList (used_of n a)).
Proof. done. Qed.

Lemma solution_report_prints st n N a stickers :
  solution_report st n N a stickers !! "layout_prints" =
  Some (PyPrints (prints_of a (used_of n a))).
Proof. done. Qed.

Lemma solution_report_pages st n N a stickers :
  solution_report st n N a stickers !! "total_pages" =
  Some (PyInt (pages_of a (used_of n a))).
Proof. done. Qed.

Lemma solution_report_distributions st n N a stickers :
  solution_report st n N a stickers !! "layout_distributions" =
  Some (PyDistributions (distributions_of n N a (stickers.*1) (used_of n a))).
Proof. done. Qed.

Lemma solution_report_checks st n N a stickers :
  solution_report st n N a stickers !! "demand_checks" =
  Some (PyChecks (checks_of n N a stickers)).
Proof. done. Qed.

Lemma no_solution_report_status st :
  no_solution_report (Name := Name) st !! "status" = Some (PyStr (StatusName st)).
Proof. done. Qed.

(** The status label tells the two shapes of result apart. *)
Lemma reports_solution_found st (r : gmap string (PyVal (Name := Name))) :
  r !! "status" = Some (PyStr (StatusName st)) →
  reports_solution r ↔ found st = true.
Proof.
  intros Hst. unfold reports_solution. rewrite Hst.
  destruct st; simpl; split; (done || (intros [?|?]; done) || auto).
Qed.

Lemma distributions_of_lookup n N a (names : list Name) used k :
  distributions_of n N a names used !! k =
  if decide (k ∈ used) then Some (single_of n N a names k) else None.
Proof.
  unfold distributions_of.
  rewrite (foldl_insert_lookup (λ k, single_of n N a names k)).
  by rewrite lookup_empty.
Qed.

Lemma prints_of_lookup a used k :
  prints_of a used !! k = if decide (k ∈ used) then Some (a (x_var k)) else None.
Proof.
  unfold prints_of. rewrite (foldl_insert_lookup (λ k, a (x_var k))).
  by rewrite lookup_empty.
Qed.
End entries.

(** * What every satisfying assignment looks like *)

Section feasible_facts.
Variables (demands : list Z) (ml cap mx : Z) (a : Assignment).
Hypothesis Ha : feasible demands ml cap mx a.
Local Abbreviation n := (Z.to_nat ml).
Local Abbreviation N := (length demands).

Lemma row_nonneg k v :
  (k < n)%nat → v ∈ y_var n N k <$> seq 0 N → 0 ≤ a v.
Proof.
  intros Hk (i & -> & Hi%elem_of_seq)%list_elem_of_fmap.
  apply (y_domain _ _ _ _ _ Ha); [done|lia].
Qed.

Lemma column_nonneg i v :
  (i < N)%nat → v ∈ (λ k, y_var n N k i) <$> seq 0 n → 0 ≤ a v.
Proof.
  intros Hi (k & -> & Hk%elem_of_seq)%list_elem_of_fmap.
  apply (y_domain _ _ _ _ _ Ha); [lia|done].
Qed.

Lemma z_is_flag k : (k < n)%nat → a (z_var n k) = 0 ∨ a (z_var n k) = 1.
Proof. intros Hk. pose proof (z_domain _ _ _ _ _ Ha k Hk). lia. Qed.

(** An unused layout holds no sticker and delivers none. *)
Lemma unused_density k i :
  (k < n)%nat → (i < N)%nat → a (z_var n k) = 0 → a (y_var n N k i) = 0.
Proof.
  intros Hk Hi Hz.
  apply (sum_values_zero a (y_var n N k <$> seq 0 N)).
  - intros v. by apply row_nonneg.
  - by apply (capacity_unused _ _ _ _ _ Ha).
  - apply list_elem_of_fmap. exists i. split; [done|]. apply elem_of_seq. lia.
Qed.

Lemma unused_output k i :
  (k < n)%nat → (i < N)%nat → a (z_var n k) = 0 → a (w_var n N k i) = 0.
Proof.
  intros Hk Hi Hz. rewrite (w_link _ _ _ _ _ Ha) by done.
  rewrite unused_density by done. lia.
Qed.

(** Every sticker sits, with density at least 1, in a used layout. *)
Lemma present_in_used i :
  (i < N)%nat →
  ∃ k, (k < n)%nat ∧ 1 ≤ a (y_var n N k i) ∧ a (z_var n k) = 1.
Proof.
  intros Hi.
  destruct (sum_values_positive a _ (presence _ _ _ _ _ Ha i Hi))
    as (v & (k & -> & Hk%elem_of_seq)%list_elem_of_fmap & Hv).
  exists k. split_and!; [lia|done|].
  destruct (z_is_flag k) as [Hz|Hz]; [lia| |done].
  rewrite unused_density in Hv by (done || lia). lia.
Qed.

(** The densities of a used layout fit its capacity. *)
Lemma used_row_capacity k :
  (k < n)%nat → a (z_var n k) = 1 →
  sum_values a (y_var n N k <$> seq 0 N) ≤ cap.
Proof. intros. by apply (capacity_used _ _ _ _ _ Ha). Qed.
End feasible_facts.

(** * The sum of a written dictionary *)

Section dict_sum.
Context {K : Type} `{Countable K}.
Implicit Types d : gmap K Z.

Lemma dict_sum_empty : dict_sum (∅ : gmap K Z) = 0.
Proof. unfold dict_sum. by rewrite map_fold_empty. Qed.

Lemma dict_sum_insert_fresh d key v :
  d !! key = None → dict_sum (<[key := v]> d) = v + dict_sum d.
Proof.
  intros Hnone. unfold dict_sum. rewrite map_fold_insert_L; [done| |done].
  intros. lia.
Qed.

Lemma dict_sum_delete d key v :
  d !! key = Some v → dict_sum d = v + dict_sum (delete key d).
Proof.
  intros Hsome. unfold dict_sum.
  rewrite (map_fold_delete_L _ _ key v d); [done| |done]. intros. lia.
Qed.

(** Overwriting an entry of a dictionary of non-negative values adds at
    most the new value. *)
Lemma dict_sum_insert_le d key v :
  (∀ k u, d !! k = Some u → 0 ≤ u) →
  dict_sum (<[key := v]> d) ≤ v + dict_sum d.
Proof.
  intros Hd. destruct (d !! key) as [u|] eqn:Hkey.
  - rewrite <-insert_delete_eq.
    rewrite dict_sum_insert_fresh by apply lookup_delete_eq.
    rewrite (dict_sum_delete d key u) by done. specialize (Hd key u Hkey). lia.
  - rewrite dict_sum_insert_fresh by done. lia.
Qed.

Lemma sum_snoc (l : list Z) (c : Z) : sum (l ++ [c]) = sum l + c.
Proof. induction l as [|u l IH]; simpl; lia. Qed.

(** The entries that survive in a written dictionary sum to at most what
    the rounds wrote. *)
Lemma dict_sum_written (entry : nat → option (K * Z)) (val : nat → Z) N :
  (∀ i k v, (i < N)%nat → entry i = Some (k, v) → 0 ≤ v ≤ val i) →
  (∀ i, (i < N)%nat → 0 ≤ val i) →
  dict_sum (written entry N) ≤ sum (val <$> seq 0 N).
Proof.
  induction N as [|N IH]; intros Hentry Hval.
  - unfold written. simpl. by rewrite dict_sum_empty.
  - rewrite written_S, seq_S, fmap_app. cbn [fmap list_fmap].
    rewrite sum_snoc. cbn [Nat.add].
    assert (IH' : dict_sum (written entry N) ≤ sum (val <$> seq 0 N)).
    { apply IH; intros; [eapply Hentry|apply Hval]; eauto with lia. }
    unfold write. destruct (entry N) as [[k v]|] eqn:HN.
    + pose proof (Hentry N k v ltac:(lia) HN).
      assert (Hpos : ∀ k' u, written entry N !! k' = Some u → 0 ≤ u).
      { intros k' u (i & Hi & Hi' & _)%written_lookup_Some.
        apply (Hentry i k' u); [lia|done]. }
      pose proof (dict_sum_insert_le (written entry N) k v Hpos). lia.
    + specialize (Hval N ltac:(lia)). lia.
Qed.
End dict_sum.

(** * Not printing an unused layout *)

Lemma update_same a v c : update a v c v = c.
Proof. unfold update. by rewrite decide_True. Qed.

Lemma update_other a v c u : u ≠ v → update a v c u = a u.
Proof. intros. unfold update. by rewrite decide_False. Qed.

Lemma sum_values_update_other a v c vs :
  v ∉ vs → sum_values (update a v c) vs = sum_values a vs.
Proof.
  intros Hv. apply sum_values_ext. intros u Hu. apply update_other.
  by intros ->.
Qed.

Lemma sum_values_update a v c vs :
  NoDup vs → v ∈ vs →
  sum_values (update a v c) vs = sum_values a vs - a v + c.
Proof.
  induction 1 as [|u vs Hu Hnd IH]; intros Hv.
  - by apply elem_of_nil in Hv.
  - simpl. apply elem_of_cons in Hv as [->|Hv].
    + rewrite update_same, sum_values_update_other by done. lia.
    + rewrite update_other by (by intros ->). rewrite IH by done. lia.
Qed.

Section idle.
Variables (demands : list Z) (ml cap mx : Z) (a : Assignment).
Hypothesis Ha : feasible demands ml cap mx a.
Local Abbreviation n := (Z.to_nat ml).
Local Abbreviation N := (length demands).
Variable k : nat.
Hypothesis Hk : (k < n)%nat.
Hypothesis Hz : a (z_var n k) = 0.

(** Setting the count of an unused layout to 0 keeps the assignment
    within the model. *)
Lemma idle_feasible : feasible demands ml cap mx (update a (x_var k) 0).
Proof.
  assert (Hzv : ∀ k', z_var n k' ≠ x_var k) by (unfold z_var, x_var; lia).
  assert (Hyv : ∀ k' i', y_var n N k' i' ≠ x_var k) by (unfold y_var, x_var; lia).
  assert (Hwv : ∀ k' i', w_var n N k' i' ≠ x_var k) by (unfold w_var, x_var; lia).
  assert (Hrow : ∀ (f : nat → IntVar) l, (∀ j, f j ≠ x_var k) →
            sum_values (update a (x_var k) 0) (f <$> l) = sum_values a (f <$> l)).
  { intros f l Hf. apply sum_values_update_other.
    intros (j & Hj & _)%list_elem_of_fmap. by destruct (Hf j). }
  destruct Ha as [Hxd Hzd Hyd Hwd Hlink Hcapu Hcapn Hdem Hcard Hpres].
  split.
  - intros k' Hk'. destruct (decide (k' = k)) as [->|Hne].
    + rewrite update_same. specialize (Hxd k Hk). lia.
    + rewrite update_other by (unfold x_var; lia). by apply Hxd.
  - intros k' Hk'. rewrite update_other by done. by apply Hzd.
  - intros k' i' ??. rewrite update_other by done. by apply Hyd.
  - intros k' i' ??. rewrite update_other by done. by apply Hwd.
  - intros k' i' Hk' Hi'. rewrite !(update_other _ _ _ (w_var _ _ _ _)) by done.
    rewrite !(update_other _ _ _ (y_var _ _ _ _)) by done.
    destruct (decide (k' = k)) as [->|Hne].
    + rewrite update_same, (unused_output _ _ _ _ _ Ha) by done. lia.
    + rewrite update_other by (unfold x_var; lia). by apply Hlink.
  - intros k' Hk'. rewrite update_other by done. rewrite Hrow by done.
    by apply Hcapu.
  - intros k' Hk'. rewrite update_other by done. rewrite Hrow by done.
    by apply Hcapn.
  - intros i d Hd. rewrite Hrow by done. by apply Hdem.
  - rewrite Hrow by done. done.
  - intros i Hi. rewrite Hrow by done. by apply Hpres.
Qed.

Lemma idle_objective :
  sum_values (update a (x_var k) 0) (x_var <$> seq 0 n) =
  sum_values a (x_var <$> seq 0 n) - a (x_var k).
Proof.
  rewrite sum_values_update; [lia| |].
  - unfold x_var. rewrite list_fmap_id. apply NoDup_seq.
  - apply list_elem_of_fmap. exists k. split; [done|]. apply elem_of_seq. lia.
Qed.
End idle.

(** In an optimal assignment an unused layout is printed 0 times. *)
Lemma optimal_idle_count demands ml cap mx a k :
  optimal (expected_model demands ml cap mx) a →
  (k < Z.to_nat ml)%nat → a (z_var (Z.to_nat ml) k) = 0 → a (x_var k) = 0.
Proof.
  intros [Ha%satisfies_expected Hmin] Hk Hz.
  pose proof (idle_feasible _ _ _ _ _ Ha k Hk Hz) as Ha'%satisfies_expected.
  specialize (Hmin _ Ha'). unfold objective_value in Hmin. simpl in Hmin.
  rewrite idle_objective in Hmin by done.
  pose proof (x_domain _ _ _ _ _ Ha k Hk). lia.
Qed.

(** * Inputs outside the contract *)




(** No assignment of the model has a negative objective. *)
Lemma objective_nonneg demands ml cap mx a :
  feasible demands ml cap mx a →
  0 ≤ objective_value (expected_model demands ml cap mx) a.
Proof.
  intros Ha. unfold objective_value. simpl. apply sum_values_nonneg.
  intros v (k & -> & Hk%elem_of_seq)%list_elem_of_fmap.
  apply (x_domain _ _ _ _ _ Ha). lia.
Qed.

Lemma zero_objective_optimal demands ml cap mx a :
  satisfies (expected_model demands ml cap mx) a →
  objective_value (expected_model demands ml cap mx) a = 0 →
  optimal (expected_model demands ml cap mx) a.
Proof.
  intros Ha Hobj. split; [done|]. intros a' Ha'%satisfies_expected.
  rewrite Hobj. by apply objective_nonneg.
Qed.

(** * From the solver's answer to the report *)

Lemma contract_satisfies m (r : CpSolverStatus * Assignment) :
  solver_contract m r → found r.1 = true → satisfies m r.2.
Proof.
  unfold solver_contract. destruct r as [[] a]; simpl; try done.
  by intros [? _].
Qed.

Section answer.
Context {Name : Type} `{Countable Name}.
Implicit Types stickers : list (Name * Z).

Lemma single_entry_Some n N a (names : list Name) k i nm v :
  single_entry n N a names k i = Some (nm, v) ↔
  names !! i = Some nm ∧ v = a (y_var n N k i) ∧ 0 < v.
Proof.
  unfold single_entry. destruct (names !! i) as [nm'|]; simpl.
  - case_bool_decide; split.
    + intros [= <- <-]. split_and!; [done|done|lia].
    + intros ([= ->] & -> & _). done.
    + done.
    + intros (_ & -> & ?). lia.
  - split; [done|]. by intros [? _].
Qed.

Lemma checks_entry_Some n N a stickers i nm e :
  checks_entry n N a stickers i = Some (nm, e) ↔
  ∃ d, stickers !! i = Some (nm, d) ∧ e = check_of n N a i d.
Proof.
  unfold checks_entry. destruct (stickers !! i) as [[nm' d]|]; simpl.
  - split.
    + intros [= <- <-]. by exists d.
    + intros (d' & [= -> ->] & ->). done.
  - split; [done|]. by intros (? & ? & _).
Qed.

(** On a built model the function returns the report of the solver's
    answer, and a report of a solution comes with an assignment that
    satisfies the model. *)
Lemma solved (solver : CpSolver) stickers ml cap mx t h m :
  build_model stickers ml cap mx new_model = Some (h, m) →
  solver_contract m (solver m t) →
  ∃ r,
    solve_stickers_layout solver stickers ml cap mx t = Some r ∧
    r !! "status" = Some (PyStr (StatusName (solver m t).1)) ∧
    (reports_solution r →
     found (solver m t).1 = true ∧
     feasible (stickers.*2) ml cap mx (solver m t).2 ∧
     r = solution_report (solver m t).1 (Z.to_nat ml) (length stickers)
           (solver m t).2 stickers).
Proof.
  intros [-> Hh]%build_model_inv Hc.
  rewrite solve_stickers_layout_run. cbv zeta. eexists. split; [done|].
  destruct (found _) eqn:Hfound; simpl.
  - split; [done|]. intros _. split_and!; [done| |done].
    by apply satisfies_expected, contract_satisfies.
  - split; [done|]. intros Hr.
    eapply reports_solution_found in Hr; [|done]. congruence.
Qed.
End answer.

(** * The properties of the model and of the report *)

Section properties.
Context {Name : Type} `{Countable Name}.
Implicit Types stickers : list (Name * Z).

(** C6. For every layout [k] and sticker [i] the builder allocates
    [w[k, i]] as a variable of its own (no other handle of the model
    denotes it), with domain [[0, max_x_bound * layout_capacity]], and adds
    the unconditional constraint [w[k, i] = x[k] * y[k, i]]; so in every
    assignment that satisfies the model the value of [w[k, i]] is the
    integer product of the values of [x[k]] and [y[k, i]]. *)
Theorem link_is_exact_product stickers max_layouts layout_capacity max_x_bound h m k i :
  build_model stickers max_layouts layout_capacity max_x_bound new_model = Some (h, m) →
  k ∈ range max_layouts →
  i ∈ range (len stickers) →
  ∃ xk yki wki,
    vars_x h !! k = Some xk ∧
    vars_y h !! (k, i) = Some yki ∧
    vars_w h !! (k, i) = Some wki ∧
    variables m !! wki =
      Some {| var_lb := 0; var_ub := max_x_bound * layout_capacity;
              var_name := w_name k i |} ∧
    (∀ k', vars_x h !! k' ≠ Some wki) ∧
    (∀ k', vars_z h !! k' ≠ Some wki) ∧
    (∀ k' i', vars_y h !! (k', i') ≠ Some wki) ∧
    (∀ k' i', vars_w h !! (k', i') = Some wki → k' = k ∧ i' = i) ∧
    {| enforcement_literal := []; body := IntProd wki xk yki |} ∈ constraints m ∧
    ∀ a, satisfies m a →
      a wki = a xk * a yki ∧ 0 ≤ a wki ≤ max_x_bound * layout_capacity.
Proof.
  intros [-> Hh]%build_model_inv Hk%elem_of_range Hi%elem_of_range_len.
  set (n := Z.to_nat max_layouts) in *. set (N := length stickers) in *.
  exists (x_var k), (y_var n N k i), (w_var n N k i).
  pose proof (grid_lt N n k i Hk Hi) as Hki.
  split_and!.
  - by apply (handles_x n N).
  - by apply (handles_y n N).
  - by apply (handles_w n N).
  - cbn [expected_model variables]. rewrite length_fmap. fold n N.
    by apply expected_variables_w.
  - intros k' [Hk' Heq]%(handles_x n N); [|done].
    unfold x_var, w_var in Heq. lia.
  - intros k' [Hk' Heq]%(handles_z n N); [|done].
    unfold z_var, w_var in Heq. lia.
  - intros k' i' (Hk' & Hi' & Heq)%(handles_y n N); [|done].
    pose proof (grid_lt N n k' i' Hk' Hi').
    unfold y_var, w_var in Heq. lia.
  - intros k' i' (Hk' & Hi' & Heq)%(handles_w n N); [|done].
    unfold w_var in Heq. apply (grid_inj N k' i' k i); lia.
  - cbn [expected_model constraints]. rewrite length_fmap. fold n N.
    by apply expected_constraints_link.
  - intros a Ha%satisfies_expected.
    destruct Ha as [_ _ _ Hw Hlink _ _ _ _ _].
    rewrite length_fmap in Hw, Hlink.
    split; [by apply Hlink | by apply Hw].
Qed.

(** C4. In every assignment that satisfies the built model, every
    declared sticker [i] has a layout [k] with [y[k, i] >= 1] and
    [z[k] = 1]; hence in every report of a solution every declared
    sticker appears, with a density of at least 1, in the contents of a
    used layout. *)
Theorem every_sticker_in_a_used_layout stickers max_layouts layout_capacity
    max_x_bound h m :
  build_model stickers max_layouts layout_capacity max_x_bound new_model = Some (h, m) →
  (∀ a i, satisfies m a → i ∈ range (len stickers) →
     ∃ k yki zk,
       k ∈ range max_layouts ∧
       vars_y h !! (k, i) = Some yki ∧ vars_z h !! k = Some zk ∧
       1 ≤ a yki ∧ a zk = 1) ∧
  (∀ (solver : CpSolver) t, solver_contract m (solver m t) →
     ∃ r,
       solve_stickers_layout solver stickers max_layouts layout_capacity
         max_x_bound t = Some r ∧
       (reports_solution r →
        ∃ used dists,
          r !! "used_layouts" = Some (PyList used) ∧
          r !! "layout_distributions" = Some (PyDistributions dists) ∧
          ∀ i nm d, stickers !! i = Some (nm, d) →
            ∃ k single v,
              k ∈ used ∧ dists !! k = Some single ∧
              single !! nm = Some v ∧ 1 ≤ v)).
Proof.
  intros Hb. pose proof Hb as [-> Hh]%build_model_inv. split.
  - intros a i Ha%satisfies_expected Hi%elem_of_range_len.
    destruct (present_in_used _ _ _ _ _ Ha i) as (k & Hk & Hy & Hz).
    { by rewrite length_fmap. }
    rewrite length_fmap in Hy.
    exists k, (y_var (Z.to_nat max_layouts) (length stickers) k i),
      (z_var (Z.to_nat max_layouts) k).
    split_and!; [by apply elem_of_range| | |done|done].
    + by apply (handles_y _ _ _ _ _ _ Hh).
    + by apply (handles_z _ _ _ _ _ Hh).
  - intros solver t Hc.
    destruct (solved solver _ _ _ _ t _ _ Hb Hc) as (r & Hr & _ & Hsol).
    exists r. split; [done|]. intros (Hfound & Ha & ->)%Hsol.
    set (a := (solver _ t).2) in *. set (n := Z.to_nat max_layouts) in *.
    eexists _, _. split_and!; [done|done|].
    intros i nm d Hi.
    destruct (present_in_used _ _ _ _ _ Ha i) as (k & Hk & Hy & Hz).
    { rewrite length_fmap. by eapply lookup_lt_Some. }
    rewrite length_fmap in Hy. fold n in Hk, Hy, Hz.
    assert (Hwritten : is_Some (single_of n (length stickers) a (stickers.*1) k !! nm)).
    { apply (written_is_Some _ _ i nm (a (y_var n (length stickers) k i))).
      - by eapply lookup_lt_Some.
      - apply single_entry_Some. rewrite list_lookup_fmap, Hi. split_and!; [done|done|lia]. }
    destruct Hwritten as [v Hv].
    exists k, (single_of n (length stickers) a (stickers.*1) k), v. split_and!.
    + by apply elem_of_used_of.
    + rewrite distributions_of_lookup, decide_True; [done|].
      by apply elem_of_used_of.
    + done.
    + apply written_lookup_Some in Hv as (i' & _ & Hentry & _).
      apply single_entry_Some in Hentry. lia.
Qed.

(** The contents reported for layout [k] sum to at most the densities
    of its row. *)
Lemma single_of_sum demands ml cap mx a (names : list Name) k :
  feasible demands ml cap mx a → (k < Z.to_nat ml)%nat →
  dict_sum (single_of (Z.to_nat ml) (length demands) a names k) ≤
  sum_values a (y_var (Z.to_nat ml) (length demands) k <$> seq 0 (length demands)).
Proof.
  intros Ha Hk. unfold single_of.
  rewrite <-sum_fmap_values, <-list_fmap_compose.
  apply dict_sum_written.
  - intros i nm v Hi (_ & -> & ?)%single_entry_Some. simpl. lia.
  - intros i Hi. simpl. by apply (y_domain _ _ _ _ _ Ha).
Qed.

(** C5. In every assignment that satisfies the built model, the densities
    [y[k, i]] of layout [k] sum to at most [layout_capacity] when [z[k]]
    is true and to exactly 0 when [z[k]] is false; consequently, in
    every report of a solution, the densities listed for a used layout
    sum to at most [layout_capacity]. *)
Theorem layout_capacity_respected stickers max_layouts layout_capacity
    max_x_bound h m :
  build_model stickers max_layouts layout_capacity max_x_bound new_model = Some (h, m) →
  (∀ a k, satisfies m a → k ∈ range max_layouts →
     ∃ zk ys,
       vars_z h !! k = Some zk ∧
       mapM (λ i, vars_y h !! (k, i)) (range (len stickers)) = Some ys ∧
       (a zk = 0 ∨ a zk = 1) ∧
       (a zk = 1 → sum_values a ys ≤ layout_capacity) ∧
       (a zk = 0 → sum_values a ys = 0)) ∧
  (∀ (solver : CpSolver) t, solver_contract m (solver m t) →
     ∃ r,
       solve_stickers_layout solver stickers max_layouts layout_capacity
         max_x_bound t = Some r ∧
       (reports_solution r →
        ∃ used dists,
          r !! "used_layouts" = Some (PyList used) ∧
          r !! "layout_distributions" = Some (PyDistributions dists) ∧
          ∀ k, k ∈ used →
            ∃ single, dists !! k = Some single ∧
                      dict_sum single ≤ layout_capacity)).
Proof.
  intros Hb. pose proof Hb as [-> Hh]%build_model_inv. split.
  - intros a k Ha%satisfies_expected Hk%elem_of_range.
    exists (z_var (Z.to_nat max_layouts) k),
      (y_var (Z.to_nat max_layouts) (length stickers) k <$> seq 0 (length stickers)).
    split_and!.
    + by apply (handles_z _ _ _ _ _ Hh).
    + rewrite range_len. by apply handles_y_row.
    + by apply (z_is_flag _ _ _ _ _ Ha).
    + intros Hz. pose proof (used_row_capacity _ _ _ _ _ Ha k Hk Hz) as Hc.
      by rewrite length_fmap in Hc.
    + intros Hz. pose proof (capacity_unused _ _ _ _ _ Ha k Hk Hz) as Hc.
      by rewrite length_fmap in Hc.
  - intros solver t Hc.
    destruct (solved solver _ _ _ _ t _ _ Hb Hc) as (r & Hr & _ & Hsol).
    exists r. split; [done|]. intros (Hfound & Ha & ->)%Hsol.
    set (a := (solver _ t).2) in *. set (n := Z.to_nat max_layouts) in *.
    eexists _, _. split_and!; [done|done|].
    intros k [Hk Hz]%elem_of_used_of.
    exists (single_of n (length stickers) a (stickers.*1) k). split.
    + rewrite distributions_of_lookup, decide_True; [done|].
      by apply elem_of_used_of.
    + pose proof (single_of_sum _ _ _ _ _ (stickers.*1) k Ha Hk) as Hsum.
      pose proof (used_row_capacity _ _ _ _ _ Ha k Hk Hz) as Hcap.
      rewrite length_fmap in Hsum, Hcap. etrans; [exact Hsum|exact Hcap].
Qed.

(** The entry of [demand_checks] under the name of sticker [i] is the
    one of the last sticker of that name. *)
Lemma checks_of_lookup n a stickers i nm d :
  stickers !! i = Some (nm, d) →
  ∃ j dj,
    (i ≤ j)%nat ∧ stickers !! j = Some (nm, dj) ∧
    (∀ j', (j < j')%nat → stickers.*1 !! j' ≠ Some nm) ∧
    checks_of n (length stickers) a stickers !! nm =
      Some (check_of n (length stickers) a j dj).
Proof.
  intros Hi. pose proof (lookup_lt_Some _ _ _ Hi) as Hlt.
  destruct (written_is_Some (checks_entry n (length stickers) a stickers)
              (length stickers) i nm (check_of n (length stickers) a i d))
    as [e He]; [done|by apply checks_entry_Some; exists d|].
  pose proof He as (j & Hj & (dj & Hsj & ->)%checks_entry_Some & Hlast)%written_lookup_Some.
  exists j, dj. split_and!; [|done| |done].
  - destruct (decide (i ≤ j)%nat); [done|].
    destruct (Hlast i (check_of n (length stickers) a i d)); [lia|].
    apply checks_entry_Some. by exists d.
  - intros j' Hj' Hname. rewrite list_lookup_fmap in Hname.
    destruct (stickers !! j') as [[nm' d']|] eqn:Hsj'; [|done].
    simpl in Hname. injection Hname as ->.
    destruct (Hlast j' (check_of n (length stickers) a j' d')).
    + split; [done|]. by eapply lookup_lt_Some.
    + apply checks_entry_Some. by exists d'.
Qed.

(** C1. In every report of a solution, for every declared sticker [i]:
    the solved values [w[k, i]] sum to at least the demand of [i]; the
    entry of [demand_checks] under its name has [printed >= required] and
    [met] is exactly that comparison; and that entry holds the sum of the
    [w[k, i]] and the demand of [i] itself, unless a later sticker of the
    same name has replaced it. *)
Theorem demand_coverage (solver : CpSolver) stickers max_layouts layout_capacity
    max_x_bound t h m :
  build_model stickers max_layouts layout_capacity max_x_bound new_model = Some (h, m) →
  solver_contract m (solver m t) →
  ∃ r,
    solve_stickers_layout solver stickers max_layouts layout_capacity
      max_x_bound t = Some r ∧
    (reports_solution r →
     ∃ checks,
       r !! "demand_checks" = Some (PyChecks checks) ∧
       ∀ i nm d, stickers !! i = Some (nm, d) →
         ∃ ws e,
           mapM (λ k, vars_w h !! (k, i)) (range max_layouts) = Some ws ∧
           sum_values (solver m t).2 ws >= d ∧
           checks !! nm = Some e ∧
           printed e >= required e ∧
           met e = bool_decide (printed e >= required e) ∧
           met e = true ∧
           ((∀ j, (i < j)%nat → stickers.*1 !! j ≠ Some nm) →
            printed e = sum_values (solver m t).2 ws ∧ required e = d)).
Proof.
  intros Hb Hc. pose proof Hb as [-> Hh]%build_model_inv.
  destruct (solved solver _ _ _ _ t _ _ Hb Hc) as (r & Hr & _ & Hsol).
  exists r. split; [done|]. intros (Hfound & Ha & ->)%Hsol.
  set (a := (solver _ t).2) in *. set (n := Z.to_nat max_layouts) in *.
  eexists. split; [done|]. intros i nm d Hi.
  pose proof (lookup_lt_Some _ _ _ Hi) as Hlt.
  assert (Hcover : ∀ j dj, stickers !! j = Some (nm, dj) →
            printed_of n (length stickers) a j >= dj).
  { intros j dj Hj. unfold printed_of.
    pose proof (demand_covered _ _ _ _ _ Ha j dj) as Hd.
    rewrite length_fmap, list_lookup_fmap, Hj in Hd. specialize (Hd eq_refl).
    fold n in Hd. lia. }
  destruct (checks_of_lookup n a stickers i nm d Hi)
    as (j & dj & Hij & Hj & Hlast & Hlook).
  exists ((λ k, w_var n (length stickers) k i) <$> seq 0 n),
    (check_of n (length stickers) a j dj).
  split_and!.
  - by apply handles_w_column.
  - by apply Hcover.
  - done.
  - simpl. by apply Hcover.
  - done.
  - simpl. apply bool_decide_eq_true. by apply Hcover.
  - intros Hnone. assert (j = i) as ->.
    { destruct (decide (j = i)); [done|]. destruct (Hnone j); [lia|].
      by rewrite list_lookup_fmap, Hj. }
    rewrite Hi in Hj. by injection Hj as <-.
Qed.

(** C7. When the solver's status is neither [OPTIMAL] nor [FEASIBLE], the
    returned dictionary has exactly the keys [status] and [message]: the
    status label and the explanatory message, and none of
    [used_layouts], [layout_prints], [total_pages],
    [layout_distributions], [demand_checks]. *)
Theorem no_solution_is_status_and_message (solver : CpSolver) stickers max_layouts
    layout_capacity max_x_bound t h m :
  build_model stickers max_layouts layout_capacity max_x_bound new_model = Some (h, m) →
  (solver m t).1 ≠ OPTIMAL →
  (solver m t).1 ≠ FEASIBLE →
  ∃ r,
    solve_stickers_layout solver stickers max_layouts layout_capacity
      max_x_bound t = Some r ∧
    dom r = {["status"; "message"]} ∧
    r !! "status" = Some (PyStr (StatusName (solver m t).1)) ∧
    r !! "message" = Some (PyStr "No feasible solution found or time limit reached.") ∧
    r !! "used_layouts" = None ∧
    r !! "layout_prints" = None ∧
    r !! "total_pages" = None ∧
    r !! "layout_distributions" = None ∧
    r !! "demand_checks" = None.
Proof.
  intros [-> Hh]%build_model_inv Hopt Hfeas.
  rewrite solve_stickers_layout_run. cbv zeta.
  destruct (found _) eqn:Hfound.
  { destruct (solver _ t).1; done. }
  eexists. split; [done|]. unfold no_solution_report.
  split_and!; done.
Qed.



End properties.



(** * Scenario A: demands 10 and 5, one layout of two slots *)

Lemma scenario_A_optimum mx :
  10 ≤ mx →
  satisfies (expected_model [10; 5] 1 2 mx) (assignment_of [10; 1; 1; 1; 10; 10]).
Proof.
  intros Hmx.
  unfold satisfies, expected_model, expected_variables, expected_constraints,
    capacity_constraints, assignment_of.
  simpl. split.
  - repeat split; try done; lia.
  - repeat constructor; unfold constraint_holds; simpl;
      intros Hlit; try apply Forall_inv in Hlit; simpl in *; lia.
Qed.

Lemma scenario_A_feasible mx a :
  satisfies (expected_model [10; 5] 1 2 mx) a →
  10 ≤ a 0%nat ∧ a 1%nat = 1 ∧ a 2%nat = 1 ∧ a 3%nat = 1 ∧
  a 4%nat = a 0%nat ∧ a 5%nat = a 0%nat.
Proof.
  intros Ha%satisfies_expected.
  pose proof (presence _ _ _ _ _ Ha 0%nat ltac:(simpl; lia)) as P0.
  pose proof (presence _ _ _ _ _ Ha 1%nat ltac:(simpl; lia)) as P1.
  pose proof (z_is_flag _ _ _ _ _ Ha 0%nat ltac:(simpl; lia)) as Hz.
  pose proof (capacity_used _ _ _ _ _ Ha 0%nat ltac:(simpl; lia)) as Hcu.
  pose proof (capacity_unused _ _ _ _ _ Ha 0%nat ltac:(simpl; lia)) as Hcn.
  pose proof (w_link _ _ _ _ _ Ha 0%nat 0%nat ltac:(simpl; lia) ltac:(simpl; lia)) as L0.
  pose proof (w_link _ _ _ _ _ Ha 0%nat 1%nat ltac:(simpl; lia) ltac:(simpl; lia)) as L1.
  pose proof (demand_covered _ _ _ _ _ Ha 0%nat 10 eq_refl) as D0.
  pose proof (y_domain _ _ _ _ _ Ha 0%nat 0%nat ltac:(simpl; lia) ltac:(simpl; lia)) as Y0.
  pose proof (y_domain _ _ _ _ _ Ha 0%nat 1%nat ltac:(simpl; lia) ltac:(simpl; lia)) as Y1.
  unfold y_var, w_var, x_var, z_var in *. simpl in *.
  assert (Hz1 : a 1%nat = 1) by lia.
  assert (Hy0 : a 2%nat = 1) by lia.
  assert (Hy1 : a 3%nat = 1) by lia.
  rewrite Hy0 in L0. rewrite Hy1 in L1. lia.
Qed.

(** Printing the one layout 10 times is a minimum. *)
Lemma scenario_A_optimal mx :
  10 ≤ mx →
  optimal (expected_model [10; 5] 1 2 mx) (assignment_of [10; 1; 1; 1; 10; 10]).
Proof.
  intros Hmx. split; [by apply scenario_A_optimum|].
  intros a' Ha'%scenario_A_feasible. unfold objective_value. simpl.
  unfold x_var, assignment_of. simpl. lia.
Qed.

(** Every minimum prints it 10 times. *)
Lemma scenario_A_values mx a :
  10 ≤ mx → optimal (expected_model [10; 5] 1 2 mx) a →
  a 0%nat = 10 ∧ a 1%nat = 1 ∧ a 2%nat = 1 ∧ a 3%nat = 1 ∧ a 4%nat = 10 ∧ a 5%nat = 10.
Proof.
  intros Hmx [Ha Hmin]. specialize (Hmin _ (scenario_A_optimum mx Hmx)).
  apply scenario_A_feasible in Ha.
  unfold objective_value in Hmin. simpl in Hmin.
  unfold x_var, assignment_of in Hmin. simpl in Hmin. lia.
Qed.

Section scenario_A.
Context {Name : Type} `{Countable Name}.

(** C8. With the two stickers of demands 10 and 5, one layout of
    capacity 2 and a bound on the count of at least 10, printing the
    single layout 10 times with density 1 for each sticker is optimal, and
    with any optimal answer the function reports: layout 0 used and
    printed 10 times, 10 pages in total, density 1 for each of the two
    stickers, 10 printed for the demand of 10 and 10 printed for the
    demand of 5. *)
Theorem scenario_A_report (solver : CpSolver) (item1 item2 : Name) max_x_bound t h m :
  10 ≤ max_x_bound →
  build_model [(item1, 10); (item2, 5)] 1 2 max_x_bound new_model = Some (h, m) →
  (solver m t).1 = OPTIMAL →
  solver_contract m (solver m t) →
  optimal m (assignment_of [10; 1; 1; 1; 10; 10]) ∧
  solve_stickers_layout solver [(item1, 10); (item2, 5)] 1 2 max_x_bound t =
    Some (<["status" := PyStr "OPTIMAL"]>
         (<["used_layouts" := PyList [0%nat]]>
         (<["layout_prints" := PyPrints {[0%nat := 10]}]>
         (<["total_pages" := PyInt 10]>
         (<["layout_distributions" :=
              PyDistributions {[0%nat := <[item2 := 1]> {[item1 := 1]}]}]>
         (<["demand_checks" :=
              PyChecks (<[item2 := {| printed := 10; required := 5; met := true |}]>
                        {[item1 := {| printed := 10; required := 10; met := true |}]})]>
          ∅)))))).
Proof.
  intros Hmx [-> Hh]%build_model_inv Hopt Hc. simpl in *.
  split; [by apply scenario_A_optimal|].
  unfold solver_contract in Hc. rewrite Hopt in Hc.
  destruct (scenario_A_values _ _ Hmx Hc) as (Hx & Hz & Hy0 & Hy1 & Hw0 & Hw1).
  rewrite solve_stickers_layout_run. cbv zeta. simpl. rewrite Hopt. simpl.
  unfold solution_report.
  set (a := (solver _ t).2) in *.
  assert (Hused : used_of (Z.to_nat 1) a = [0%nat]).
  { unfold used_of. simpl. rewrite filter_cons, decide_True by done. done. }
  rewrite Hused.
  assert (Hprints : prints_of a [0%nat] = {[0%nat := 10]}).
  { unfold prints_of, x_var. simpl. by rewrite Hx. }
  assert (Hpages : pages_of a [0%nat] = 10).
  { unfold pages_of, x_var. simpl. rewrite Hx. done. }
  assert (Hsingle : single_of (Z.to_nat 1) 2 a [(item1, 10); (item2, 5)].*1 0 =
                    <[item2 := 1]> {[item1 := 1]}).
  { unfold single_of, written, write, single_entry, y_var. simpl.
    rewrite Hy0, Hy1. done. }
  assert (Hchecks : checks_of (Z.to_nat 1) 2 a [(item1, 10); (item2, 5)] =
            <[item2 := {| printed := 10; required := 5; met := true |}]>
            {[item1 := {| printed := 10; required := 10; met := true |}]}).
  { unfold checks_of, written, write, checks_entry, check_of, printed_of, w_var.
    simpl. rewrite Hw0, Hw1. done. }
  unfold distributions_of. cbn [foldl].
  rewrite Hprints, Hpages, Hsingle, Hchecks. done.
Qed.
End scenario_A.

(** * No sticker at all *)

Lemma sum_zeros (l : list Z) : (∀ c, c ∈ l → c = 0) → sum l = 0.
Proof.
  induction l as [|c l IH]; intros Hl; simpl; [done|].
  rewrite (Hl c) by left. rewrite IH; [done|]. intros; apply Hl; by right.
Qed.




Section no_sticker.
Context {Name : Type} `{Countable Name}.

End no_sticker.


(** * Stickers that share a name *)

Section duplicates.
Context {Name : Type} `{Countable Name}.
Implicit Types stickers : list (Name * Z).


End duplicates.

(** * The theorems at concrete inputs *)

(** Scenario A, layout 0 and sticker 1: the output variable and its product. *)
Lemma link_is_exact_product_witness :
  build_model scenario_A_stickers 1 2 100 new_model =
    Some (scenario_A_handles, scenario_A_model) ∧
  0%nat ∈ range 1 ∧
  1%nat ∈ range (len scenario_A_stickers) ∧
  ∃ xk yki wki,
    vars_x scenario_A_handles !! 0%nat = Some xk ∧
    vars_y scenario_A_handles !! (0%nat, 1%nat) = Some yki ∧
    vars_w scenario_A_handles !! (0%nat, 1%nat) = Some wki ∧
    variables scenario_A_model !! wki =
      Some {| var_lb := 0; var_ub := 100 * 2; var_name := w_name 0 1 |} ∧
    (∀ k', vars_x scenario_A_handles !! k' ≠ Some wki) ∧
    (∀ k', vars_z scenario_A_handles !! k' ≠ Some wki) ∧
    (∀ k' i', vars_y scenario_A_handles !! (k', i') ≠ Some wki) ∧
    (∀ k' i', vars_w scenario_A_handles !! (k', i') = Some wki → k' = 0%nat ∧ i' = 1%nat) ∧
    {| enforcement_literal := []; body := IntProd wki xk yki |} ∈
      constraints scenario_A_model ∧
    ∀ a, satisfies scenario_A_model a →
      a wki = a xk * a yki ∧ 0 ≤ a wki ≤ 100 * 2.
Proof.
  assert (Hb : build_model scenario_A_stickers 1 2 100 new_model =
               Some (scenario_A_handles, scenario_A_model))
    by (vm_compute; reflexivity).
  assert (Hk : 0%nat ∈ range 1) by (apply (bool_decide_unpack _); vm_compute; exact I).
  assert (Hi : 1%nat ∈ range (len scenario_A_stickers))
    by (apply (bool_decide_unpack _); vm_compute; exact I).
  split; [exact Hb|]. split; [exact Hk|]. split; [exact Hi|].
  exact (link_is_exact_product scenario_A_stickers 1 2 100 scenario_A_handles
           scenario_A_model 0%nat 1%nat Hb Hk Hi).
Defined.

(** Scenario A with a feasible answer: the two demands are covered. *)
Lemma demand_coverage_witness :
  build_model scenario_A_stickers 1 2 100 new_model =
    Some (scenario_A_handles, scenario_A_model) ∧
  solver_contract scenario_A_model (answers FEASIBLE scenario_A_answer scenario_A_model 300) ∧
  ∃ r,
    solve_stickers_layout (answers FEASIBLE scenario_A_answer) scenario_A_stickers 1 2 100 300 = Some r ∧
    (reports_solution r →
     ∃ checks,
       r !! "demand_checks" = Some (PyChecks checks) ∧
       ∀ i nm d, scenario_A_stickers !! i = Some (nm, d) →
         ∃ ws e,
           mapM (λ k, vars_w scenario_A_handles !! (k, i)) (range 1) = Some ws ∧
           sum_values (answers FEASIBLE scenario_A_answer scenario_A_model 300).2 ws >= d ∧
           checks !! nm = Some e ∧
           printed e >= required e ∧
           met e = bool_decide (printed e >= required e) ∧
           met e = true ∧
           ((∀ j, (i < j)%nat → scenario_A_stickers.*1 !! j ≠ Some nm) →
            printed e = sum_values (answers FEASIBLE scenario_A_answer scenario_A_model 300).2 ws ∧ required e = d)).
Proof.
  assert (Hb : build_model scenario_A_stickers 1 2 100 new_model =
    Some (scenario_A_handles, scenario_A_model))
    by (vm_compute; reflexivity).
  assert (Hc : solver_contract scenario_A_model (answers FEASIBLE scenario_A_answer scenario_A_model 300))
    by (change (satisfies scenario_A_model (assignment_of scenario_A_answer));
        apply (bool_decide_unpack (satisfies _ _)); vm_compute; exact I).
  split; [exact Hb|]. split; [exact Hc|].
  exact (demand_coverage (answers FEASIBLE scenario_A_answer) scenario_A_stickers 1 2 100 300 scenario_A_handles scenario_A_model Hb Hc).
Defined.

(** Scenario A: both stickers sit in the used layout. *)
Lemma every_sticker_in_a_used_layout_witness :
  build_model scenario_A_stickers 1 2 100 new_model =
    Some (scenario_A_handles, scenario_A_model) ∧
  (∀ a i, satisfies scenario_A_model a → i ∈ range (len scenario_A_stickers) →
     ∃ k yki zk,
       k ∈ range 1 ∧
       vars_y scenario_A_handles !! (k, i) = Some yki ∧
       vars_z scenario_A_handles !! k = Some zk ∧
       1 ≤ a yki ∧ a zk = 1) ∧
  (∀ (solver : CpSolver) t, solver_contract scenario_A_model (solver scenario_A_model t) →
     ∃ r,
       solve_stickers_layout solver scenario_A_stickers 1 2 100 t = Some r ∧
       (reports_solution r →
        ∃ used dists,
          r !! "used_layouts" = Some (PyList used) ∧
          r !! "layout_distributions" = Some (PyDistributions dists) ∧
          ∀ i nm d, scenario_A_stickers !! i = Some (nm, d) →
            ∃ k single v,
              k ∈ used ∧ dists !! k = Some single ∧
              single !! nm = Some v ∧ 1 ≤ v)).
Proof.
  assert (Hb : build_model scenario_A_stickers 1 2 100 new_model =
    Some (scenario_A_handles, scenario_A_model))
    by (vm_compute; reflexivity).
  split; [exact Hb|].
  exact (every_sticker_in_a_used_layout scenario_A_stickers 1 2 100 scenario_A_handles scenario_A_model Hb).
Defined.

(** Scenario A: the layout of two slots holds at most two stickers. *)
Lemma layout_capacity_respected_witness :
  build_model scenario_A_stickers 1 2 100 new_model =
    Some (scenario_A_handles, scenario_A_model) ∧
  (∀ a k, satisfies scenario_A_model a → k ∈ range 1 →
     ∃ zk ys,
       vars_z scenario_A_handles !! k = Some zk ∧
       mapM (λ i, vars_y scenario_A_handles !! (k, i)) (range (len scenario_A_stickers)) =
         Some ys ∧
       (a zk = 0 ∨ a zk = 1) ∧
       (a zk = 1 → sum_values a ys ≤ 2) ∧
       (a zk = 0 → sum_values a ys = 0)) ∧
  (∀ (solver : CpSolver) t, solver_contract scenario_A_model (solver scenario_A_model t) →
     ∃ r,
       solve_stickers_layout solver scenario_A_stickers 1 2 100 t = Some r ∧
       (reports_solution r →
        ∃ used dists,
          r !! "used_layouts" = Some (PyList used) ∧
          r !! "layout_distributions" = Some (PyDistributions dists) ∧
          ∀ k, k ∈ used →
            ∃ single, dists !! k = Some single ∧ dict_sum single ≤ 2)).
Proof.
  assert (Hb : build_model scenario_A_stickers 1 2 100 new_model =
    Some (scenario_A_handles, scenario_A_model))
    by (vm_compute; reflexivity).
  split; [exact Hb|].
  exact (layout_capacity_respected scenario_A_stickers 1 2 100 scenario_A_handles scenario_A_model Hb).
Defined.

(** Scenario A with a solver that answers [INFEASIBLE]. *)
Lemma no_solution_is_status_and_message_witness :
  build_model scenario_A_stickers 1 2 100 new_model =
    Some (scenario_A_handles, scenario_A_model) ∧
  (answers INFEASIBLE scenario_A_answer scenario_A_model 300).1 ≠ OPTIMAL ∧
  (answers INFEASIBLE scenario_A_answer scenario_A_model 300).1 ≠ FEASIBLE ∧
  ∃ r,
    solve_stickers_layout (answers INFEASIBLE scenario_A_answer) scenario_A_stickers 1 2 100 300 = Some r ∧
    dom r = {["status"; "message"]} ∧
    r !! "status" = Some (PyStr (StatusName (answers INFEASIBLE scenario_A_answer scenario_A_model 300).1)) ∧
    r !! "message" = Some (PyStr "No feasible solution found or time limit reached.") ∧
    r !! "used_layouts" = None ∧
    r !! "layout_prints" = None ∧
    r !! "total_pages" = None ∧
    r !! "layout_distributions" = None ∧
    r !! "demand_checks" = None.
Proof.
  assert (Hb : build_model scenario_A_stickers 1 2 100 new_model =
    Some (scenario_A_handles, scenario_A_model))
    by (vm_compute; reflexivity).
  assert (Hopt : (answers INFEASIBLE scenario_A_answer scenario_A_model 300).1 ≠ OPTIMAL)
    by (vm_compute; discriminate).
  assert (Hfeas : (answers INFEASIBLE scenario_A_answer scenario_A_model 300).1 ≠ FEASIBLE)
    by (vm_compute; discriminate).
  split; [exact Hb|]. split; [exact Hopt|]. split; [exact Hfeas|].
  exact (no_solution_is_status_and_message (answers INFEASIBLE scenario_A_answer) scenario_A_stickers 1 2 100 300 scenario_A_handles scenario_A_model Hb Hopt Hfeas).
Defined.



(** Scenario A with the optimal answer and a bound of 100 on the counts. *)
Lemma scenario_A_report_witness :
  10 ≤ 100 ∧
  build_model [("item1", 10); ("item2", 5)] 1 2 100 new_model =
    Some (scenario_A_handles, scenario_A_model) ∧
  (answers OPTIMAL scenario_A_answer scenario_A_model 300).1 = OPTIMAL ∧
  solver_contract scenario_A_model (answers OPTIMAL scenario_A_answer scenario_A_model 300) ∧
  optimal scenario_A_model (assignment_of [10; 1; 1; 1; 10; 10]) ∧
  solve_stickers_layout (answers OPTIMAL scenario_A_answer) [("item1", 10); ("item2", 5)] 1 2 100 300 =
    Some (<["status" := PyStr "OPTIMAL"]>
         (<["used_layouts" := PyList [0%nat]]>
         (<["layout_prints" := PyPrints {[0%nat := 10]}]>
         (<["total_pages" := PyInt 10]>
         (<["layout_distributions" :=
              PyDistributions {[0%nat := <["item2" := 1]> {["item1" := 1]}]}]>
         (<["demand_checks" :=
              PyChecks (<["item2" := {| printed := 10; required := 5; met := true |}]>
                        {["item1" := {| printed := 10; required := 10; met := true |}]})]>
          ∅)))))).
Proof.
  assert (Hmx : 10 ≤ 100)
    by (lia).
  assert (Hb : build_model [("item1", 10); ("item2", 5)] 1 2 100 new_model =
    Some (scenario_A_handles, scenario_A_model))
    by (vm_compute; reflexivity).
  assert (Hopt : (answers OPTIMAL scenario_A_answer scenario_A_model 300).1 = OPTIMAL)
    by (reflexivity).
  assert (Hc : solver_contract scenario_A_model (answers OPTIMAL scenario_A_answer scenario_A_model 300))
    by (change (optimal (expected_model [10; 5] 1 2 100)
              (assignment_of [10; 1; 1; 1; 10; 10]));
        apply scenario_A_optimal; lia).
  split; [exact Hmx|]. split; [exact Hb|]. split; [exact Hopt|]. split; [exact Hc|].
  exact (scenario_A_report (answers OPTIMAL scenario_A_answer) "item1" "item2" 100 300 scenario_A_handles scenario_A_model Hmx Hb Hopt Hc).
Defined.



(** * More on the report: what holds of any answer *)

Section returned.
Context {Name : Type} `{Countable Name}.
Implicit Types stickers : list (Name * Z).

(** The function returns the report of the solver's answer, whatever the
    answer is. *)
Lemma returned (solver : CpSolver) stickers ml cap mx t h m :
  build_model stickers ml cap mx new_model = Some (h, m) →
  m = expected_model (stickers.*2) ml cap mx ∧
  handles_ok (Z.to_nat ml) (length stickers) h ∧
  ∃ r,
    solve_stickers_layout solver stickers ml cap mx t = Some r ∧
    (reports_solution r →
     found (solver m t).1 = true ∧
     r = solution_report (solver m t).1 (Z.to_nat ml) (length stickers)
           (solver m t).2 stickers).
Proof.
  intros [-> Hh]%build_model_inv. split; [done|]. split; [done|].
  rewrite solve_stickers_layout_run. cbv zeta. eexists. split; [done|].
  destruct (found _) eqn:Hfound; [done|].
  intros Hr. eapply reports_solution_found in Hr; [|done]. congruence.
Qed.

Lemma dom_foldl_insert {K V} `{Countable K} (f : K → V) (l : list K) :
  dom (foldl (λ d k, <[k := f k]> d) (∅ : gmap K V) l) =@{gset K} list_to_set l.
Proof.
  apply set_eq. intros k. rewrite elem_of_dom, elem_of_list_to_set.
  rewrite (foldl_insert_lookup f), lookup_empty.
  case_decide; split; try done; by intros [? ?].
Qed.

Lemma filter_seq_sorted (P : nat → Prop) `{∀ k, Decision (P k)} n :
  ∀ s, StronglySorted lt (filter P (seq s n)).
Proof.
  induction n as [|n IH]; intros s; [constructor|].
  assert (Htail : Forall (lt s) (filter P (seq (S s) n))).
  { apply Forall_forall. intros k [_ Hk%elem_of_seq]%list_elem_of_filter. lia. }
  cbn [seq]. rewrite filter_cons. case_decide; [|apply IH].
  constructor; [apply IH|done].
Qed.

(** X1. In every report of a solution the keys of [layout_prints] and of
    [layout_distributions] are exactly the indices of [used_layouts], and
    [layout_prints[k]] is the value of [x[k]]: looking a used layout up
    in either dictionary, as the caller does, never misses. *)
Theorem report_keys_are_used_layouts (solver : CpSolver) stickers max_layouts
    layout_capacity max_x_bound t h m :
  build_model stickers max_layouts layout_capacity max_x_bound new_model = Some (h, m) →
  ∃ r,
    solve_stickers_layout solver stickers max_layouts layout_capacity
      max_x_bound t = Some r ∧
    (reports_solution r →
     ∃ used prints dists,
       r !! "used_layouts" = Some (PyList used) ∧
       r !! "layout_prints" = Some (PyPrints prints) ∧
       r !! "layout_distributions" = Some (PyDistributions dists) ∧
       dom prints = list_to_set used ∧
       dom dists = list_to_set used ∧
       ∀ k, k ∈ used →
         ∃ xk, vars_x h !! k = Some xk ∧
               prints !! k = Some ((solver m t).2 xk) ∧
               is_Some (dists !! k)).
Proof.
  intros Hb. destruct (returned solver _ _ _ _ t _ _ Hb) as (-> & Hh & r & Hr & Hsol).
  exists r. split; [done|]. intros [Hfound ->]%Hsol.
  set (a := (solver _ t).2). set (n := Z.to_nat max_layouts) in *.
  eexists _, _, _. split_and!; [done|done|done| | |].
  - apply dom_foldl_insert.
  - unfold distributions_of.
    apply (dom_foldl_insert (λ k, single_of n (length stickers) a (stickers.*1) k)).
  - intros k Hk. pose proof Hk as [Hkn _]%elem_of_used_of.
    exists (x_var k). split_and!.
    + by apply (handles_x _ _ _ _ _ Hh).
    + by rewrite prints_of_lookup, decide_True.
    + rewrite distributions_of_lookup, decide_True by done. by eexists.
Qed.

(** X2. In every report of a solution [used_layouts] lists, in increasing
    order and without repetition, exactly the layouts [k] of
    [range(max_layouts)] whose flag [z[k]] has the value 1; so it never
    has more than [max_layouts] entries. *)
Theorem used_layouts_shape (solver : CpSolver) stickers max_layouts
    layout_capacity max_x_bound t h m :
  build_model stickers max_layouts layout_capacity max_x_bound new_model = Some (h, m) →
  ∃ r,
    solve_stickers_layout solver stickers max_layouts layout_capacity
      max_x_bound t = Some r ∧
    (reports_solution r →
     ∃ used,
       r !! "used_layouts" = Some (PyList used) ∧
       StronglySorted lt used ∧
       NoDup used ∧
       (∀ k, k ∈ used ↔
             k ∈ range max_layouts ∧
             ∃ zk, vars_z h !! k = Some zk ∧ (solver m t).2 zk = 1) ∧
       len used ≤ Z.max 0 max_layouts).
Proof.
  intros Hb. destruct (returned solver _ _ _ _ t _ _ Hb) as (-> & Hh & r & Hr & Hsol).
  exists r. split; [done|]. intros [Hfound ->]%Hsol.
  set (a := (solver _ t).2). set (n := Z.to_nat max_layouts) in *.
  exists (used_of n a). split_and!; [done| | | |].
  - apply filter_seq_sorted.
  - apply NoDup_filter, NoDup_seq.
  - intros k. rewrite elem_of_used_of, elem_of_range. fold n. split.
    + intros [Hk Hz]. split; [done|]. exists (z_var n k). split; [|done].
      by apply (handles_z _ _ _ _ _ Hh).
    + intros [Hk (zk & [_ ->]%(handles_z _ _ _ _ _ Hh) & Hz)]. done.
  - unfold len, used_of.
    pose proof (length_filter (λ k, a (z_var n k) = 1) (seq 0 n)) as Hlen.
    rewrite length_seq in Hlen. unfold n in *. lia.
Qed.
End returned.

(** * The number of pages *)

Lemma dict_sum_foldl_insert {K} `{Countable K} (f : K → Z) (l : list K) :
  NoDup l →
  ∀ d : gmap K Z, (∀ k, k ∈ l → d !! k = None) →
  dict_sum (foldl (λ d k, <[k := f k]> d) d l) = dict_sum d + sum (f <$> l).
Proof.
  induction 1 as [|k l Hk Hnd IH]; intros d Hd; csimpl; [lia|].
  rewrite IH.
  - rewrite dict_sum_insert_fresh by (apply Hd; left). lia.
  - intros k' Hk'. rewrite lookup_insert_ne by (by intros ->).
    apply Hd. by right.
Qed.

Lemma sum_nonneg (l : list Z) : (∀ c, c ∈ l → 0 ≤ c) → 0 ≤ sum l.
Proof.
  induction l as [|c l IH]; intros Hl; simpl; [done|].
  pose proof (Hl c (list_elem_of_here _ _)).
  specialize (IH (λ u Hu, Hl u (list_elem_of_further _ _ _ Hu))). lia.
Qed.

Lemma sum_filter_le {A} (f : A → Z) (P : A → Prop) `{∀ x, Decision (P x)} (l : list A) :
  (∀ x, x ∈ l → 0 ≤ f x) → sum (f <$> filter P l) ≤ sum (f <$> l).
Proof.
  induction l as [|x l IH]; intros Hl; [done|].
  pose proof (Hl x (list_elem_of_here _ _)).
  specialize (IH (λ u Hu, Hl u (list_elem_of_further _ _ _ Hu))).
  rewrite filter_cons. case_decide; csimpl; lia.
Qed.

Lemma sum_filter_eq {A} (f : A → Z) (P : A → Prop) `{∀ x, Decision (P x)} (l : list A) :
  (∀ x, x ∈ l → ¬ P x → f x = 0) → sum (f <$> filter P l) = sum (f <$> l).
Proof.
  induction l as [|x l IH]; intros Hl; [done|].
  specialize (IH (λ u Hu, Hl u (list_elem_of_further _ _ _ Hu))).
  rewrite filter_cons. case_decide as HP; csimpl; [lia|].
  rewrite (Hl x) by (done || left). lia.
Qed.

Lemma objective_value_expected demands ml cap mx a :
  objective_value (expected_model demands ml cap mx) a =
  sum ((λ k, a (x_var k)) <$> seq 0 (Z.to_nat ml)).
Proof.
  unfold objective_value. simpl.
  by rewrite <-sum_fmap_values, <-list_fmap_compose.
Qed.

(** The pages of the used layouts are at most the objective, and all of
    it when no unused layout is printed. *)
Lemma pages_of_objective demands ml cap mx a :
  feasible demands ml cap mx a →
  0 ≤ pages_of a (used_of (Z.to_nat ml) a) ≤
    objective_value (expected_model demands ml cap mx) a.
Proof.
  intros Ha. rewrite objective_value_expected. unfold pages_of, used_of.
  assert (Hx : ∀ k, k ∈ seq 0 (Z.to_nat ml) → 0 ≤ a (x_var k)).
  { intros k Hk%elem_of_seq. apply (x_domain _ _ _ _ _ Ha). lia. }
  split.
  - apply sum_nonneg. intros c (k & -> & [_ Hk]%list_elem_of_filter)%list_elem_of_fmap.
    by apply Hx.
  - by apply (sum_filter_le (λ k, a (x_var k))).
Qed.

Lemma pages_of_optimal demands ml cap mx a :
  optimal (expected_model demands ml cap mx) a →
  pages_of a (used_of (Z.to_nat ml) a) =
    objective_value (expected_model demands ml cap mx) a.
Proof.
  intros Hopt. pose proof Hopt as [Ha%satisfies_expected _].
  rewrite objective_value_expected. unfold pages_of, used_of.
  apply (sum_filter_eq (λ k, a (x_var k))).
  intros k Hk%elem_of_seq Hz.
  apply (optimal_idle_count _ _ _ _ _ _ Hopt); [lia|].
  destruct (z_is_flag _ _ _ _ _ Ha k); [lia|done|done].
Qed.

Section pages.
Context {Name : Type} `{Countable Name}.
Implicit Types stickers : list (Name * Z).

(** X3. In every report of a solution [total_pages] is the sum of the
    values of [layout_prints]; it is not negative and at most the
    objective of the model, the sum of all [x[k]], and it is equal to the
    objective when the status is [OPTIMAL]. *)
Theorem total_pages_is_sum_of_prints (solver : CpSolver) stickers max_layouts
    layout_capacity max_x_bound t h m :
  build_model stickers max_layouts layout_capacity max_x_bound new_model = Some (h, m) →
  solver_contract m (solver m t) →
  ∃ r,
    solve_stickers_layout solver stickers max_layouts layout_capacity
      max_x_bound t = Some r ∧
    (reports_solution r →
     ∃ pages prints,
       r !! "total_pages" = Some (PyInt pages) ∧
       r !! "layout_prints" = Some (PyPrints prints) ∧
       pages = dict_sum prints ∧
       0 ≤ pages ≤ objective_value m (solver m t).2 ∧
       ((solver m t).1 = OPTIMAL → pages = objective_value m (solver m t).2)).
Proof.
  intros Hb Hc. pose proof Hb as [-> Hh]%build_model_inv.
  destruct (solved solver _ _ _ _ t _ _ Hb Hc) as (r & Hr & _ & Hsol).
  exists r. split; [done|]. intros (Hfound & Ha & ->)%Hsol.
  set (a := (solver _ t).2) in *. set (n := Z.to_nat max_layouts) in *.
  eexists _, _. split_and!; [done|done| | | |].
  - unfold prints_of, pages_of.
    rewrite (dict_sum_foldl_insert (λ k, a (x_var k))).
    + by rewrite dict_sum_empty.
    + apply NoDup_filter, NoDup_seq.
    + intros. apply lookup_empty.
  - apply (pages_of_objective _ _ _ _ _ Ha).
  - apply (pages_of_objective _ _ _ _ _ Ha).
  - intros Hopt. unfold solver_contract in Hc. rewrite Hopt in Hc.
    by apply pages_of_optimal.
Qed.

(** X4. The [total_pages] of a report of status [OPTIMAL] is the least
    value that the sum of the [x[k]] takes over the assignments that
    satisfy the model. *)
Theorem optimal_total_pages_is_least (solver : CpSolver) stickers max_layouts
    layout_capacity max_x_bound t h m :
  build_model stickers max_layouts layout_capacity max_x_bound new_model = Some (h, m) →
  solver_contract m (solver m t) →
  (solver m t).1 = OPTIMAL →
  ∃ r pages,
    solve_stickers_layout solver stickers max_layouts layout_capacity
      max_x_bound t = Some r ∧
    r !! "total_pages" = Some (PyInt pages) ∧
    (∃ xs, mapM (λ k, vars_x h !! k) (range max_layouts) = Some xs ∧
           pages = sum_values (solver m t).2 xs) ∧
    ∀ a', satisfies m a' →
      ∃ xs, mapM (λ k, vars_x h !! k) (range max_layouts) = Some xs ∧
            pages ≤ sum_values a' xs.
Proof.
  intros Hb Hc Hopt. pose proof Hb as [-> Hh]%build_model_inv.
  rewrite solve_stickers_layout_run. cbv zeta. rewrite Hopt. simpl.
  unfold solver_contract in Hc. rewrite Hopt in Hc.
  set (a := (solver _ t).2) in *.
  assert (Hxs : mapM (λ k, vars_x h !! k) (range max_layouts) = Some (x_var <$> seq 0 (Z.to_nat max_layouts))).
  { apply mapM_Some_fmap. intros k Hk%elem_of_range.
    by apply (handles_x _ _ _ _ _ Hh). }
  eexists _, _. split_and!; [done|done| |].
  - exists (x_var <$> seq 0 (Z.to_nat max_layouts)). split; [done|].
    by rewrite (pages_of_optimal _ _ _ _ _ Hc).
  - intros a' Ha'. exists (x_var <$> seq 0 (Z.to_nat max_layouts)). split; [done|].
    rewrite (pages_of_optimal _ _ _ _ _ Hc). by apply Hc.
Qed.

(** X5. Two answers of status [OPTIMAL] for the same input give the same
    [total_pages], whatever layouts each of them uses. *)
Theorem optimal_total_pages_agree (solver1 solver2 : CpSolver) stickers max_layouts
    layout_capacity max_x_bound t1 t2 h m :
  build_model stickers max_layouts layout_capacity max_x_bound new_model = Some (h, m) →
  solver_contract m (solver1 m t1) → (solver1 m t1).1 = OPTIMAL →
  solver_contract m (solver2 m t2) → (solver2 m t2).1 = OPTIMAL →
  ∃ r1 r2 pages,
    solve_stickers_layout solver1 stickers max_layouts layout_capacity
      max_x_bound t1 = Some r1 ∧
    solve_stickers_layout solver2 stickers max_layouts layout_capacity
      max_x_bound t2 = Some r2 ∧
    r1 !! "total_pages" = Some (PyInt pages) ∧
    r2 !! "total_pages" = Some (PyInt pages).
Proof.
  intros Hb Hc1 Hopt1 Hc2 Hopt2. pose proof Hb as [-> Hh]%build_model_inv.
  rewrite !solve_stickers_layout_run. cbv zeta. rewrite Hopt1, Hopt2. simpl.
  unfold solver_contract in Hc1, Hc2. rewrite Hopt1 in Hc1. rewrite Hopt2 in Hc2.
  eexists _, _, _. split_and!; [done|done|done|].
  rewrite !solution_report_pages. do 2 f_equal.
  rewrite (pages_of_optimal _ _ _ _ _ Hc1), (pages_of_optimal _ _ _ _ _ Hc2).
  destruct Hc1 as [Ha1 Hmin1], Hc2 as [Ha2 Hmin2].
  specialize (Hmin1 _ Ha2). specialize (Hmin2 _ Ha1). lia.
Qed.
End pages.

(** * The contents of a layout *)

Section contents.
Context {Name : Type} `{Countable Name}.
Implicit Types stickers : list (Name * Z).

(** X6. In every report of a solution the contents listed for a layout
    hold a name exactly when some sticker of that name has a positive
    density in the layout, and every density listed is at least 1 and at
    most [layout_capacity]: a density of 0 is never listed. *)
Theorem reported_densities (solver : CpSolver) stickers max_layouts
    layout_capacity max_x_bound t h m :
  build_model stickers max_layouts layout_capacity max_x_bound new_model = Some (h, m) →
  solver_contract m (solver m t) →
  ∃ r,
    solve_stickers_layout solver stickers max_layouts layout_capacity
      max_x_bound t = Some r ∧
    (reports_solution r →
     ∃ dists,
       r !! "layout_distributions" = Some (PyDistributions dists) ∧
       ∀ k single, dists !! k = Some single →
         (∀ nm v, single !! nm = Some v → 1 ≤ v ≤ layout_capacity) ∧
         (∀ nm, is_Some (single !! nm) ↔
                ∃ i yki, stickers.*1 !! i = Some nm ∧
                         vars_y h !! (k, i) = Some yki ∧
                         0 < (solver m t).2 yki)).
Proof.
  intros Hb Hc. pose proof Hb as [-> Hh]%build_model_inv.
  destruct (solved solver _ _ _ _ t _ _ Hb Hc) as (r & Hr & _ & Hsol).
  exists r. split; [done|]. intros (Hfound & Ha & ->)%Hsol.
  set (a := (solver _ t).2) in *. set (n := Z.to_nat max_layouts) in *.
  eexists. split; [done|]. intros k single. rewrite distributions_of_lookup.
  case_decide as Hk; [|done]. intros [= <-].
  apply elem_of_used_of in Hk as [Hk Hz]. split.
  - intros nm v (i & Hi & (Hnm & -> & Hpos)%single_entry_Some & _)%written_lookup_Some.
    pose proof (y_domain _ _ _ _ _ Ha k i Hk) as Hdom.
    rewrite length_fmap in Hdom. specialize (Hdom Hi). fold n in Hdom. lia.
  - intros nm. split.
    + intros [v (i & Hi & (Hnm & -> & Hpos)%single_entry_Some & _)%written_lookup_Some].
      exists i, (y_var n (length stickers) k i). split_and!; [done| |done].
      by apply (handles_y _ _ _ _ _ _ Hh).
    + intros (i & yki & Hnm & (_ & Hi & ->)%(handles_y _ _ _ _ _ _ Hh) & Hpos).
      apply (written_is_Some _ _ i nm (a (y_var n (length stickers) k i))); [done|].
      by apply single_entry_Some.
Qed.
End contents.

(** * Sums over the layouts and over the stickers *)

Lemma sum_fmap_le {A} (f g : A → Z) (l : list A) :
  (∀ x, x ∈ l → f x ≤ g x) → sum (f <$> l) ≤ sum (g <$> l).
Proof.
  induction l as [|x l IH]; intros Hl; csimpl; [done|].
  pose proof (Hl x (list_elem_of_here _ _)).
  specialize (IH (λ u Hu, Hl u (list_elem_of_further _ _ _ Hu))). lia.
Qed.

Lemma sum_fmap_ext {A} (f g : A → Z) (l : list A) :
  (∀ x, x ∈ l → f x = g x) → sum (f <$> l) = sum (g <$> l).
Proof.
  intros Hl. apply Z.le_antisymm; apply sum_fmap_le; intros x Hx;
    rewrite (Hl x Hx); done.
Qed.

Lemma sum_fmap_add {A} (f g : A → Z) (l : list A) :
  sum ((λ x, f x + g x) <$> l) = sum (f <$> l) + sum (g <$> l).
Proof. induction l as [|x l IH]; csimpl; lia. Qed.

Lemma sum_fmap_const {A} (c : Z) (l : list A) :
  sum ((λ _, c) <$> l) = Z.of_nat (length l) * c.
Proof. induction l as [|x l IH]; csimpl; lia. Qed.

Lemma sum_fmap_scale {A} (c : Z) (g : A → Z) (l : list A) :
  sum ((λ x, c * g x) <$> l) = c * sum (g <$> l).
Proof. induction l as [|x l IH]; csimpl; lia. Qed.

Lemma sum_fmap_exchange {A B} (F : A → B → Z) (la : list A) (lb : list B) :
  sum ((λ b, sum ((λ a, F a b) <$> la)) <$> lb) =
  sum ((λ a, sum ((λ b, F a b) <$> lb)) <$> la).
Proof.
  induction lb as [|b lb IH]; csimpl.
  - rewrite (sum_fmap_const 0). lia.
  - rewrite IH, <-sum_fmap_add. done.
Qed.

Lemma sum_filter_if {A} (f : A → Z) (P : A → Prop) `{∀ x, Decision (P x)} (l : list A) :
  sum (f <$> filter P l) = sum ((λ x, if decide (P x) then f x else 0) <$> l).
Proof.
  induction l as [|x l IH]; [done|].
  rewrite filter_cons. csimpl. case_decide; csimpl; lia.
Qed.

(** A list whose entries are bounded one by one, by position. *)
Lemma sum_le_indexed (l : list Z) :
  ∀ g : nat → Z, (∀ i d, l !! i = Some d → d ≤ g i) →
  sum l ≤ sum (g <$> seq 0 (length l)).
Proof.
  induction l as [|d l IH]; intros g Hg; [done|].
  cbn [length seq]. csimpl. rewrite <-fmap_S_seq, <-list_fmap_compose.
  pose proof (Hg 0%nat d eq_refl).
  specialize (IH (g ∘ S) (λ i d' Hi, Hg (S i) d' Hi)). lia.
Qed.

Lemma sum_values_fmap (a : Assignment) {A} (f : A → IntVar) (l : list A) :
  sum_values a (f <$> l) = sum ((λ x, a (f x)) <$> l).
Proof. by rewrite <-sum_fmap_values, <-list_fmap_compose. Qed.

(** * Pages against demands *)

Section bounds.
Variables (demands : list Z) (ml cap mx : Z) (a : Assignment).
Hypothesis Ha : feasible demands ml cap mx a.
Local Abbreviation n := (Z.to_nat ml).
Local Abbreviation N := (length demands).

(** What layout [k] delivers over all stickers is at most its capacity
    times its count, and nothing when it is unused. *)
Lemma layout_output_bound k :
  (k < n)%nat →
  a (x_var k) * sum ((λ i, a (y_var n N k i)) <$> seq 0 N) ≤
  cap * (if decide (a (z_var n k) = 1) then a (x_var k) else 0).
Proof.
  intros Hk. pose proof (x_domain _ _ _ _ _ Ha k Hk) as Hx.
  rewrite <-sum_values_fmap. case_decide as Hz.
  - pose proof (used_row_capacity _ _ _ _ _ Ha k Hk Hz).
    assert (0 ≤ sum_values a (y_var n N k <$> seq 0 N)).
    { apply sum_values_nonneg. intros v. by apply (row_nonneg _ _ _ _ _ Ha). }
    nia.
  - destruct (z_is_flag _ _ _ _ _ Ha k Hk) as [Hz0|]; [|done].
    rewrite (capacity_unused _ _ _ _ _ Ha k Hk Hz0). lia.
Qed.

Lemma demands_le_outputs :
  sum demands ≤
  sum ((λ k, a (x_var k) * sum ((λ i, a (y_var n N k i)) <$> seq 0 N)) <$> seq 0 n).
Proof.
  etrans.
  { apply (sum_le_indexed demands
             (λ i, sum ((λ k, a (x_var k) * a (y_var n N k i)) <$> seq 0 n))).
    intros i d Hd. pose proof (demand_covered _ _ _ _ _ Ha i d Hd) as Hcov.
    rewrite sum_values_fmap in Hcov. etrans; [exact Hcov|].
    apply Z.eq_le_incl, sum_fmap_ext. intros k Hk%elem_of_seq.
    apply (w_link _ _ _ _ _ Ha); [lia|]. by eapply lookup_lt_Some. }
  rewrite (sum_fmap_exchange (λ k i, a (x_var k) * a (y_var n N k i))).
  apply Z.eq_le_incl, sum_fmap_ext. intros k _.
  apply (sum_fmap_scale (a (x_var k)) (λ i, a (y_var n N k i))).
Qed.

(** The demands, taken together, fit on the pages of the used layouts. *)
Lemma demands_le_capacity_pages :
  sum demands ≤ cap * pages_of a (used_of n a).
Proof.
  etrans; [apply demands_le_outputs|].
  unfold pages_of, used_of.
  rewrite (sum_filter_if (λ k, a (x_var k))), <-sum_fmap_scale.
  apply sum_fmap_le. intros k Hk%elem_of_seq. apply layout_output_bound. lia.
Qed.

(** The slots of the layouts, taken together, hold every sticker once. *)
Lemma stickers_le_slots : Z.of_nat N ≤ Z.of_nat n * Z.max 0 cap.
Proof.
  assert (Hone : Z.of_nat N ≤
            sum ((λ i, sum ((λ k, a (y_var n N k i)) <$> seq 0 n)) <$> seq 0 N)).
  { assert (Z.of_nat N = sum ((λ _, 1) <$> seq 0 N)) as ->
      by (rewrite sum_fmap_const, length_seq; lia).
    apply sum_fmap_le.
    intros i Hi%elem_of_seq. rewrite <-sum_values_fmap.
    apply (presence _ _ _ _ _ Ha). lia. }
  etrans; [exact Hone|].
  rewrite (sum_fmap_exchange (λ k i, a (y_var n N k i))).
  assert (Z.of_nat n * Z.max 0 cap = sum ((λ _, Z.max 0 cap) <$> seq 0 n)) as ->
    by (rewrite sum_fmap_const, length_seq; lia).
  apply sum_fmap_le. intros k Hk%elem_of_seq. rewrite <-sum_values_fmap.
  destruct (z_is_flag _ _ _ _ _ Ha k ltac:(lia)) as [Hz|Hz].
  - rewrite (capacity_unused _ _ _ _ _ Ha k ltac:(lia) Hz). lia.
  - pose proof (used_row_capacity _ _ _ _ _ Ha k ltac:(lia) Hz). lia.
Qed.

(** No sticker is delivered more often than the bounds allow. *)
Lemma output_le_bounds i :
  (i < N)%nat →
  sum_values a ((λ k, w_var n N k i) <$> seq 0 n) ≤ Z.of_nat n * (mx * cap).
Proof.
  intros Hi. rewrite sum_values_fmap.
  assert (Z.of_nat n * (mx * cap) = sum ((λ _, mx * cap) <$> seq 0 n)) as ->
    by (rewrite sum_fmap_const, length_seq; lia).
  apply sum_fmap_le. intros k Hk%elem_of_seq.
  apply (w_domain _ _ _ _ _ Ha); [lia|done].
Qed.
End bounds.

Section limits.
Context {Name : Type} `{Countable Name}.
Implicit Types stickers : list (Name * Z).

(** When no assignment satisfies the model, a solver that keeps its
    contract leads to the report of no solution. *)
Lemma no_assignment_no_solution (solver : CpSolver) stickers ml cap mx t h m :
  build_model stickers ml cap mx new_model = Some (h, m) →
  (∀ a, ¬ satisfies m a) →
  solver_contract m (solver m t) →
  ∃ r,
    solve_stickers_layout solver stickers ml cap mx t = Some r ∧
    ¬ reports_solution r ∧
    dom r = {["status"; "message"]}.
Proof.
  intros Hb Hunsat Hc. pose proof Hb as [-> Hh]%build_model_inv.
  rewrite solve_stickers_layout_run. cbv zeta.
  destruct (found _) eqn:Hfound.
  { destruct (Hunsat _ (contract_satisfies _ _ Hc Hfound)). }
  eexists. split; [done|]. split; [|done].
  intros Hr. eapply reports_solution_found in Hr; [|done]. congruence.
Qed.

(** X7. In every report of a solution the pages of the used layouts have
    room for all the demands together: the sum of the demands is at most
    [layout_capacity * total_pages]. *)
Theorem pages_cover_total_demand (solver : CpSolver) stickers max_layouts
    layout_capacity max_x_bound t h m :
  build_model stickers max_layouts layout_capacity max_x_bound new_model = Some (h, m) →
  solver_contract m (solver m t) →
  ∃ r,
    solve_stickers_layout solver stickers max_layouts layout_capacity
      max_x_bound t = Some r ∧
    (reports_solution r →
     ∃ pages,
       r !! "total_pages" = Some (PyInt pages) ∧
       sum (stickers.*2) ≤ layout_capacity * pages).
Proof.
  intros Hb Hc.
  destruct (solved solver _ _ _ _ t _ _ Hb Hc) as (r & Hr & _ & Hsol).
  exists r. split; [done|]. intros (Hfound & Ha & ->)%Hsol.
  eexists. split; [done|]. by apply (demands_le_capacity_pages _ _ _ _ _ Ha).
Qed.


(** X9. With more stickers than the layouts have slots, that is with
    [len(stickers) > max_layouts * layout_capacity], the model has no
    satisfying assignment, since every sticker takes a slot of its own;
    a solver that keeps its contract then leads to the result of status
    and message. *)
Theorem too_many_stickers_no_solution stickers max_layouts layout_capacity
    max_x_bound h m :
  build_model stickers max_layouts layout_capacity max_x_bound new_model = Some (h, m) →
  Z.max 0 max_layouts * Z.max 0 layout_capacity < len stickers →
  (∀ a, ¬ satisfies m a) ∧
  ∀ (solver : CpSolver) t, solver_contract m (solver m t) →
    ∃ r,
      solve_stickers_layout solver stickers max_layouts layout_capacity
        max_x_bound t = Some r ∧
      ¬ reports_solution r ∧
      dom r = {["status"; "message"]}.
Proof.
  intros Hb Hmany.
  assert (Hunsat : ∀ a, ¬ satisfies m a).
  { pose proof Hb as [-> _]%build_model_inv. intros a Ha%satisfies_expected.
    pose proof (stickers_le_slots _ _ _ _ _ Ha) as Hslots.
    rewrite length_fmap in Hslots. unfold len in Hmany. lia. }
  split; [done|]. intros solver t Hc.
  by apply (no_assignment_no_solution solver _ _ _ _ t _ _ Hb).
Qed.

End limits.

(** * Demands that ask for nothing *)

Section no_demand.
Variables (demands : list Z) (ml cap mx : Z) (a : Assignment).
Hypothesis Ha : feasible demands ml cap mx a.
Hypothesis Hnone : ∀ d, d ∈ demands → d ≤ 0.
Local Abbreviation n := (Z.to_nat ml).
Local Abbreviation N := (length demands).

Lemma clear_counts_x k : (k < n)%nat → clear_counts n N a (x_var k) = 0.
Proof. intros. unfold clear_counts, x_var. by rewrite decide_True by lia. Qed.

Lemma clear_counts_w k i : clear_counts n N a (w_var n N k i) = 0.
Proof. unfold clear_counts, w_var. by rewrite decide_True by lia. Qed.

Lemma clear_counts_z k : (k < n)%nat → clear_counts n N a (z_var n k) = a (z_var n k).
Proof. intros. unfold clear_counts, z_var. by rewrite decide_False by lia. Qed.

Lemma clear_counts_y k i :
  (k < n)%nat → (i < N)%nat → clear_counts n N a (y_var n N k i) = a (y_var n N k i).
Proof.
  intros Hk Hi. pose proof (grid_lt N n k i Hk Hi).
  unfold clear_counts, y_var. by rewrite decide_False by lia.
Qed.

(** With no positive demand, printing nothing keeps the assignment within
    the model. *)
Lemma clear_counts_feasible : feasible demands ml cap mx (clear_counts n N a).
Proof.
  assert (Hrow : ∀ k, (k < n)%nat →
            sum_values (clear_counts n N a) (y_var n N k <$> seq 0 N) =
            sum_values a (y_var n N k <$> seq 0 N)).
  { intros k Hk. apply sum_values_ext.
    intros v (i & -> & Hi%elem_of_seq)%list_elem_of_fmap.
    apply clear_counts_y; [done|lia]. }
  assert (Hcol : ∀ i, (i < N)%nat →
            sum_values (clear_counts n N a) ((λ k, y_var n N k i) <$> seq 0 n) =
            sum_values a ((λ k, y_var n N k i) <$> seq 0 n)).
  { intros i Hi. apply sum_values_ext.
    intros v (k & -> & Hk%elem_of_seq)%list_elem_of_fmap.
    apply clear_counts_y; [lia|done]. }
  destruct Ha as [Hxd Hzd Hyd Hwd Hlink Hcapu Hcapn Hdem Hcard Hpres].
  split.
  - intros k Hk. rewrite clear_counts_x by done. specialize (Hxd k Hk). lia.
  - intros k Hk. rewrite clear_counts_z by done. by apply Hzd.
  - intros k i Hk Hi. rewrite clear_counts_y by done. by apply Hyd.
  - intros k i Hk Hi. rewrite clear_counts_w. specialize (Hwd k i Hk Hi). lia.
  - intros k i Hk Hi. rewrite clear_counts_w, clear_counts_x by done. lia.
  - intros k Hk. rewrite clear_counts_z, Hrow by done. by apply Hcapu.
  - intros k Hk. rewrite clear_counts_z, Hrow by done. by apply Hcapn.
  - intros i d Hd. etrans; [apply Hnone; by eapply list_elem_of_lookup_2|].
    apply sum_values_nonneg. intros v (k & -> & _)%list_elem_of_fmap.
    by rewrite clear_counts_w.
  - rewrite (sum_values_ext _ a); [done|].
    intros v (k & -> & Hk%elem_of_seq)%list_elem_of_fmap.
    apply clear_counts_z. lia.
  - intros i Hi. rewrite Hcol by done. by apply Hpres.
Qed.

Lemma clear_counts_objective :
  objective_value (expected_model demands ml cap mx) (clear_counts n N a) = 0.
Proof.
  rewrite objective_value_expected. apply sum_zeros.
  intros c (k & -> & Hk%elem_of_seq)%list_elem_of_fmap. apply clear_counts_x. lia.
Qed.
End no_demand.

(** With no positive demand an optimal assignment prints nothing. *)
Lemma no_demand_optimal_counts demands ml cap mx a k :
  (∀ d, d ∈ demands → d ≤ 0) →
  optimal (expected_model demands ml cap mx) a →
  (k < Z.to_nat ml)%nat → a (x_var k) = 0.
Proof.
  intros Hnone [Ha%satisfies_expected Hmin] Hk.
  pose proof (clear_counts_feasible _ _ _ _ _ Ha Hnone) as Ha'%satisfies_expected.
  specialize (Hmin _ Ha'). rewrite clear_counts_objective in Hmin.
  unfold objective_value in Hmin. simpl in Hmin.
  apply (sum_values_zero a (x_var <$> seq 0 (Z.to_nat ml))).
  - intros v (k' & -> & Hk'%elem_of_seq)%list_elem_of_fmap.
    apply (x_domain _ _ _ _ _ Ha). lia.
  - pose proof (objective_nonneg _ _ _ _ _ Ha) as Hge.
    unfold objective_value in Hge. simpl in Hge. lia.
  - apply list_elem_of_fmap. exists k. split; [done|]. apply elem_of_seq. lia.
Qed.

Section zero_demand.
Context {Name : Type} `{Countable Name}.
Implicit Types stickers : list (Name * Z).

(** X11. When no demand is positive, a report of status [OPTIMAL] prints
    nothing: every [x[k]] is 0, every value of [layout_prints] is 0 and
    [total_pages] is 0.  The stickers still take their slots: with at
    least one sticker [used_layouts] is not empty. *)
Theorem no_demand_prints_nothing (solver : CpSolver) stickers max_layouts
    layout_capacity max_x_bound t h m :
  build_model stickers max_layouts layout_capacity max_x_bound new_model = Some (h, m) →
  (∀ i nm d, stickers !! i = Some (nm, d) → d ≤ 0) →
  solver_contract m (solver m t) →
  (solver m t).1 = OPTIMAL →
  ∃ r used prints,
    solve_stickers_layout solver stickers max_layouts layout_capacity
      max_x_bound t = Some r ∧
    r !! "total_pages" = Some (PyInt 0) ∧
    r !! "layout_prints" = Some (PyPrints prints) ∧
    r !! "used_layouts" = Some (PyList used) ∧
    (∀ k v, prints !! k = Some v → v = 0) ∧
    (∀ k xk, vars_x h !! k = Some xk → (solver m t).2 xk = 0) ∧
    (stickers ≠ [] → used ≠ []).
Proof.
  intros Hb Hnone Hc Hopt. pose proof Hb as [-> Hh]%build_model_inv.
  rewrite solve_stickers_layout_run. cbv zeta. rewrite Hopt. simpl.
  unfold solver_contract in Hc. rewrite Hopt in Hc.
  set (a := (solver _ t).2) in *.
  assert (Hdemands : ∀ d, d ∈ stickers.*2 → d ≤ 0).
  { intros d ([nm d'] & -> & (i & Hi)%list_elem_of_lookup_1)%list_elem_of_fmap.
    by apply (Hnone i nm d'). }
  assert (Hx : ∀ k, (k < Z.to_nat max_layouts)%nat → a (x_var k) = 0).
  { intros k Hk. by apply (no_demand_optimal_counts _ _ _ _ _ _ Hdemands Hc). }
  eexists _, _, _. split_and!; [done| |done|done| | |].
  - rewrite solution_report_pages. do 2 f_equal. unfold pages_of.
    apply sum_zeros. intros c (k & -> & [Hk _]%elem_of_used_of)%list_elem_of_fmap.
    by apply Hx.
  - intros k v. rewrite prints_of_lookup. case_decide as Hk; [|done].
    intros [= <-]. apply Hx. by apply elem_of_used_of in Hk as [? _].
  - intros k xk [Hk ->]%(handles_x _ _ _ _ _ Hh). by apply Hx.
  - intros Hne Hused. destruct Hc as [Ha%satisfies_expected _].
    destruct (present_in_used _ _ _ _ _ Ha 0%nat) as (k & Hk & _ & Hz).
    { rewrite length_fmap. destruct stickers; [done|simpl; lia]. }
    assert (Hin : k ∈ used_of (Z.to_nat max_layouts) a) by by apply elem_of_used_of.
    rewrite Hused in Hin. by apply elem_of_nil in Hin.
Qed.
End zero_demand.

(** * The shape of the built model *)

Lemma expected_variables_x n N cap mx k :
  (k < n)%nat →
  expected_variables n N cap mx !! x_var k = Some (mkvar 0 mx (x_name k)).
Proof.
  intros Hk. unfold expected_variables, x_var.
  rewrite lookup_app_l by (rewrite length_fmap, length_seq; lia).
  by rewrite list_lookup_fmap, lookup_seq_lt.
Qed.

Lemma expected_variables_z n N cap mx k :
  (k < n)%nat →
  expected_variables n N cap mx !! z_var n k = Some (mkvar 0 1 (z_name k)).
Proof.
  intros Hk. unfold expected_variables, z_var.
  rewrite lookup_app_r; rewrite !length_fmap, !length_seq; [|lia].
  rewrite lookup_app_l by (rewrite length_fmap, length_seq; lia).
  replace (n + k - n)%nat with k by lia.
  by rewrite list_lookup_fmap, lookup_seq_lt.
Qed.

Lemma expected_variables_y n N cap mx k i :
  (k < n)%nat → (i < N)%nat →
  expected_variables n N cap mx !! y_var n N k i = Some (mkvar 0 cap (y_name k i)).
Proof.
  intros Hk Hi. unfold expected_variables, y_var.
  pose proof (grid_lt N n k i Hk Hi).
  rewrite lookup_app_r; rewrite !length_fmap, !length_seq; [|lia].
  rewrite lookup_app_r; rewrite !length_fmap, !length_seq; [|lia].
  rewrite lookup_app_l.
  - replace (n + n + k * N + i - n - n)%nat with (k * N + i)%nat by lia.
    by rewrite (lookup_grid (λ k i, mkvar 0 cap (y_name k i))).
  - rewrite (length_bind_const _ N), length_seq
      by (intros; by rewrite length_fmap, length_seq). lia.
Qed.



(** The flags alone keep constraint 4. *)
Lemma flags_within_layouts n N cap mx a :
  in_domains a 0%nat (expected_variables n N cap mx) →
  sum_values a (z_var n <$> seq 0 n) ≤ Z.of_nat n.
Proof.
  unfold expected_variables. rewrite !in_domains_app, !in_domains_row.
  rewrite !length_fmap, !length_seq. intros (_ & Hz & _).
  rewrite sum_values_fmap.
  assert (Z.of_nat n = sum ((λ _, 1) <$> seq 0 n)) as ->
    by (rewrite sum_fmap_const, length_seq; lia).
  apply sum_fmap_le. intros k Hk%elem_of_seq.
  specialize (Hz k ltac:(lia)). unfold z_var. simpl in Hz. lia.
Qed.

Section written_keys.
Context {K V : Type} `{Countable K}.
Variable entry : nat → option (K * V).

Lemma written_is_Some_iff N key :
  is_Some (written entry N !! key) ↔ ∃ i v, (i < N)%nat ∧ entry i = Some (key, v).
Proof.
  split.
  - intros [v (i & Hi & Hentry & _)%written_lookup_Some]. by exists i, v.
  - intros (i & v & Hi & Hentry). by eapply written_is_Some.
Qed.
End written_keys.

Section shape.
Context {Name : Type} `{Countable Name}.
Implicit Types stickers : list (Name * Z).

(** X12. Constraint 4, [sum(z) <= max_layouts], is in the model as an
    unconditional constraint, and when [max_layouts] is not negative it
    excludes nothing: every assignment that keeps the domains of the
    variables satisfies it. *)
Theorem cardinality_excludes_nothing stickers max_layouts layout_capacity
    max_x_bound h m :
  build_model stickers max_layouts layout_capacity max_x_bound new_model = Some (h, m) →
  0 ≤ max_layouts →
  ∃ zs,
    mapM (λ k, vars_z h !! k) (range max_layouts) = Some zs ∧
    {| enforcement_literal := [];
       body := Linear {| ble_terms := zs; ble_rel := LE; ble_bound := max_layouts |} |}
      ∈ constraints m ∧
    ∀ a, in_domains a 0%nat (variables m) → sum_values a zs ≤ max_layouts.
Proof.
  intros [-> Hh]%build_model_inv Hml.
  exists (z_var (Z.to_nat max_layouts) <$> seq 0 (Z.to_nat max_layouts)). split_and!.
  - apply mapM_Some_fmap. intros k Hk%elem_of_range.
    by apply (handles_z _ _ _ _ _ Hh).
  - cbn [expected_model constraints]. unfold expected_constraints.
    rewrite !elem_of_app. right. right. right. left. apply list_elem_of_here.
  - intros a Hdom%flags_within_layouts. lia.
Qed.

(** X13. In every report of a solution the keys of [demand_checks] are
    exactly the names of the stickers.  When the names are distinct there
    is one entry per sticker, and the entry of sticker [i] holds the sum
    of its [w[k, i]], its own demand and their comparison. *)
Theorem demand_checks_keys (solver : CpSolver) stickers max_layouts
    layout_capacity max_x_bound t h m :
  build_model stickers max_layouts layout_capacity max_x_bound new_model = Some (h, m) →
  ∃ r,
    solve_stickers_layout solver stickers max_layouts layout_capacity
      max_x_bound t = Some r ∧
    (reports_solution r →
     ∃ checks,
       r !! "demand_checks" = Some (PyChecks checks) ∧
       dom checks = list_to_set (stickers.*1) ∧
       (NoDup (stickers.*1) →
        size checks = length stickers ∧
        ∀ i nm d, stickers !! i = Some (nm, d) →
          ∃ ws,
            mapM (λ k, vars_w h !! (k, i)) (range max_layouts) = Some ws ∧
            checks !! nm =
              Some {| printed := sum_values (solver m t).2 ws;
                      required := d;
                      met := bool_decide (sum_values (solver m t).2 ws >= d) |})).
Proof.
  intros Hb. destruct (returned solver _ _ _ _ t _ _ Hb) as (-> & Hh & r & Hr & Hsol).
  exists r. split; [done|]. intros [Hfound ->]%Hsol.
  set (a := (solver _ t).2). set (n := Z.to_nat max_layouts) in *.
  assert (Hdom : dom (checks_of n (length stickers) a stickers) =@{gset Name}
                 list_to_set (stickers.*1)).
  { apply set_eq. intros nm.
    rewrite elem_of_dom, elem_of_list_to_set. unfold checks_of.
    rewrite written_is_Some_iff. split.
    - intros (i & e & Hi & (d & Hs & _)%checks_entry_Some).
      apply list_elem_of_fmap. exists (nm, d). split; [done|].
      by eapply list_elem_of_lookup_2.
    - intros ([nm' d] & -> & (i & Hi)%list_elem_of_lookup_1)%list_elem_of_fmap.
      exists i, (check_of n (length stickers) a i d). split.
      + by eapply lookup_lt_Some.
      + apply checks_entry_Some. by exists d. }
  eexists. split_and!; [done|exact Hdom|]. intros Hnd. split.
  - rewrite <-size_dom, Hdom, size_list_to_set by done. by rewrite length_fmap.
  - intros i nm d Hi.
    destruct (checks_of_lookup n a stickers i nm d Hi)
      as (j & dj & Hij & Hj & Hlast & Hlook).
    assert (j = i) as ->.
    { apply (NoDup_lookup (stickers.*1) j i nm Hnd);
        rewrite list_lookup_fmap; [by rewrite Hj|by rewrite Hi]. }
    rewrite Hi in Hj. injection Hj as <-.
    exists ((λ k, w_var n (length stickers) k i) <$> seq 0 n). split; [|done].
    apply handles_w_column; [done|]. by eapply lookup_lt_Some.
Qed.

(** X14. The handles that the builder keeps are those of the loops and
    nothing else: [x] and [z] have one entry per layout, [y] and [w] have
    a key [(k, i)] exactly for the layouts [k] and the stickers [i], and
    each handle is the index of a variable of the model with the domain
    and the name given when it was created. *)
Theorem handles_denote_variables stickers max_layouts layout_capacity
    max_x_bound h m :
  build_model stickers max_layouts layout_capacity max_x_bound new_model = Some (h, m) →
  length (vars_x h) = Z.to_nat max_layouts ∧
  length (vars_z h) = Z.to_nat max_layouts ∧
  (∀ k i, is_Some (vars_y h !! (k, i)) ↔ k ∈ range max_layouts ∧ i ∈ range (len stickers)) ∧
  (∀ k i, is_Some (vars_w h !! (k, i)) ↔ k ∈ range max_layouts ∧ i ∈ range (len stickers)) ∧
  (∀ k v, vars_x h !! k = Some v →
     variables m !! v =
       Some {| var_lb := 0; var_ub := max_x_bound; var_name := x_name k |}) ∧
  (∀ k v, vars_z h !! k = Some v →
     variables m !! v = Some {| var_lb := 0; var_ub := 1; var_name := z_name k |}) ∧
  (∀ k i v, vars_y h !! (k, i) = Some v →
     variables m !! v =
       Some {| var_lb := 0; var_ub := layout_capacity; var_name := y_name k i |}) ∧
  (∀ k i v, vars_w h !! (k, i) = Some v →
     variables m !! v =
       Some {| var_lb := 0; var_ub := max_x_bound * layout_capacity;
               var_name := w_name k i |}).
Proof.
  intros [-> Hh]%build_model_inv.
  cbn [expected_model variables]. rewrite length_fmap.
  set (n := Z.to_nat max_layouts) in *. set (N := length stickers) in *.
  split_and!.
  - destruct Hh as (-> & _). by rewrite length_fmap, length_seq.
  - destruct Hh as (_ & -> & _). by rewrite length_fmap, length_seq.
  - intros k i. rewrite elem_of_range, elem_of_range_len. split.
    + intros [v (? & ? & _)%(handles_y _ _ _ _ _ _ Hh)]. done.
    + intros [Hk Hi]. exists (y_var n N k i). by apply (handles_y _ _ _ _ _ _ Hh).
  - intros k i. rewrite elem_of_range, elem_of_range_len. split.
    + intros [v (? & ? & _)%(handles_w _ _ _ _ _ _ Hh)]. done.
    + intros [Hk Hi]. exists (w_var n N k i). by apply (handles_w _ _ _ _ _ _ Hh).
  - intros k v [Hk ->]%(handles_x _ _ _ _ _ Hh). by apply expected_variables_x.
  - intros k v [Hk ->]%(handles_z _ _ _ _ _ Hh). by apply expected_variables_z.
  - intros k i v (Hk & Hi & ->)%(handles_y _ _ _ _ _ _ Hh).
    by apply expected_variables_y.
  - intros k i v (Hk & Hi & ->)%(handles_w _ _ _ _ _ _ Hh).
    by apply expected_variables_w.
Qed.

End shape.

(** * What the flag of a layout does not say *)

Section flag.
Variables (demands : list Z) (ml cap mx : Z) (a : Assignment).
Hypothesis Ha : feasible demands ml cap mx a.
Hypothesis Hcap : 0 ≤ cap.
Local Abbreviation n := (Z.to_nat ml).
Local Abbreviation N := (length demands).
Variable k : nat.
Hypothesis Hk : (k < n)%nat.
Hypothesis Hz : a (z_var n k) = 0.

(** Raising the flag of an unused layout keeps the assignment within the
    model. *)
Lemma raised_flag_feasible : feasible demands ml cap mx (update a (z_var n k) 1).
Proof.
  assert (Hxv : ∀ k', (k' < n)%nat → x_var k' ≠ z_var n k) by (unfold z_var, x_var; lia).
  assert (Hyv : ∀ k' i', y_var n N k' i' ≠ z_var n k) by (unfold y_var, z_var; lia).
  assert (Hwv : ∀ k' i', w_var n N k' i' ≠ z_var n k) by (unfold w_var, z_var; lia).
  assert (Hrow : ∀ (f : nat → IntVar) l, (∀ j, f j ≠ z_var n k) →
            sum_values (update a (z_var n k) 1) (f <$> l) = sum_values a (f <$> l)).
  { intros f l Hf. apply sum_values_update_other.
    intros (j & Hj & _)%list_elem_of_fmap. by destruct (Hf j). }
  destruct Ha as [Hxd Hzd Hyd Hwd Hlink Hcapu Hcapn Hdem Hcard Hpres].
  assert (Hflag : ∀ k', (k' < n)%nat → 0 ≤ update a (z_var n k) 1 (z_var n k') ≤ 1).
  { intros k' Hk'. destruct (decide (k' = k)) as [->|Hne].
    - rewrite update_same. lia.
    - rewrite update_other by (unfold z_var; lia). by apply Hzd. }
  split.
  - intros k' Hk'. rewrite update_other by auto. by apply Hxd.
  - done.
  - intros k' i' ??. rewrite update_other by done. by apply Hyd.
  - intros k' i' ??. rewrite update_other by done. by apply Hwd.
  - intros k' i' Hk' Hi'. rewrite !(update_other _ _ _ (w_var _ _ _ _)) by done.
    rewrite !(update_other _ _ _ (y_var _ _ _ _)) by done.
    rewrite update_other by auto. by apply Hlink.
  - intros k' Hk'. rewrite Hrow by done. destruct (decide (k' = k)) as [->|Hne].
    + intros _. rewrite (Hcapn k Hk Hz). done.
    + rewrite update_other by (unfold z_var; lia). by apply Hcapu.
  - intros k' Hk'. rewrite Hrow by done. destruct (decide (k' = k)) as [->|Hne].
    + rewrite update_same. done.
    + rewrite update_other by (unfold z_var; lia). by apply Hcapn.
  - intros i d Hd. rewrite Hrow by done. by apply Hdem.
  - rewrite sum_values_fmap.
    assert (ml = sum ((λ _, 1) <$> seq 0 n)) as Heq
      by (rewrite sum_fmap_const, length_seq; lia).
    rewrite Heq at 2. apply sum_fmap_le. intros k' Hk'%elem_of_seq.
    apply Hflag. lia.
  - intros i Hi. rewrite Hrow by done. by apply Hpres.
Qed.

Lemma raised_flag_objective :
  objective_value (expected_model demands ml cap mx) (update a (z_var n k) 1) =
  objective_value (expected_model demands ml cap mx) a.
Proof.
  clear Ha Hcap Hk Hz.
  unfold objective_value. simpl. apply sum_values_update_other.
  intros (j & Hj & Hin%elem_of_seq)%list_elem_of_fmap.
  unfold x_var, z_var in Hj. lia.
Qed.
End flag.

Section free_flag.
Context {Name : Type} `{Countable Name}.
Implicit Types stickers : list (Name * Z).

(** X16. The flag of a layout does not say that the layout holds a
    sticker: in an assignment that satisfies the model, setting the flag
    [z[k]] of an unused layout to 1 gives an assignment that satisfies
    the model too, with the same objective and with no sticker in layout
    [k] (for a capacity that is not negative).
    So an answer, an optimal one too, may list a layout without
    contents in [used_layouts]. *)
Theorem flag_does_not_mean_content stickers max_layouts layout_capacity
    max_x_bound h m a k zk :
  build_model stickers max_layouts layout_capacity max_x_bound new_model = Some (h, m) →
  0 ≤ layout_capacity →
  satisfies m a →
  vars_z h !! k = Some zk →
  a zk = 0 →
  satisfies m (update a zk 1) ∧
  objective_value m (update a zk 1) = objective_value m a ∧
  (optimal m a → optimal m (update a zk 1)) ∧
  (∀ i yki, vars_y h !! (k, i) = Some yki → update a zk 1 yki = 0).
Proof.
  intros [-> Hh]%build_model_inv Hcap Ha%satisfies_expected
    [Hk ->]%(handles_z _ _ _ _ _ Hh) Hz.
  pose proof (raised_flag_feasible _ _ _ _ _ Ha Hcap k Hk Hz) as Hraised.
  split_and!.
  - by apply satisfies_expected.
  - apply raised_flag_objective.
  - intros [_ Hmin]. split; [by apply satisfies_expected|].
    intros a' Ha'. rewrite raised_flag_objective. by apply Hmin.
  - intros i yki (_ & Hi & ->)%(handles_y _ _ _ _ _ _ Hh).
    rewrite update_other by (unfold y_var, z_var; lia).
    pose proof (unused_density _ _ _ _ _ Ha k i Hk) as Hy.
    rewrite length_fmap in Hy. by apply Hy.
Qed.

(** X17. The names of the stickers are labels only: two inputs with the
    same demands, in the same order, give the same model, and with the
    same solver the same status, [used_layouts], [layout_prints] and
    [total_pages]. *)
Theorem names_are_labels (solver : CpSolver) stickers stickers'
    max_layouts layout_capacity max_x_bound t :
  stickers.*2 = stickers'.*2 →
  built_model stickers max_layouts layout_capacity max_x_bound =
    built_model stickers' max_layouts layout_capacity max_x_bound ∧
  ∃ r r',
    solve_stickers_layout solver stickers max_layouts layout_capacity
      max_x_bound t = Some r ∧
    solve_stickers_layout solver stickers' max_layouts layout_capacity
      max_x_bound t = Some r' ∧
    r !! "status" = r' !! "status" ∧
    r !! "used_layouts" = r' !! "used_layouts" ∧
    r !! "layout_prints" = r' !! "layout_prints" ∧
    r !! "total_pages" = r' !! "total_pages".
Proof.
  intros Hd. split.
  - by rewrite !built_model_expected, Hd.
  - rewrite !solve_stickers_layout_run. cbv zeta. rewrite Hd.
    eexists _, _. split; [done|]. split; [done|].
    by destruct (found _).
Qed.
End free_flag.

(** * One layout for all the stickers *)

Lemma sum_first (f : nat → Z) (n : nat) :
  (0 < n)%nat → (∀ k, (0 < k < n)%nat → f k = 0) → sum (f <$> seq 0 n) = f 0%nat.
Proof.
  intros Hn Hf. destruct n as [|n]; [lia|]. cbn [seq]. csimpl.
  rewrite sum_zeros; [lia|].
  intros c (k & -> & Hk%elem_of_seq)%list_elem_of_fmap. apply Hf. lia.
Qed.

Section single.
Variables (demands : list Z) (ml cap mx X : Z).
Hypothesis Hml : 1 ≤ ml.
Hypothesis Hcap : len demands ≤ cap.
Hypothesis HX : 0 ≤ X ≤ mx.
Hypothesis Hdemands : ∀ d, d ∈ demands → d ≤ X.
Local Abbreviation n := (Z.to_nat ml).
Local Abbreviation N := (length demands).

Lemma one_layout_x k :
  (k < n)%nat → one_layout n N X (x_var k) = if decide (k = 0%nat) then X else 0.
Proof.
  clear Hcap HX Hdemands.
  intros Hk. unfold one_layout, x_var, z_var.
  repeat case_decide; try done; lia.
Qed.

Lemma one_layout_z k :
  (k < n)%nat → one_layout n N X (z_var n k) = if decide (k = 0%nat) then 1 else 0.
Proof.
  clear Hcap HX Hdemands.
  intros Hk. unfold one_layout, x_var, z_var.
  repeat case_decide; try done; lia.
Qed.

Lemma one_layout_y k i :
  (k < n)%nat → (i < N)%nat →
  one_layout n N X (y_var n N k i) = if decide (k = 0%nat) then 1 else 0.
Proof.
  clear Hcap HX Hdemands.
  intros Hk Hi. pose proof (grid_lt N n k i Hk Hi).
  unfold one_layout, x_var, z_var, y_var.
  repeat case_decide; try done; nia.
Qed.

Lemma one_layout_w k i :
  (k < n)%nat → (i < N)%nat →
  one_layout n N X (w_var n N k i) = if decide (k = 0%nat) then X else 0.
Proof.
  clear Hcap HX Hdemands.
  intros Hk Hi. pose proof (grid_lt N n k i Hk Hi).
  unfold one_layout, x_var, z_var, w_var.
  repeat case_decide; try done; nia.
Qed.

Lemma one_layout_column (f : nat → IntVar) (c : Z) :
  (∀ k, (k < n)%nat → one_layout n N X (f k) = if decide (k = 0%nat) then c else 0) →
  sum_values (one_layout n N X) (f <$> seq 0 n) = c.
Proof.
  clear Hcap HX Hdemands.
  intros Hf. rewrite sum_values_fmap, sum_first.
  - by rewrite Hf by lia.
  - lia.
  - intros k Hk. rewrite Hf by lia. by rewrite decide_False by lia.
Qed.

Lemma one_layout_row k :
  (k < n)%nat →
  sum_values (one_layout n N X) (y_var n N k <$> seq 0 N) =
  if decide (k = 0%nat) then len demands else 0.
Proof.
  clear Hcap HX Hdemands.
  intros Hk. rewrite sum_values_fmap.
  rewrite (sum_fmap_ext _ (λ _, if decide (k = 0%nat) then 1 else 0)).
  - rewrite sum_fmap_const, length_seq. unfold len. case_decide; lia.
  - intros i Hi%elem_of_seq. apply one_layout_y; [done|lia].
Qed.

(** One layout with a slot for every sticker, printed as often as the
    largest demand asks, satisfies the model. *)
Lemma one_layout_feasible : feasible demands ml cap mx (one_layout n N X).
Proof.
  unfold len in Hcap. split.
  - intros k Hk. rewrite one_layout_x by done. case_decide; lia.
  - intros k Hk. rewrite one_layout_z by done. case_decide; lia.
  - intros k i Hk Hi. rewrite one_layout_y by done. case_decide; lia.
  - intros k i Hk Hi. rewrite one_layout_w by done. case_decide; nia.
  - intros k i Hk Hi. rewrite one_layout_w, one_layout_x, one_layout_y by done.
    case_decide; lia.
  - intros k Hk _. rewrite one_layout_row by done. unfold len. case_decide; lia.
  - intros k Hk. rewrite one_layout_z, one_layout_row by done.
    case_decide; [lia|done].
  - intros i d Hd.
    rewrite (one_layout_column (λ k, w_var n N k i) X).
    + apply Hdemands. by eapply list_elem_of_lookup_2.
    + intros k Hk. apply one_layout_w; [done|]. by eapply lookup_lt_Some.
  - rewrite (one_layout_column (z_var n) 1); [lia|]. apply one_layout_z.
  - intros i Hi. rewrite (one_layout_column (λ k, y_var n N k i) 1); [lia|].
    intros k Hk. by apply one_layout_y.
Qed.

Lemma one_layout_objective :
  objective_value (expected_model demands ml cap mx) (one_layout n N X) = X.
Proof.
  clear Hcap HX Hdemands.
  unfold objective_value. simpl. apply one_layout_column, one_layout_x.
Qed.
End single.

Section enough.
Context {Name : Type} `{Countable Name}.
Implicit Types stickers : list (Name * Z).

(** X18. One layout is enough when it has a slot for every sticker: with
    at least one layout, [len(stickers) <= layout_capacity] and every
    demand at most a count [X] within [0 .. max_x_bound], the model has a
    satisfying assignment of objective [X] (layout 0 with one copy of
    each sticker, printed [X] times).  So a solver that keeps its
    contract cannot prove the input infeasible, and a report of status
    [OPTIMAL] has [total_pages] at most [X]. *)
Theorem one_layout_suffices stickers max_layouts layout_capacity max_x_bound
    h m X :
  build_model stickers max_layouts layout_capacity max_x_bound new_model = Some (h, m) →
  1 ≤ max_layouts →
  len stickers ≤ layout_capacity →
  0 ≤ X ≤ max_x_bound →
  (∀ i nm d, stickers !! i = Some (nm, d) → d ≤ X) →
  satisfies m (one_layout (Z.to_nat max_layouts) (length stickers) X) ∧
  objective_value m (one_layout (Z.to_nat max_layouts) (length stickers) X) = X ∧
  ∀ (solver : CpSolver) t,
    solver_contract m (solver m t) → (solver m t).1 = OPTIMAL →
    ∃ r pages,
      solve_stickers_layout solver stickers max_layouts layout_capacity
        max_x_bound t = Some r ∧
      r !! "total_pages" = Some (PyInt pages) ∧
      0 ≤ pages ≤ X.
Proof.
  intros Hb Hml Hcap HX Hd. pose proof Hb as [-> Hh]%build_model_inv.
  assert (Hdemands : ∀ d, d ∈ stickers.*2 → d ≤ X).
  { intros d ([nm d'] & -> & (i & Hi)%list_elem_of_lookup_1)%list_elem_of_fmap.
    by apply (Hd i nm d'). }
  assert (Hlen : len (stickers.*2) ≤ layout_capacity)
    by (unfold len in *; by rewrite length_fmap).
  pose proof (one_layout_feasible _ _ _ _ _ Hml Hlen HX Hdemands) as Hone.
  pose proof (one_layout_objective (stickers.*2) _ layout_capacity max_x_bound X Hml)
    as Hobj.
  rewrite length_fmap in Hone, Hobj.
  split_and!; [by apply satisfies_expected|done|].
  intros solver t Hc Hopt.
  rewrite solve_stickers_layout_run. cbv zeta. rewrite Hopt. simpl.
  unfold solver_contract in Hc. rewrite Hopt in Hc.
  eexists _, _. split_and!; [done|done|..].
  - apply pages_of_objective with (demands := stickers.*2) (cap := layout_capacity)
      (mx := max_x_bound). apply satisfies_expected, Hc.
  - rewrite (pages_of_optimal _ _ _ _ _ Hc). rewrite <-Hobj.
    apply Hc. by apply satisfies_expected.
Qed.
End enough.

(** * The report adds up *)

Section adds_up.
Context {Name : Type} `{Countable Name}.
Implicit Types stickers : list (Name * Z).

(** Under distinct names the contents of a layout hold, under the name of
    sticker [i], its density when it is positive and nothing otherwise. *)
Lemma single_of_distinct n N a (names : list Name) k i nm :
  NoDup names → names !! i = Some nm → (i < N)%nat →
  default 0 (single_of n N a names k !! nm) = Z.max 0 (a (y_var n N k i)).
Proof.
  intros Hnd Hi HiN. unfold single_of.
  destruct (written _ N !! nm) as [v|] eqn:Hlook; simpl.
  - apply written_lookup_Some in Hlook
      as (j & Hj & (Hnm & -> & Hpos)%single_entry_Some & _).
    assert (j = i) as -> by (by apply (NoDup_lookup names j i nm Hnd)). lia.
  - destruct (decide (0 < a (y_var n N k i))) as [Hpos|]; [|lia].
    assert (is_Some (written (single_entry n N a names k) N !! nm)) as [v Hv].
    { apply (written_is_Some _ _ i nm (a (y_var n N k i))); [done|].
      by apply single_entry_Some. }
    congruence.
Qed.

(** X19. The report adds up: when the names are distinct, the [printed]
    of a sticker in [demand_checks] is the sum, over the layouts of
    [used_layouts], of [layout_prints[k]] times the density of the
    sticker in [layout_distributions[k]], a name that is not listed
    counting as 0. *)
Theorem printed_adds_up (solver : CpSolver) stickers max_layouts
    layout_capacity max_x_bound t h m :
  build_model stickers max_layouts layout_capacity max_x_bound new_model = Some (h, m) →
  solver_contract m (solver m t) →
  NoDup (stickers.*1) →
  ∃ r,
    solve_stickers_layout solver stickers max_layouts layout_capacity
      max_x_bound t = Some r ∧
    (reports_solution r →
     ∃ used prints dists checks,
       r !! "used_layouts" = Some (PyList used) ∧
       r !! "layout_prints" = Some (PyPrints prints) ∧
       r !! "layout_distributions" = Some (PyDistributions dists) ∧
       r !! "demand_checks" = Some (PyChecks checks) ∧
       ∀ i nm d, stickers !! i = Some (nm, d) →
         ∃ e, checks !! nm = Some e ∧
              printed e =
                sum ((λ k, default 0 (prints !! k) *
                           default 0 (dists !! k ≫= (.!! nm))) <$> used)).
Proof.
  intros Hb Hc Hnd. pose proof Hb as [-> Hh]%build_model_inv.
  destruct (solved solver _ _ _ _ t _ _ Hb Hc) as (r & Hr & _ & Hsol).
  exists r. split; [done|]. intros (Hfound & Ha & ->)%Hsol.
  set (a := (solver _ t).2) in *. set (n := Z.to_nat max_layouts) in *.
  eexists _, _, _, _. split_and!; [done..|].
  intros i nm d Hi.
  destruct (checks_of_lookup n a stickers i nm d Hi)
    as (j & dj & Hij & Hj & Hlast & Hlook).
  assert (j = i) as ->.
  { apply (NoDup_lookup (stickers.*1) j i nm Hnd);
      rewrite list_lookup_fmap; [by rewrite Hj|by rewrite Hi]. }
  assert (HiN : (i < length stickers)%nat) by (by eapply lookup_lt_Some).
  eexists. split; [exact Hlook|]. cbn [printed check_of]. unfold printed_of.
  rewrite sum_values_fmap.
  rewrite (sum_fmap_ext _ (λ k, a (x_var k) * a (y_var n (length stickers) k i))
             (used_of n a)).
  - unfold used_of.
    rewrite (sum_filter_eq (λ k, a (x_var k) * a (y_var n (length stickers) k i))).
    + apply sum_fmap_ext. intros k Hk%elem_of_seq.
      pose proof (w_link _ _ _ _ _ Ha k i) as Hw.
      rewrite length_fmap in Hw. apply Hw; [lia|done].
    + intros k Hk%elem_of_seq Hz.
      pose proof (unused_density _ _ _ _ _ Ha k i) as Hy.
      rewrite length_fmap in Hy. fold n in Hy. rewrite Hy; [lia|lia|done|].
      destruct (z_is_flag _ _ _ _ _ Ha k); [lia|done|done].
  - intros k [Hk Hz]%elem_of_used_of.
    assert (Hin : k ∈ used_of n a) by (by apply elem_of_used_of).
    rewrite prints_of_lookup, distributions_of_lookup, !decide_True by done.
    simpl. rewrite (single_of_distinct _ _ _ _ _ i) by
      (done || by rewrite list_lookup_fmap, Hi).
    pose proof (y_domain _ _ _ _ _ Ha k i) as Hy.
    rewrite length_fmap in Hy. fold n in Hy. specialize (Hy Hk HiN).
    by rewrite Z.max_r by lia.
Qed.
End adds_up.

(** * How many layouts are used *)

Section used_slots.
Variables (demands : list Z) (ml cap mx : Z) (a : Assignment).
Hypothesis Ha : feasible demands ml cap mx a.
Local Abbreviation n := (Z.to_nat ml).
Local Abbreviation N := (length demands).

(** The slots of the used layouts hold every sticker once. *)
Lemma stickers_le_used_slots :
  Z.of_nat N ≤ cap * Z.of_nat (length (used_of n a)).
Proof.
  assert (Hone : Z.of_nat N ≤
            sum ((λ i, sum ((λ k, a (y_var n N k i)) <$> seq 0 n)) <$> seq 0 N)).
  { assert (Z.of_nat N = sum ((λ _, 1) <$> seq 0 N)) as ->
      by (rewrite sum_fmap_const, length_seq; lia).
    apply sum_fmap_le.
    intros i Hi%elem_of_seq. rewrite <-sum_values_fmap.
    apply (presence _ _ _ _ _ Ha). lia. }
  etrans; [exact Hone|].
  rewrite (sum_fmap_exchange (λ k i, a (y_var n N k i))).
  assert (cap * Z.of_nat (length (used_of n a)) =
          sum ((λ k, if decide (a (z_var n k) = 1) then cap else 0) <$> seq 0 n)) as ->.
  { rewrite <-(sum_filter_if (λ _, cap)), sum_fmap_const. unfold used_of. lia. }
  apply sum_fmap_le. intros k Hk%elem_of_seq. rewrite <-sum_values_fmap.
  destruct (z_is_flag _ _ _ _ _ Ha k ltac:(lia)) as [Hz|Hz].
  - rewrite (capacity_unused _ _ _ _ _ Ha k ltac:(lia) Hz).
    rewrite decide_False by lia. done.
  - rewrite decide_True by done.
    apply (used_row_capacity _ _ _ _ _ Ha k ltac:(lia) Hz).
Qed.
End used_slots.

Section count.
Context {Name : Type} `{Countable Name}.
Implicit Types stickers : list (Name * Z).

(** X20. In every report of a solution the used layouts have a slot for
    every sticker: [len(stickers) <= layout_capacity * len(used_layouts)],
    so at least [len(stickers) / layout_capacity] layouts are used. *)
Theorem used_layouts_hold_every_sticker (solver : CpSolver) stickers max_layouts
    layout_capacity max_x_bound t h m :
  build_model stickers max_layouts layout_capacity max_x_bound new_model = Some (h, m) →
  solver_contract m (solver m t) →
  ∃ r,
    solve_stickers_layout solver stickers max_layouts layout_capacity
      max_x_bound t = Some r ∧
    (reports_solution r →
     ∃ used,
       r !! "used_layouts" = Some (PyList used) ∧
       len stickers ≤ layout_capacity * len used).
Proof.
  intros Hb Hc.
  destruct (solved solver _ _ _ _ t _ _ Hb Hc) as (r & Hr & _ & Hsol).
  exists r. split; [done|]. intros (Hfound & Ha & ->)%Hsol.
  eexists. split; [done|].
  pose proof (stickers_le_used_slots _ _ _ _ _ Ha) as Hslots.
  by rewrite length_fmap in Hslots.
Qed.
End count.

(** * Relaxing the input *)


Section relaxed.
Context {Name : Type} `{Countable Name}.
Implicit Types stickers : list (Name * Z).

End relaxed.

(** * The numbers of the report *)

Section numbers.
Context {Name : Type} `{Countable Name}.
Implicit Types stickers : list (Name * Z).

(** X22. The numbers of a report of a solution stay within the bounds
    given to the variables: every value of [layout_prints] is within
    [0 .. max_x_bound], and every entry of [demand_checks] has a
    [printed] within [0 .. max_layouts * max_x_bound * layout_capacity]
    that is at least its [required], so that [met] is never false. *)
Theorem reported_numbers_within_bounds (solver : CpSolver) stickers max_layouts
    layout_capacity max_x_bound t h m :
  build_model stickers max_layouts layout_capacity max_x_bound new_model = Some (h, m) →
  solver_contract m (solver m t) →
  ∃ r,
    solve_stickers_layout solver stickers max_layouts layout_capacity
      max_x_bound t = Some r ∧
    (reports_solution r →
     ∃ prints checks,
       r !! "layout_prints" = Some (PyPrints prints) ∧
       r !! "demand_checks" = Some (PyChecks checks) ∧
       (∀ k v, prints !! k = Some v → 0 ≤ v ≤ max_x_bound) ∧
       (∀ nm e, checks !! nm = Some e →
          0 ≤ printed e ≤ Z.max 0 max_layouts * (max_x_bound * layout_capacity) ∧
          required e ≤ printed e ∧
          met e = true)).
Proof.
  intros Hb Hc.
  destruct (solved solver _ _ _ _ t _ _ Hb Hc) as (r & Hr & _ & Hsol).
  exists r. split; [done|]. intros (Hfound & Ha & ->)%Hsol.
  set (a := (solver _ t).2) in *.
  eexists _, _. split_and!; [done|done| |].
  - intros k v. rewrite prints_of_lookup. case_decide as Hk; [|done].
    intros [= <-]. apply elem_of_used_of in Hk as [Hk _].
    by apply (x_domain _ _ _ _ _ Ha).
  - intros nm e (i & Hi & (d & Hs & ->)%checks_entry_Some & _)%written_lookup_Some.
    cbn [printed required met check_of]. unfold printed_of.
    pose proof (output_le_bounds _ _ _ _ _ Ha i) as Hout.
    rewrite length_fmap in Hout. specialize (Hout Hi).
    pose proof (demand_covered _ _ _ _ _ Ha i d) as Hcov.
    rewrite length_fmap, list_lookup_fmap, Hs in Hcov. specialize (Hcov eq_refl).
    split_and!.
    + apply sum_values_nonneg.
      intros v (k & -> & Hk%elem_of_seq)%list_elem_of_fmap.
      pose proof (w_domain _ _ _ _ _ Ha k i) as Hw.
      rewrite length_fmap in Hw. apply Hw; [lia|done].
    + lia.
    + done.
    + apply bool_decide_eq_true. lia.
Qed.
End numbers.

(** * The further theorems at concrete inputs *)

(** Scenario A: the one used layout is a key of both dictionaries. *)
Lemma report_keys_are_used_layouts_witness :
  (build_model scenario_A_stickers 1 2 100 new_model = Some (scenario_A_handles, scenario_A_model)) ∧
  (∃ r, solve_stickers_layout (answers FEASIBLE scenario_A_answer) scenario_A_stickers 1 2 100 300 = Some r ∧ (reports_solution r → ∃ used prints dists, r !! "used_layouts" = Some (PyList used) ∧ r !! "layout_prints" = Some (PyPrints prints) ∧ r !! "layout_distributions" = Some (PyDistributions dists) ∧ dom prints = list_to_set used ∧ dom dists = list_to_set used ∧ ∀ k, k ∈ used → ∃ xk, vars_x scenario_A_handles !! k = Some xk ∧ prints !! k = Some (((answers FEASIBLE scenario_A_answer) scenario_A_model 300).2 xk) ∧ is_Some (dists !! k))).
Proof.
  assert (H0 : build_model scenario_A_stickers 1 2 100 new_model = Some (scenario_A_handles, scenario_A_model))
    by (vm_compute; reflexivity).
  split; [exact H0|].
  exact (report_keys_are_used_layouts (answers FEASIBLE scenario_A_answer) scenario_A_stickers 1 2 100 300 scenario_A_handles scenario_A_model H0).
Defined.

(** One sticker on two layouts, of which the answer uses the first. *)
Lemma used_layouts_shape_witness :
  (build_model one_sticker 2 1 10 new_model = Some (one_sticker_handles, one_sticker_model)) ∧
  (∃ r, solve_stickers_layout (answers FEASIBLE idle_printed) one_sticker 2 1 10 300 = Some r ∧ (reports_solution r → ∃ used, r !! "used_layouts" = Some (PyList used) ∧ StronglySorted lt used ∧ NoDup used ∧ (∀ k, k ∈ used ↔ k ∈ range 2 ∧ ∃ zk, vars_z one_sticker_handles !! k = Some zk ∧ ((answers FEASIBLE idle_printed) one_sticker_model 300).2 zk = 1) ∧ len used ≤ Z.max 0 2)).
Proof.
  assert (H0 : build_model one_sticker 2 1 10 new_model = Some (one_sticker_handles, one_sticker_model))
    by (vm_compute; reflexivity).
  split; [exact H0|].
  exact (used_layouts_shape (answers FEASIBLE idle_printed) one_sticker 2 1 10 300 one_sticker_handles one_sticker_model H0).
Defined.

(** Scenario A with a feasible answer of 10 pages. *)
Lemma total_pages_is_sum_of_prints_witness :
  (build_model scenario_A_stickers 1 2 100 new_model = Some (scenario_A_handles, scenario_A_model)) ∧
  (solver_contract scenario_A_model ((answers FEASIBLE scenario_A_answer) scenario_A_model 300)) ∧
  (∃ r, solve_stickers_layout (answers FEASIBLE scenario_A_answer) scenario_A_stickers 1 2 100 300 = Some r ∧ (reports_solution r → ∃ pages prints, r !! "total_pages" = Some (PyInt pages) ∧ r !! "layout_prints" = Some (PyPrints prints) ∧ pages = dict_sum prints ∧ 0 ≤ pages ≤ objective_value scenario_A_model ((answers FEASIBLE scenario_A_answer) scenario_A_model 300).2 ∧ (((answers FEASIBLE scenario_A_answer) scenario_A_model 300).1 = OPTIMAL → pages = objective_value scenario_A_model ((answers FEASIBLE scenario_A_answer) scenario_A_model 300).2))).
Proof.
  assert (H0 : build_model scenario_A_stickers 1 2 100 new_model = Some (scenario_A_handles, scenario_A_model))
    by (vm_compute; reflexivity).
  assert (H1 : solver_contract scenario_A_model ((answers FEASIBLE scenario_A_answer) scenario_A_model 300))
    by (change (satisfies scenario_A_model (assignment_of scenario_A_answer)); apply (bool_decide_unpack (satisfies _ _)); vm_compute; exact I).
  split; [exact H0|]. split; [exact H1|].
  exact (total_pages_is_sum_of_prints (answers FEASIBLE scenario_A_answer) scenario_A_stickers 1 2 100 300 scenario_A_handles scenario_A_model H0 H1).
Defined.

(** Scenario A with the optimal answer of 10 pages. *)
Lemma optimal_total_pages_is_least_witness :
  (build_model scenario_A_stickers 1 2 100 new_model = Some (scenario_A_handles, scenario_A_model)) ∧
  (solver_contract scenario_A_model ((answers OPTIMAL scenario_A_answer) scenario_A_model 300)) ∧
  (((answers OPTIMAL scenario_A_answer) scenario_A_model 300).1 = OPTIMAL) ∧
  (∃ r pages, solve_stickers_layout (answers OPTIMAL scenario_A_answer) scenario_A_stickers 1 2 100 300 = Some r ∧ r !! "total_pages" = Some (PyInt pages) ∧ (∃ xs, mapM (λ k, vars_x scenario_A_handles !! k) (range 1) = Some xs ∧ pages = sum_values ((answers OPTIMAL scenario_A_answer) scenario_A_model 300).2 xs) ∧ ∀ a', satisfies scenario_A_model a' → ∃ xs, mapM (λ k, vars_x scenario_A_handles !! k) (range 1) = Some xs ∧ pages ≤ sum_values a' xs).
Proof.
  assert (H0 : build_model scenario_A_stickers 1 2 100 new_model = Some (scenario_A_handles, scenario_A_model))
    by (vm_compute; reflexivity).
  assert (H1 : solver_contract scenario_A_model ((answers OPTIMAL scenario_A_answer) scenario_A_model 300))
    by (change (optimal (expected_model [10; 5] 1 2 100) (assignment_of [10; 1; 1; 1; 10; 10])); apply scenario_A_optimal; lia).
  assert (H2 : ((answers OPTIMAL scenario_A_answer) scenario_A_model 300).1 = OPTIMAL)
    by (reflexivity).
  split; [exact H0|]. split; [exact H1|]. split; [exact H2|].
  exact (optimal_total_pages_is_least (answers OPTIMAL scenario_A_answer) scenario_A_stickers 1 2 100 300 scenario_A_handles scenario_A_model H0 H1 H2).
Defined.

(** No sticker: an answer that uses no layout and one that sets the flag of layout 0, both optimal. *)
Lemma optimal_total_pages_agree_witness :
  (build_model no_stickers 5 48 100000 new_model = Some (no_stickers_handles, no_stickers_model)) ∧
  (solver_contract no_stickers_model ((answers OPTIMAL all_zero) no_stickers_model 300)) ∧
  (((answers OPTIMAL all_zero) no_stickers_model 300).1 = OPTIMAL) ∧
  (solver_contract no_stickers_model ((answers OPTIMAL flag_set) no_stickers_model 60)) ∧
  (((answers OPTIMAL flag_set) no_stickers_model 60).1 = OPTIMAL) ∧
  (∃ r1 r2 pages, solve_stickers_layout (answers OPTIMAL all_zero) no_stickers 5 48 100000 300 = Some r1 ∧ solve_stickers_layout (answers OPTIMAL flag_set) no_stickers 5 48 100000 60 = Some r2 ∧ r1 !! "total_pages" = Some (PyInt pages) ∧ r2 !! "total_pages" = Some (PyInt pages)).
Proof.
  assert (H0 : build_model no_stickers 5 48 100000 new_model = Some (no_stickers_handles, no_stickers_model))
    by (vm_compute; reflexivity).
  assert (H1 : solver_contract no_stickers_model ((answers OPTIMAL all_zero) no_stickers_model 300))
    by (change (optimal (expected_model [] 5 48 100000) (assignment_of all_zero)); apply zero_objective_optimal; [apply (bool_decide_unpack (satisfies _ _)); vm_compute; exact I|vm_compute; reflexivity]).
  assert (H2 : ((answers OPTIMAL all_zero) no_stickers_model 300).1 = OPTIMAL)
    by (reflexivity).
  assert (H3 : solver_contract no_stickers_model ((answers OPTIMAL flag_set) no_stickers_model 60))
    by (change (optimal (expected_model [] 5 48 100000) (assignment_of flag_set)); apply zero_objective_optimal; [apply (bool_decide_unpack (satisfies _ _)); vm_compute; exact I|vm_compute; reflexivity]).
  assert (H4 : ((answers OPTIMAL flag_set) no_stickers_model 60).1 = OPTIMAL)
    by (reflexivity).
  split; [exact H0|]. split; [exact H1|]. split; [exact H2|]. split; [exact H3|]. split; [exact H4|].
  exact (optimal_total_pages_agree (answers OPTIMAL all_zero) (answers OPTIMAL flag_set) no_stickers 5 48 100000 300 60 no_stickers_handles no_stickers_model H0 H1 H2 H3 H4).
Defined.

(** Two stickers of one name on a layout of two slots. *)
Lemma reported_densities_witness :
  (build_model twins 1 2 100 new_model = Some (scenario_A_handles, twins_model)) ∧
  (solver_contract twins_model ((answers FEASIBLE twins_answer) twins_model 300)) ∧
  (∃ r, solve_stickers_layout (answers FEASIBLE twins_answer) twins 1 2 100 300 = Some r ∧ (reports_solution r → ∃ dists, r !! "layout_distributions" = Some (PyDistributions dists) ∧ ∀ k single, dists !! k = Some single → (∀ nm v, single !! nm = Some v → 1 ≤ v ≤ 2) ∧ (∀ nm, is_Some (single !! nm) ↔ ∃ i yki, twins.*1 !! i = Some nm ∧ vars_y scenario_A_handles !! (k, i) = Some yki ∧ 0 < ((answers FEASIBLE twins_answer) twins_model 300).2 yki))).
Proof.
  assert (H0 : build_model twins 1 2 100 new_model = Some (scenario_A_handles, twins_model))
    by (vm_compute; reflexivity).
  assert (H1 : solver_contract twins_model ((answers FEASIBLE twins_answer) twins_model 300))
    by (change (satisfies twins_model (assignment_of twins_answer)); apply (bool_decide_unpack (satisfies _ _)); vm_compute; exact I).
  split; [exact H0|]. split; [exact H1|].
  exact (reported_densities (answers FEASIBLE twins_answer) twins 1 2 100 300 scenario_A_handles twins_model H0 H1).
Defined.

(** Scenario A: 15 stickers on 10 pages of two slots. *)
Lemma pages_cover_total_demand_witness :
  (build_model scenario_A_stickers 1 2 100 new_model = Some (scenario_A_handles, scenario_A_model)) ∧
  (solver_contract scenario_A_model ((answers FEASIBLE scenario_A_answer) scenario_A_model 300)) ∧
  (∃ r, solve_stickers_layout (answers FEASIBLE scenario_A_answer) scenario_A_stickers 1 2 100 300 = Some r ∧ (reports_solution r → ∃ pages, r !! "total_pages" = Some (PyInt pages) ∧ sum (scenario_A_stickers.*2) ≤ 2 * pages)).
Proof.
  assert (H0 : build_model scenario_A_stickers 1 2 100 new_model = Some (scenario_A_handles, scenario_A_model))
    by (vm_compute; reflexivity).
  assert (H1 : solver_contract scenario_A_model ((answers FEASIBLE scenario_A_answer) scenario_A_model 300))
    by (change (satisfies scenario_A_model (assignment_of scenario_A_answer)); apply (bool_decide_unpack (satisfies _ _)); vm_compute; exact I).
  split; [exact H0|]. split; [exact H1|].
  exact (pages_cover_total_demand (answers FEASIBLE scenario_A_answer) scenario_A_stickers 1 2 100 300 scenario_A_handles scenario_A_model H0 H1).
Defined.


(** Two stickers against one layout of one slot. *)
Lemma too_many_stickers_no_solution_witness :
  (build_model scenario_A_stickers 1 1 100 new_model = Some (scenario_A_handles, (expected_model [10; 5] 1 1 100))) ∧
  (Z.max 0 1 * Z.max 0 1 < len scenario_A_stickers) ∧
  ((∀ a, ¬ satisfies (expected_model [10; 5] 1 1 100) a) ∧ ∀ (solver : CpSolver) t, solver_contract (expected_model [10; 5] 1 1 100) (solver (expected_model [10; 5] 1 1 100) t) → ∃ r, solve_stickers_layout solver scenario_A_stickers 1 1 100 t = Some r ∧ ¬ reports_solution r ∧ dom r = {["status"; "message"]}).
Proof.
  assert (H0 : build_model scenario_A_stickers 1 1 100 new_model = Some (scenario_A_handles, (expected_model [10; 5] 1 1 100)))
    by (vm_compute; reflexivity).
  assert (H1 : Z.max 0 1 * Z.max 0 1 < len scenario_A_stickers)
    by (vm_compute; reflexivity).
  split; [exact H0|]. split; [exact H1|].
  exact (too_many_stickers_no_solution scenario_A_stickers 1 1 100 scenario_A_handles (expected_model [10; 5] 1 1 100) H0 H1).
Defined.


(** One sticker of demand 0: the layout holds it and is not printed. *)
Lemma no_demand_prints_nothing_witness :
  (build_model free_sticker 1 1 10 new_model = Some (no_slot_handles, (expected_model [0] 1 1 10))) ∧
  ((∀ i nm d, free_sticker !! i = Some (nm, d) → d ≤ 0)) ∧
  (solver_contract (expected_model [0] 1 1 10) ((answers OPTIMAL nothing_printed) (expected_model [0] 1 1 10) 300)) ∧
  (((answers OPTIMAL nothing_printed) (expected_model [0] 1 1 10) 300).1 = OPTIMAL) ∧
  (∃ r used prints, solve_stickers_layout (answers OPTIMAL nothing_printed) free_sticker 1 1 10 300 = Some r ∧ r !! "total_pages" = Some (PyInt 0) ∧ r !! "layout_prints" = Some (PyPrints prints) ∧ r !! "used_layouts" = Some (PyList used) ∧ (∀ k v, prints !! k = Some v → v = 0) ∧ (∀ k xk, vars_x no_slot_handles !! k = Some xk → ((answers OPTIMAL nothing_printed) (expected_model [0] 1 1 10) 300).2 xk = 0) ∧ (free_sticker ≠ [] → used ≠ [])).
Proof.
  assert (H0 : build_model free_sticker 1 1 10 new_model = Some (no_slot_handles, (expected_model [0] 1 1 10)))
    by (vm_compute; reflexivity).
  assert (H1 : (∀ i nm d, free_sticker !! i = Some (nm, d) → d ≤ 0))
    by (intros i nm d Hi; apply (Forall_lookup_1 (λ s : string * Z, s.2 ≤ 0) free_sticker i (nm, d)); [repeat constructor; simpl; lia|exact Hi]).
  assert (H2 : solver_contract (expected_model [0] 1 1 10) ((answers OPTIMAL nothing_printed) (expected_model [0] 1 1 10) 300))
    by (change (optimal (expected_model [0] 1 1 10) (assignment_of nothing_printed)); apply zero_objective_optimal; [apply (bool_decide_unpack (satisfies _ _)); vm_compute; exact I|vm_compute; reflexivity]).
  assert (H3 : ((answers OPTIMAL nothing_printed) (expected_model [0] 1 1 10) 300).1 = OPTIMAL)
    by (reflexivity).
  split; [exact H0|]. split; [exact H1|]. split; [exact H2|]. split; [exact H3|].
  exact (no_demand_prints_nothing (answers OPTIMAL nothing_printed) free_sticker 1 1 10 300 no_slot_handles (expected_model [0] 1 1 10) H0 H1 H2 H3).
Defined.

(** Scenario A: one flag against [max_layouts = 1]. *)
Lemma cardinality_excludes_nothing_witness :
  (build_model scenario_A_stickers 1 2 100 new_model = Some (scenario_A_handles, scenario_A_model)) ∧
  (0 ≤ 1) ∧
  (∃ zs, mapM (λ k, vars_z scenario_A_handles !! k) (range 1) = Some zs ∧ {| enforcement_literal := []; body := Linear {| ble_terms := zs; ble_rel := LE; ble_bound := 1 |} |} ∈ constraints scenario_A_model ∧ ∀ a, in_domains a 0%nat (variables scenario_A_model) → sum_values a zs ≤ 1).
Proof.
  assert (H0 : build_model scenario_A_stickers 1 2 100 new_model = Some (scenario_A_handles, scenario_A_model))
    by (vm_compute; reflexivity).
  assert (H1 : 0 ≤ 1)
    by (lia).
  split; [exact H0|]. split; [exact H1|].
  exact (cardinality_excludes_nothing scenario_A_stickers 1 2 100 scenario_A_handles scenario_A_model H0 H1).
Defined.

(** Scenario A: the two names are the keys. *)
Lemma demand_checks_keys_witness :
  (build_model scenario_A_stickers 1 2 100 new_model = Some (scenario_A_handles, scenario_A_model)) ∧
  (∃ r, solve_stickers_layout (answers FEASIBLE scenario_A_answer) scenario_A_stickers 1 2 100 300 = Some r ∧ (reports_solution r → ∃ checks, r !! "demand_checks" = Some (PyChecks checks) ∧ dom checks = list_to_set (scenario_A_stickers.*1) ∧ (NoDup (scenario_A_stickers.*1) → size checks = length scenario_A_stickers ∧ ∀ i nm d, scenario_A_stickers !! i = Some (nm, d) → ∃ ws, mapM (λ k, vars_w scenario_A_handles !! (k, i)) (range 1) = Some ws ∧ checks !! nm = Some {| printed := sum_values ((answers FEASIBLE scenario_A_answer) scenario_A_model 300).2 ws; required := d; met := bool_decide (sum_values ((answers FEASIBLE scenario_A_answer) scenario_A_model 300).2 ws >= d) |}))).
Proof.
  assert (H0 : build_model scenario_A_stickers 1 2 100 new_model = Some (scenario_A_handles, scenario_A_model))
    by (vm_compute; reflexivity).
  split; [exact H0|].
  exact (demand_checks_keys (answers FEASIBLE scenario_A_answer) scenario_A_stickers 1 2 100 300 scenario_A_handles scenario_A_model H0).
Defined.

(** Scenario A: six variables and their handles. *)
Lemma handles_denote_variables_witness :
  (build_model scenario_A_stickers 1 2 100 new_model = Some (scenario_A_handles, scenario_A_model)) ∧
  (length (vars_x scenario_A_handles) = Z.to_nat 1 ∧ length (vars_z scenario_A_handles) = Z.to_nat 1 ∧ (∀ k i, is_Some (vars_y scenario_A_handles !! (k, i)) ↔ k ∈ range 1 ∧ i ∈ range (len scenario_A_stickers)) ∧ (∀ k i, is_Some (vars_w scenario_A_handles !! (k, i)) ↔ k ∈ range 1 ∧ i ∈ range (len scenario_A_stickers)) ∧ (∀ k v, vars_x scenario_A_handles !! k = Some v → variables scenario_A_model !! v = Some {| var_lb := 0; var_ub := 100; var_name := x_name k |}) ∧ (∀ k v, vars_z scenario_A_handles !! k = Some v → variables scenario_A_model !! v = Some {| var_lb := 0; var_ub := 1; var_name := z_name k |}) ∧ (∀ k i v, vars_y scenario_A_handles !! (k, i) = Some v → variables scenario_A_model !! v = Some {| var_lb := 0; var_ub := 2; var_name := y_name k i |}) ∧ (∀ k i v, vars_w scenario_A_handles !! (k, i) = Some v → variables scenario_A_model !! v = Some {| var_lb := 0; var_ub := 100 * 2; var_name := w_name k i |})).
Proof.
  assert (H0 : build_model scenario_A_stickers 1 2 100 new_model = Some (scenario_A_handles, scenario_A_model))
    by (vm_compute; reflexivity).
  split; [exact H0|].
  exact (handles_denote_variables scenario_A_stickers 1 2 100 scenario_A_handles scenario_A_model H0).
Defined.


(** One sticker on two layouts: the flag of the empty layout 1 is raised. *)
Lemma flag_does_not_mean_content_witness :
  (build_model one_sticker 2 1 10 new_model = Some (one_sticker_handles, one_sticker_model)) ∧
  (0 ≤ 1) ∧
  (satisfies one_sticker_model (assignment_of idle_at_rest)) ∧
  (vars_z one_sticker_handles !! 1%nat = Some 3%nat) ∧
  ((assignment_of idle_at_rest) 3%nat = 0) ∧
  (satisfies one_sticker_model (update (assignment_of idle_at_rest) 3%nat 1) ∧ objective_value one_sticker_model (update (assignment_of idle_at_rest) 3%nat 1) = objective_value one_sticker_model (assignment_of idle_at_rest) ∧ (optimal one_sticker_model (assignment_of idle_at_rest) → optimal one_sticker_model (update (assignment_of idle_at_rest) 3%nat 1)) ∧ (∀ i yki, vars_y one_sticker_handles !! (1%nat, i) = Some yki → update (assignment_of idle_at_rest) 3%nat 1 yki = 0)).
Proof.
  assert (H0 : build_model one_sticker 2 1 10 new_model = Some (one_sticker_handles, one_sticker_model))
    by (vm_compute; reflexivity).
  assert (H1 : 0 ≤ 1)
    by (lia).
  assert (H2 : satisfies one_sticker_model (assignment_of idle_at_rest))
    by (apply (bool_decide_unpack (satisfies _ _)); vm_compute; exact I).
  assert (H3 : vars_z one_sticker_handles !! 1%nat = Some 3%nat)
    by (reflexivity).
  assert (H4 : (assignment_of idle_at_rest) 3%nat = 0)
    by (reflexivity).
  split; [exact H0|]. split; [exact H1|]. split; [exact H2|]. split; [exact H3|]. split; [exact H4|].
  exact (flag_does_not_mean_content one_sticker 2 1 10 one_sticker_handles one_sticker_model (assignment_of idle_at_rest) 1%nat 3%nat H0 H1 H2 H3 H4).
Defined.

(** The stickers of [twins] under one name and under two. *)
Lemma names_are_labels_witness :
  (twins.*2 = renamed_twins.*2) ∧
  (built_model twins 1 2 100 = built_model renamed_twins 1 2 100 ∧ ∃ r r', solve_stickers_layout (answers FEASIBLE twins_answer) twins 1 2 100 300 = Some r ∧ solve_stickers_layout (answers FEASIBLE twins_answer) renamed_twins 1 2 100 300 = Some r' ∧ r !! "status" = r' !! "status" ∧ r !! "used_layouts" = r' !! "used_layouts" ∧ r !! "layout_prints" = r' !! "layout_prints" ∧ r !! "total_pages" = r' !! "total_pages").
Proof.
  assert (H0 : twins.*2 = renamed_twins.*2)
    by (reflexivity).
  split; [exact H0|].
  exact (names_are_labels (answers FEASIBLE twins_answer) twins renamed_twins 1 2 100 300 H0).
Defined.

(** Scenario A: one layout of two slots, printed 10 times. *)
Lemma one_layout_suffices_witness :
  (build_model scenario_A_stickers 1 2 100 new_model = Some (scenario_A_handles, scenario_A_model)) ∧
  (1 ≤ 1) ∧
  (len scenario_A_stickers ≤ 2) ∧
  (0 ≤ 10 ≤ 100) ∧
  ((∀ i nm d, scenario_A_stickers !! i = Some (nm, d) → d ≤ 10)) ∧
  (satisfies scenario_A_model (one_layout (Z.to_nat 1) (length scenario_A_stickers) 10) ∧ objective_value scenario_A_model (one_layout (Z.to_nat 1) (length scenario_A_stickers) 10) = 10 ∧ ∀ (solver : CpSolver) t, solver_contract scenario_A_model (solver scenario_A_model t) → (solver scenario_A_model t).1 = OPTIMAL → ∃ r pages, solve_stickers_layout solver scenario_A_stickers 1 2 100 t = Some r ∧ r !! "total_pages" = Some (PyInt pages) ∧ 0 ≤ pages ≤ 10).
Proof.
  assert (H0 : build_model scenario_A_stickers 1 2 100 new_model = Some (scenario_A_handles, scenario_A_model))
    by (vm_compute; reflexivity).
  assert (H1 : 1 ≤ 1)
    by (lia).
  assert (H2 : len scenario_A_stickers ≤ 2)
    by (vm_compute; discriminate).
  assert (H3 : 0 ≤ 10 ≤ 100)
    by (lia).
  assert (H4 : (∀ i nm d, scenario_A_stickers !! i = Some (nm, d) → d ≤ 10))
    by (intros i nm d Hi; apply (Forall_lookup_1 (λ s : string * Z, s.2 ≤ 10) scenario_A_stickers i (nm, d)); [repeat constructor; simpl; lia|exact Hi]).
  split; [exact H0|]. split; [exact H1|]. split; [exact H2|]. split; [exact H3|]. split; [exact H4|].
  exact (one_layout_suffices scenario_A_stickers 1 2 100 scenario_A_handles scenario_A_model 10 H0 H1 H2 H3 H4).
Defined.

(** Scenario A: 10 pages with one copy of each sticker. *)
Lemma printed_adds_up_witness :
  (build_model scenario_A_stickers 1 2 100 new_model = Some (scenario_A_handles, scenario_A_model)) ∧
  (solver_contract scenario_A_model ((answers FEASIBLE scenario_A_answer) scenario_A_model 300)) ∧
  (NoDup (scenario_A_stickers.*1)) ∧
  (∃ r, solve_stickers_layout (answers FEASIBLE scenario_A_answer) scenario_A_stickers 1 2 100 300 = Some r ∧ (reports_solution r → ∃ used prints dists checks, r !! "used_layouts" = Some (PyList used) ∧ r !! "layout_prints" = Some (PyPrints prints) ∧ r !! "layout_distributions" = Some (PyDistributions dists) ∧ r !! "demand_checks" = Some (PyChecks checks) ∧ ∀ i nm d, scenario_A_stickers !! i = Some (nm, d) → ∃ e, checks !! nm = Some e ∧ printed e = sum ((λ k, default 0 (prints !! k) * default 0 (dists !! k ≫= (.!! nm))) <$> used))).
Proof.
  assert (H0 : build_model scenario_A_stickers 1 2 100 new_model = Some (scenario_A_handles, scenario_A_model))
    by (vm_compute; reflexivity).
  assert (H1 : solver_contract scenario_A_model ((answers FEASIBLE scenario_A_answer) scenario_A_model 300))
    by (change (satisfies scenario_A_model (assignment_of scenario_A_answer)); apply (bool_decide_unpack (satisfies _ _)); vm_compute; exact I).
  assert (H2 : NoDup (scenario_A_stickers.*1))
    by (apply (bool_decide_unpack _); vm_compute; exact I).
  split; [exact H0|]. split; [exact H1|]. split; [exact H2|].
  exact (printed_adds_up (answers FEASIBLE scenario_A_answer) scenario_A_stickers 1 2 100 300 scenario_A_handles scenario_A_model H0 H1 H2).
Defined.

(** Scenario A: two stickers on one used layout of two slots. *)
Lemma used_layouts_hold_every_sticker_witness :
  (build_model scenario_A_stickers 1 2 100 new_model = Some (scenario_A_handles, scenario_A_model)) ∧
  (solver_contract scenario_A_model ((answers FEASIBLE scenario_A_answer) scenario_A_model 300)) ∧
  (∃ r, solve_stickers_layout (answers FEASIBLE scenario_A_answer) scenario_A_stickers 1 2 100 300 = Some r ∧ (reports_solution r → ∃ used, r !! "used_layouts" = Some (PyList used) ∧ len scenario_A_stickers ≤ 2 * len used)).
Proof.
  assert (H0 : build_model scenario_A_stickers 1 2 100 new_model = Some (scenario_A_handles, scenario_A_model))
    by (vm_compute; reflexivity).
  assert (H1 : solver_contract scenario_A_model ((answers FEASIBLE scenario_A_answer) scenario_A_model 300))
    by (change (satisfies scenario_A_model (assignment_of scenario_A_answer)); apply (bool_decide_unpack (satisfies _ _)); vm_compute; exact I).
  split; [exact H0|]. split; [exact H1|].
  exact (used_layouts_hold_every_sticker (answers FEASIBLE scenario_A_answer) scenario_A_stickers 1 2 100 300 scenario_A_handles scenario_A_model H0 H1).
Defined.


(** Scenario A: counts up to 100 and outputs up to 200. *)
Lemma reported_numbers_within_bounds_witness :
  (build_model scenario_A_stickers 1 2 100 new_model = Some (scenario_A_handles, scenario_A_model)) ∧
  (solver_contract scenario_A_model ((answers FEASIBLE scenario_A_answer) scenario_A_model 300)) ∧
  (∃ r, solve_stickers_layout (answers FEASIBLE scenario_A_answer) scenario_A_stickers 1 2 100 300 = Some r ∧ (reports_solution r → ∃ prints checks, r !! "layout_prints" = Some (PyPrints prints) ∧ r !! "demand_checks" = Some (PyChecks checks) ∧ (∀ k v, prints !! k = Some v → 0 ≤ v ≤ 100) ∧ (∀ nm e, checks !! nm = Some e → 0 ≤ printed e ≤ Z.max 0 1 * (100 * 2) ∧ required e ≤ printed e ∧ met e = true))).
Proof.
  assert (H0 : build_model scenario_A_stickers 1 2 100 new_model = Some (scenario_A_handles, scenario_A_model))
    by (vm_compute; reflexivity).
  assert (H1 : solver_contract scenario_A_model ((answers FEASIBLE scenario_A_answer) scenario_A_model 300))
    by (change (satisfies scenario_A_model (assignment_of scenario_A_answer)); apply (bool_decide_unpack (satisfies _ _)); vm_compute; exact I).
  split; [exact H0|]. split; [exact H1|].
  exact (reported_numbers_within_bounds (answers FEASIBLE scenario_A_answer) scenario_A_stickers 1 2 100 300 scenario_A_handles scenario_A_model H0 H1).
Defined.
